(** * setup.py: the environment bootstrapper of the leprosy-detection application

    A shallow embedding of [setup.py] and the properties of its five stages
    (version gate, dependency gate, credential gate, directory provisioning,
    data-preparation cascade) and of [main].

    The script is effectful throughout, so the embedding is an explicit
    state-and-exception monad over a [World]: the process environment, a flat
    file system, the lines still to be read from standard input, what was
    written to standard output, the log records, and the trace of external
    processes launched so far. Everything the script cannot decide itself
    (interpreter version, which modules import, what a launched process does
    to the file system and with which code it exits, which directories refuse
    new entries, the umask) is a [Platform], over which every theorem
    quantifies.

    Modelling decisions, stated once:
    - a Python [str] is a [string] whose characters are code points below 256;
    - a path is the list of its components; ["~"] as first component stands
      for the expanded home directory; the empty path is the working
      directory, which always exists;
    - importing a module either succeeds or raises [ImportError];
    - a launched process runs to its end, changes nothing but the file
      system, and leaves standard input alone;
    - the interpreter compiles the whole file before it runs the first
      statement of it: the functions of the script describe what runs once
      the file has compiled, and [script] puts the compile step in front of
      them;
    - symbolic links and signals are not modelled. *)

From stdpp Require Import base strings list gmap pretty.
From Stdlib Require Import ZArith NArith Ascii String.

Local Open Scope string_scope.
Local Open Scope list_scope.

(** ** Python strings *)

Module PyStr.

(** [str.lower] on one code point below 256: A-Z, and the Latin-1 capitals
    U+00C0..U+00DE except the multiplication sign U+00D7. *)
Definition lower_char (c : ascii) : ascii :=
  let n := N_of_ascii c in
  if ((65 <=? n) && (n <=? 90))%N
     || ((192 <=? n) && (n <=? 222) && negb (n =? 215))%N
  then ascii_of_N (n + 32) else c.

Fixpoint lower (s : string) : string :=
  match s with
  | EmptyString => EmptyString
  | String c s' => String (lower_char c) (lower s')
  end.

(** [s.replace(old, new)] for one-character [old] and [new]. *)
Fixpoint replace (old new : ascii) (s : string) : string :=
  match s with
  | EmptyString => EmptyString
  | String c s' =>
      String (if Ascii.eqb c old then new else c) (replace old new s')
  end.

(** [sep.join(l)] *)
Fixpoint join (sep : string) (l : list string) : string :=
  match l with
  | [] => ""
  | [x] => x
  | x :: rest => x ++ sep ++ join sep rest
  end.

(** Truthiness of a [str]: only the empty string is false. *)
Definition truthy (s : string) : bool :=
  match s with EmptyString => false | _ => true end.

Fixpoint has_nul (s : string) : bool :=
  match s with
  | EmptyString => false
  | String c s' => Ascii.eqb c "000"%char || has_nul s'
  end.

Fixpoint split_on (sep : ascii) (s : string) : list string :=
  match s with
  | EmptyString => [EmptyString]
  | String c s' =>
      if Ascii.eqb c sep then EmptyString :: split_on sep s'
      else match split_on sep s' with
           | x :: xs => String c x :: xs
           | [] => [String c EmptyString]
           end
  end.

End PyStr.

(** ** The world the script runs in *)

Abbreviation path := (list string).

(** The components of a slash-separated path name. *)
Definition components (name : string) : path :=
  filter (λ x, x ≠ "") (PyStr.split_on "/" name).
Arguments components : simpl never.

Inductive node :=
  | Dir
  | File (content : string) (mode : N).

#[global] Instance node_eq_dec : EqDecision node.
Proof. solve_decision. Defined.

Inductive level := INFO | WARNING | ERROR.

Inductive exn :=
  | CalledProcessError
  | ImportError
  | EOFError
  | ValueError
  | FileExistsError
  | FileNotFoundError
  | NotADirectoryError
  | IsADirectoryError
  | PermissionError.

Definition is_OSError (e : exn) : bool :=
  match e with
  | FileExistsError | FileNotFoundError | NotADirectoryError
  | IsADirectoryError | PermissionError => true
  | _ => false
  end.

Definition is_FileExistsError (e : exn) : bool :=
  match e with FileExistsError => true | _ => false end.

Definition is_ImportError (e : exn) : bool :=
  match e with ImportError => true | _ => false end.

Definition is_CalledProcessError (e : exn) : bool :=
  match e with CalledProcessError => true | _ => false end.

(** What the script depends on but cannot change. [spawn argv env files]
    is what running [sys.executable argv...] does: the file system it leaves
    behind and its exit code. *)
Record Platform := {
  version_info : N * N;
  importable : string → bool;
  spawn : list string → gmap string string → gmap path node
          → gmap path node * Z;
  readonly : gset path;
  umask : N
}.

Record World := {
  environ : gmap string string;
  fs : gmap path node;
  stdin : list string;
  stdout : list string;
  log : list (level * string);
  launched : list (list string * Z)
}.

Definition set_environ (f : gmap string string → gmap string string) (w : World) :=
  {| environ := f (environ w); fs := fs w; stdin := stdin w;
     stdout := stdout w; log := log w; launched := launched w |}.

Definition set_fs (f : gmap path node → gmap path node) (w : World) :=
  {| environ := environ w; fs := f (fs w); stdin := stdin w;
     stdout := stdout w; log := log w; launched := launched w |}.

Definition add_log (r : level * string) (w : World) :=
  {| environ := environ w; fs := fs w; stdin := stdin w;
     stdout := stdout w; log := log w ++ [r]; launched := launched w |}.

Definition read_line (prompt : string) (rest : list string) (w : World) :=
  {| environ := environ w; fs := fs w; stdin := rest;
     stdout := stdout w ++ [prompt]; log := log w; launched := launched w |}.

Definition ran (argv : list string) (files : gmap path node) (code : Z) (w : World) :=
  {| environ := environ w; fs := files; stdin := stdin w;
     stdout := stdout w; log := log w;
     launched := launched w ++ [(argv, code)] |}.

(** ** State and exceptions *)

Inductive result (A : Type) :=
  | Ok (a : A) (w : World)
  | Raise (e : exn) (w : World).
Arguments Ok {A} a w.
Arguments Raise {A} e w.

Definition world_of {A} (r : result A) : World :=
  match r with Ok _ w => w | Raise _ w => w end.

Definition M (A : Type) := World → result A.

Definition ret {A} (a : A) : M A := λ w, Ok a w.

Definition bind {A B} (m : M A) (k : A → M B) : M B :=
  λ w, match m w with
       | Ok a w' => k a w'
       | Raise e w' => Raise e w'
       end.

Definition raise {A} (e : exn) : M A := λ w, Raise e w.

(** [try: m  except <handled>: h] *)
Definition try_except {A} (m : M A) (handled : exn → bool) (h : exn → M A) : M A :=
  λ w, match m w with
       | Ok a w' => Ok a w'
       | Raise e w' => if handled e then h e w' else Raise e w'
       end.

Declare Scope py_scope.
Delimit Scope py_scope with py.
Notation "'let*' x ':=' m 'in' k" := (bind m (λ x, k))
  (at level 10, x name, m at level 100, k at level 200) : py_scope.
Notation "m ';;;' k" := (bind m (λ _, k))
  (at level 100, k at level 200, right associativity) : py_scope.
Local Open Scope py_scope.

(** [for x in l: body x] *)
Fixpoint for_each {A} (l : list A) (body : A → M unit) : M unit :=
  match l with
  | [] => ret tt
  | x :: rest => body x ;;; for_each rest body
  end.

(** A loop that threads one local variable through its iterations. *)
Fixpoint for_fold {A S} (l : list A) (body : A → S → M S) (s : S) : M S :=
  match l with
  | [] => ret s
  | x :: rest => let* s' := body x s in for_fold rest body s'
  end.

(** ** [json.dump] of a dict of strings, and reading it back *)

Module Json.

Definition quote : ascii := "034"%char.
Definition backslash : ascii := "092"%char.

Definition hex_digit (n : N) : ascii :=
  if (n <? 10)%N then ascii_of_N (48 + n) else ascii_of_N (87 + n).

(** The replacement [json.encoder.py_encode_basestring_ascii] makes for one
    character: the two-character escapes of [ESCAPE_DCT], the character
    itself between space and tilde, and a [\u00XX] escape otherwise. *)
Definition escape_char (c : ascii) : string :=
  let n := N_of_ascii c in
  if (n =? 34)%N then String backslash (String quote "")
  else if (n =? 92)%N then String backslash (String backslash "")
  else if (n =? 8)%N then String backslash "b"
  else if (n =? 12)%N then String backslash "f"
  else if (n =? 10)%N then String backslash "n"
  else if (n =? 13)%N then String backslash "r"
  else if (n =? 9)%N then String backslash "t"
  else if ((32 <=? n) && (n <=? 126))%N then String c ""
  else String backslash
         (String "u" (String "0" (String "0"
            (String (hex_digit (n / 16)) (String (hex_digit (n mod 16)) ""))))).

Fixpoint escape (s : string) : string :=
  match s with
  | EmptyString => ""
  | String c s' => escape_char c ++ escape s'
  end.

Definition encode_basestring_ascii (s : string) : string :=
  String quote (escape s ++ String quote "").

Definition encode_item (kv : string * string) : string :=
  encode_basestring_ascii kv.1 ++ ": " ++ encode_basestring_ascii kv.2.

(** [json.dumps(d)] for a dict [d] of string keys and string values, given
    as its items in insertion order; default separators. *)
Definition dumps (d : list (string * string)) : string :=
  "{" ++ PyStr.join ", " (encode_item <$> d) ++ "}".

(** Reading: the text of a JSON object whose members are strings
    (RFC 8259), with code points restricted to those below 256. *)

Definition hex_value (c : ascii) : option N :=
  let n := N_of_ascii c in
  if ((48 <=? n) && (n <=? 57))%N then Some (n - 48)%N
  else if ((97 <=? n) && (n <=? 102))%N then Some (n - 87)%N
  else if ((65 <=? n) && (n <=? 70))%N then Some (n - 55)%N
  else None.

Definition code_point (h1 h2 h3 h4 : ascii) : option ascii :=
  match hex_value h1, hex_value h2, hex_value h3, hex_value h4 with
  | Some a, Some b, Some c, Some d =>
      let n := (((a * 16 + b) * 16 + c) * 16 + d)%N in
      if (n <? 256)%N then Some (ascii_of_N n) else None
  | _, _, _, _ => None
  end.

Definition simple_escape (e : ascii) : option ascii :=
  let n := N_of_ascii e in
  if (n =? 34)%N then Some quote
  else if (n =? 92)%N then Some backslash
  else if (n =? 47)%N then Some "/"%char
  else if (n =? 98)%N then Some "008"%char
  else if (n =? 102)%N then Some "012"%char
  else if (n =? 110)%N then Some "010"%char
  else if (n =? 114)%N then Some "013"%char
  else if (n =? 116)%N then Some "009"%char
  else None.

Definition cons_char (c : ascii) (r : option (string * string)) :=
  match r with
  | Some (x, rest) => Some (String c x, rest)
  | None => None
  end.

(** The characters of a string literal after its opening quote, up to the
    closing quote; returns the string and what follows it. *)
Fixpoint read_chars (s : string) : option (string * string) :=
  match s with
  | EmptyString => None
  | String c rest =>
      if Ascii.eqb c quote then Some ("", rest)
      else if Ascii.eqb c backslash then
        match rest with
        | String e rest1 =>
            match simple_escape e with
            | Some d => cons_char d (read_chars rest1)
            | None =>
                if Ascii.eqb e "u" then
                  match rest1 with
                  | String h1 (String h2 (String h3 (String h4 rest2))) =>
                      match code_point h1 h2 h3 h4 with
                      | Some d => cons_char d (read_chars rest2)
                      | None => None
                      end
                  | _ => None
                  end
                else None
            end
        | EmptyString => None
        end
      else if (N_of_ascii c <? 32)%N then None
      else cons_char c (read_chars rest)
  end.

Definition is_space (c : ascii) : bool :=
  let n := N_of_ascii c in
  ((n =? 32) || (n =? 9) || (n =? 10) || (n =? 13))%N.

Fixpoint skip_space (s : string) : string :=
  match s with
  | String c rest => if is_space c then skip_space rest else s
  | EmptyString => s
  end.

Definition read_string (s : string) : option (string * string) :=
  match skip_space s with
  | String c rest => if Ascii.eqb c quote then read_chars rest else None
  | EmptyString => None
  end.

Definition expect (c : ascii) (s : string) : option string :=
  match skip_space s with
  | String c' rest => if Ascii.eqb c' c then Some rest else None
  | EmptyString => None
  end.

(** Members after the first, and the closing brace. [fuel] bounds the
    number of members. *)
Fixpoint read_members (fuel : nat) (s : string) : option (list (string * string)) :=
  match fuel with
  | O => None
  | S fuel' =>
      match read_string s with
      | None => None
      | Some (k, s1) =>
          match expect ":" s1 with
          | None => None
          | Some s2 =>
              match read_string s2 with
              | None => None
              | Some (v, s3) =>
                  match skip_space s3 with
                  | String c s4 =>
                      if Ascii.eqb c "}" then
                        match skip_space s4 with
                        | EmptyString => Some [(k, v)]
                        | _ => None
                        end
                      else if Ascii.eqb c "," then
                        match read_members fuel' s4 with
                        | Some l => Some ((k, v) :: l)
                        | None => None
                        end
                      else None
                  | EmptyString => None
                  end
              end
          end
      end
  end.

Definition loads (s : string) : option (list (string * string)) :=
  match expect "{" s with
  | None => None
  | Some s1 =>
      match skip_space s1 with
      | String c s2 =>
          if Ascii.eqb c "}" then
            match skip_space s2 with EmptyString => Some [] | _ => None end
          else read_members (String.length s) s1
      | EmptyString => None
      end
  end.

End Json.

(** ** The operating-system interface the script uses *)

Section Script.

Variable P : Platform.

(** [logger.info], [logger.warning], [logger.error] *)
Definition logger (lvl : level) (msg : string) : M unit :=
  λ w, Ok tt (add_log (lvl, msg) w).

(** [input(prompt)]: the prompt is written, one line is consumed; at end of
    input [EOFError] is raised. *)
Definition input (prompt : string) : M string :=
  λ w, match stdin w with
       | [] => Raise EOFError (read_line prompt [] w)
       | line :: rest => Ok line (read_line prompt rest w)
       end.

(** [os.environ.get(key)] *)
Definition environ_get (key : string) : M (option string) :=
  λ w, Ok (environ w !! key) w.

(** [os.environ[key] = value]; a value with an embedded null byte is
    refused with [ValueError]. *)
Definition environ_set (key value : string) : M unit :=
  λ w, if PyStr.has_nul value then Raise ValueError w
       else Ok tt (set_environ (insert key value) w).

Definition lookup_node (files : gmap path node) (p : path) : option node :=
  match p with
  | [] => Some Dir
  | _ => files !! p
  end.

(** [q] is an entry of the directory [p]. *)
Definition is_entry_of (p q : path) : bool :=
  match reverse q with
  | _ :: r => bool_decide (reverse r = p)
  | [] => false
  end.

Definition entries (files : gmap path node) (p : path) : list path :=
  filter (λ q, is_entry_of p q = true) (elements (dom files)).

(** [os.path.exists(p)] *)
Definition os_path_exists (p : path) : M bool :=
  λ w, Ok (match lookup_node (fs w) p with Some _ => true | None => false end) w.

(** [os.path.isdir(p)] *)
Definition os_path_isdir (p : path) : M bool :=
  λ w, Ok (match lookup_node (fs w) p with Some Dir => true | _ => false end) w.

(** [os.listdir(p)] *)
Definition os_listdir (p : path) : M (list string) :=
  λ w, match lookup_node (fs w) p with
       | None => Raise FileNotFoundError w
       | Some (File _ _) => Raise NotADirectoryError w
       | Some Dir => Ok ((λ q, default "" (last q)) <$> entries (fs w) p) w
       end.

(** [os.mkdir(p)] *)
Definition os_mkdir (p : path) : M unit :=
  λ w, match lookup_node (fs w) p with
       | Some _ => Raise FileExistsError w
       | None =>
           match lookup_node (fs w) (removelast p) with
           | None => Raise FileNotFoundError w
           | Some (File _ _) => Raise NotADirectoryError w
           | Some Dir =>
               if bool_decide (removelast p ∈ readonly P)
               then Raise PermissionError w
               else Ok tt (set_fs (insert p Dir) w)
           end
       end.

(** [os.makedirs(name, exist_ok=exist_ok)], on the reversed components
    [tail :: head] of the name, after the library's own definition: the
    missing head is made first (a [FileExistsError] from it is passed over),
    then the leaf; an [OSError] from the leaf is dropped when [exist_ok]
    holds and the leaf is a directory. *)
Fixpoint os_makedirs_rev (exist_ok : bool) (rname : list string) : M unit :=
  match rname with
  | [] => raise FileNotFoundError
  | tail :: rhead =>
      let name := reverse rname in
      let head := reverse rhead in
      (let* head_exists := os_path_exists head in
       if (match rhead with [] => false | _ => true end) && negb head_exists
       then try_except (os_makedirs_rev exist_ok rhead)
                       is_FileExistsError (λ _, ret tt)
       else ret tt) ;;;
      try_except (os_mkdir name) is_OSError
        (λ e, let* isdir := os_path_isdir name in
              if negb exist_ok || negb isdir then raise e else ret tt)
  end.

Definition os_makedirs (name : path) (exist_ok : bool) : M unit :=
  os_makedirs_rev exist_ok (reverse name).

(** [with open(p, "w") as f: f.write(content)]: an existing file is
    truncated and keeps its mode (it must be writable by its owner); a new
    file is created with mode [0o666 & ~umask]. *)
Definition open_write (p : path) (content : string) : M unit :=
  λ w, match lookup_node (fs w) p with
       | Some Dir => Raise IsADirectoryError w
       | Some (File _ mode) =>
           if N.testbit mode 7
           then Ok tt (set_fs (insert p (File content mode)) w)
           else Raise PermissionError w
       | None =>
           match lookup_node (fs w) (removelast p) with
           | None => Raise FileNotFoundError w
           | Some (File _ _) => Raise NotADirectoryError w
           | Some Dir =>
               if bool_decide (removelast p ∈ readonly P)
               then Raise PermissionError w
               else Ok tt (set_fs (insert p (File content (N.ldiff 438 (umask P)))) w)
           end
       end.

(** [os.chmod(p, mode)] *)
Definition os_chmod (p : path) (mode : N) : M unit :=
  λ w, match lookup_node (fs w) p with
       | None => Raise FileNotFoundError w
       | Some Dir => Ok tt w
       | Some (File content _) => Ok tt (set_fs (insert p (File content mode)) w)
       end.

(** [subprocess.check_call([sys.executable] + argv)]: the process runs to
    its end and is recorded with its exit code; a non-zero code raises
    [CalledProcessError]. *)
Definition subprocess_check_call (argv : list string) : M unit :=
  λ w, let r := spawn P argv (environ w) (fs w) in
       let w' := ran argv r.1 r.2 w in
       if (r.2 =? 0)%Z then Ok tt w' else Raise CalledProcessError w'.

(** [__import__(name)] *)
Definition import_module (name : string) : M unit :=
  λ w, if importable P name then Ok tt w else Raise ImportError w.

(** ** The script

    The functions of [setup.py], as they run once the file has compiled. *)

Definition check_python_version : M bool :=
  let major := (version_info P).1 in
  let minor := (version_info P).2 in
  if (major <? 3)%N || ((major =? 3)%N && (minor <? 8)%N) then
    logger ERROR "Python 3.8 or higher is required." ;;;
    ret false
  else
    logger INFO ("Python version " ++ pretty major ++ "." ++ pretty minor
                 ++ " detected.") ;;;
    ret true.

Definition required_packages : list string :=
  [ "flask"; "flask-login"; "flask-sqlalchemy"; "flask-wtf";
    "matplotlib"; "numpy"; "opencv-python"; "pandas"; "scikit-learn";
    "pillow"; "werkzeug"; "gunicorn" ].

(** The body of the loop over [required_packages]; [missing] is the list
    [missing_packages] built so far. *)
Definition probe_package (package : string) (missing : list string) : M (list string) :=
  try_except
    (import_module (PyStr.replace "-" "_" package) ;;;
     logger INFO ("Package " ++ package ++ " found.") ;;;
     ret missing)
    is_ImportError
    (λ _, logger WARNING ("Package " ++ package ++ " not found.") ;;;
          ret (missing ++ [package])).

Definition check_dependencies : M bool :=
  let* missing_packages := for_fold required_packages probe_package [] in
  match missing_packages with
  | _ :: _ =>
      logger ERROR ("Missing packages: " ++ PyStr.join ", " missing_packages) ;;;
      let* install := input "Do you want to install missing packages? (y/n): " in
      if String.eqb (PyStr.lower install) "y" then
        try_except
          (subprocess_check_call (["-m"; "pip"; "install"] ++ missing_packages) ;;;
           logger INFO "Packages installed successfully." ;;;
           ret true)
          is_CalledProcessError
          (λ _, logger ERROR "Failed to install packages." ;;;
                ret false)
      else
        logger WARNING "Continuing without installing missing packages." ;;;
        ret false
  | [] => ret true
  end.

(** [not value] for the result of [os.environ.get]. *)
Definition unset (value : option string) : bool :=
  match value with
  | None => true
  | Some s => negb (PyStr.truthy s)
  end.

Definition check_kaggle_credentials : M bool :=
  let* kaggle_username := environ_get "KAGGLE_USERNAME" in
  let* kaggle_key := environ_get "KAGGLE_KEY" in
  if unset kaggle_username || unset kaggle_key then
    let kaggle_json := components "~/.kaggle/kaggle.json" in
    let* found := os_path_exists kaggle_json in
    if found then
      logger INFO "Kaggle credentials found in ~/.kaggle/kaggle.json" ;;;
      ret true
    else
      logger WARNING "Kaggle credentials not found in environment variables or kaggle.json." ;;;
      let* setup_creds := input "Do you want to set up Kaggle credentials now? (y/n): " in
      if String.eqb (PyStr.lower setup_creds) "y" then
        let* username := input "Enter your Kaggle username: " in
        let* key := input "Enter your Kaggle API key: " in
        environ_set "KAGGLE_USERNAME" username ;;;
        environ_set "KAGGLE_KEY" key ;;;
        let* persist := input "Do you want to persist these credentials for future sessions? (y/n): " in
        (if String.eqb (PyStr.lower persist) "y" then
           let kaggle_dir := components "~/.kaggle" in
           os_makedirs kaggle_dir true ;;;
           open_write (kaggle_dir ++ ["kaggle.json"])
             (Json.dumps [("username", username); ("key", key)]) ;;;
           os_chmod (kaggle_dir ++ ["kaggle.json"]) 384 ;;;
           logger INFO "Kaggle credentials saved to ~/.kaggle/kaggle.json"
         else ret tt) ;;;
        ret true
      else
        logger WARNING "Continuing without Kaggle credentials." ;;;
        ret false
  else
    logger INFO "Kaggle credentials found in environment variables." ;;;
    ret true.

Definition directories : list string :=
  [ "model";
    "dataset";
    "dataset/leprosy_dataset";
    "dataset/leprosy_dataset/positive";
    "dataset/leprosy_dataset/negative";
    "dataset/leprosy_dataset/irrelevant";
    "test_samples";
    "test_samples/positive";
    "test_samples/negative";
    "test_results";
    "static/uploads";
    "instance" ].

Definition setup_directories : M bool :=
  for_each directories (λ directory,
    os_makedirs (components directory) true ;;;
    logger INFO ("Directory " ++ directory ++ " ensured.")) ;;;
  ret true.

(** [not os.path.exists(d) or len(os.listdir(d)) < n], evaluated left to
    right: a missing [d] is never listed. *)
Definition missing_or_short (d : path) (n : nat) : M bool :=
  let* found := os_path_exists d in
  if negb found then ret true
  else let* names := os_listdir d in ret (List.length names <? n)%nat.

(** [a or b] on two such tests: [b] is evaluated only when [a] is false. *)
Definition or_else (a b : M bool) : M bool :=
  let* x := a in if x then ret true else b.

(** Each of the three stages yields whether the function goes on; the
    source's [return False] inside a stage is the stage yielding false, after
    which nothing else runs. *)
Definition run_data_preparation : M bool :=
  let* model_exists := os_path_exists (components "model/leprosy_classifier.pkl") in
  if negb model_exists then
    let positive_dir := components "dataset/leprosy_dataset/positive" in
    let negative_dir := components "dataset/leprosy_dataset/negative" in
    let* incomplete :=
      or_else (missing_or_short positive_dir 10) (missing_or_short negative_dir 10) in
    let* downloaded :=
      if incomplete then
        logger INFO "Datasets not found or incomplete. Preparing to download..." ;;;
        let* credentials_ready := check_kaggle_credentials in
        if credentials_ready then
          logger INFO "Running prepare_kaggle_data.py..." ;;;
          try_except
            (subprocess_check_call ["prepare_kaggle_data.py"] ;;;
             logger INFO "Dataset preparation completed successfully." ;;;
             ret true)
            is_CalledProcessError
            (λ _, logger ERROR "Failed to prepare datasets." ;;;
                  ret false)
        else
          logger ERROR "Cannot prepare datasets without Kaggle credentials." ;;;
          ret false
      else
        logger INFO "Datasets already downloaded." ;;;
        ret true in
    if negb downloaded then ret false
    else
      let test_pos_dir := components "test_samples/positive" in
      let test_neg_dir := components "test_samples/negative" in
      let* samples_incomplete :=
        or_else (missing_or_short test_pos_dir 5) (missing_or_short test_neg_dir 5) in
      let* sampled :=
        if samples_incomplete then
          logger INFO "Test samples not found or incomplete. Preparing..." ;;;
          try_except
            (subprocess_check_call ["prepare_test_samples.py"] ;;;
             logger INFO "Test samples prepared successfully." ;;;
             ret true)
            is_CalledProcessError
            (λ _, logger ERROR "Failed to prepare test samples." ;;;
                  ret false)
        else
          logger INFO "Test samples already prepared." ;;;
          ret true in
      if negb sampled then ret false
      else
        logger INFO "Training the model..." ;;;
        try_except
          (subprocess_check_call ["retrain_model.py"] ;;;
           logger INFO "Model training completed successfully." ;;;
           ret true)
          is_CalledProcessError
          (λ _, logger ERROR "Failed to train the model." ;;;
                ret false)
  else
    logger INFO "Model already exists. Skipping data preparation and training." ;;;
    ret true.

Definition main : M bool :=
  logger INFO "Starting setup for Leprosy Detection AI Application..." ;;;
  let* version_ok := check_python_version in
  if negb version_ok then
    logger ERROR "Setup failed: Incompatible Python version." ;;;
    ret false
  else
    let* deps_ok := check_dependencies in
    (if negb deps_ok then
       logger WARNING "Setup may not work correctly without required packages."
     else ret tt) ;;;
    let* dirs_ok := setup_directories in
    if negb dirs_ok then
      logger ERROR "Setup failed: Could not create required directories." ;;;
      ret false
    else
      let* prepared := run_data_preparation in
      (if negb prepared then
         logger WARNING "Data preparation incomplete. The application may not work properly."
       else ret tt) ;;;
      logger INFO "Setup completed successfully!" ;;;
      logger INFO "To run the application, use: python main.py" ;;;
      ret true.

(** The [if __name__ == "__main__"] block: [sys.exit(1)] when [main]
    returns false; an exception that leaves [main] ends the interpreter with
    status 1 as well; otherwise the interpreter ends with status 0. *)
Definition exit_code (w : World) : Z :=
  match main w with
  | Ok true _ => 0
  | Ok false _ => 1
  | Raise _ _ => 1
  end.

End Script.

(** ** Compiling the file

    [setup.py] has formatted string literals on lines 22, 37, 40, 43 and 121
    (the first of them inside [check_python_version]), a syntax the
    interpreter accepts from version 3.6 on. An older interpreter rejects the
    file with a [SyntaxError] while compiling it: no statement of the file
    runs, not even [logging.basicConfig], so no function is called, nothing
    is logged, and the interpreter ends with status 1. *)
Definition f_strings_supported (P : Platform) : bool :=
  let major := (version_info P).1 in
  let minor := (version_info P).2 in
  (3 <? major)%N || ((major =? 3)%N && (6 <=? minor)%N).

Definition compiles (P : Platform) : Prop := f_strings_supported P = true.

(** What becomes of [python setup.py]: the file is rejected by the
    compiler, or its [__main__] block runs [main]. *)
Inductive outcome : Type :=
  | SyntaxError_at_compile_time
  | Ran (r : result bool).

Definition script (P : Platform) (w : World) : outcome :=
  if f_strings_supported P then Ran (main P w) else SyntaxError_at_compile_time.

(** The status with which the interpreter ends. *)
Definition exit_status (P : Platform) (w : World) : Z :=
  match script P w with
  | SyntaxError_at_compile_time => 1
  | Ran _ => exit_code P w
  end.

(** ** Vocabulary of the properties *)

(** The external processes launched between two worlds. *)
Definition new_launches (w w' : World) : list (list string * Z) :=
  drop (List.length (launched w)) (launched w').

(** The log records written between two worlds. *)
Definition new_log (w w' : World) : list (level * string) :=
  drop (List.length (log w)) (log w').

Definition marker : path := components "model/leprosy_classifier.pkl".
Definition kaggle_json : path := components "~/.kaggle/kaggle.json".

(** The interpreter is older than 3.8. *)
Definition below_3_8 (P : Platform) : Prop :=
  ((version_info P).1 < 3 ∨ ((version_info P).1 = 3 ∧ (version_info P).2 < 8))%N.

(** A class folder is missing, or holds fewer than [n] entries. *)
Definition short_of (files : gmap path node) (d : path) (n : nat) : bool :=
  match files !! d with
  | None => true
  | Some _ => (List.length (entries files d) <? n)%nat
  end.

Definition training_incomplete (files : gmap path node) : bool :=
  short_of files (components "dataset/leprosy_dataset/positive") 10
  || short_of files (components "dataset/leprosy_dataset/negative") 10.

(** Nothing but a directory, if anything, is at [d]. *)
Definition folder_or_absent (files : gmap path node) (d : path) : Prop :=
  files !! d = None ∨ files !! d = Some Dir.

(** A directory that [os.makedirs] finds in place: it is a directory and
    the path leading to it exists. *)
Definition ensured (files : gmap path node) (p : path) : Prop :=
  files !! p = Some Dir
  ∧ (removelast p = [] ∨ is_Some (files !! removelast p)).

(** Worlds related by a run that removed or replaced no file or directory. *)
Definition keeps_files : relation World :=
  λ w w', fs w ⊆ fs w'.

(** A computation moves the world along [R]. *)
Definition steps {A} (R : relation World) (m : M A) : Prop :=
  ∀ w, R w (world_of (m w)).

(** A computation lets no [CalledProcessError] escape. *)
Definition contains_process_failure {A} (m : M A) : Prop :=
  ∀ w w', m w ≠ Raise CalledProcessError w'.

(** Worlds related by a run whose launches all satisfy [K]. *)
Definition launches_only (K : list string * Z → Prop) : relation World :=
  λ w w', ∃ new, launched w' = launched w ++ new ∧ Forall K new.

(** Worlds related by a run that launched nothing. *)
Definition quiet : relation World := launches_only (λ _, False).

(** Worlds related by a run whose log records all satisfy [L]. *)
Definition logs_only (L : level * string → Prop) : relation World :=
  λ w w', ∃ new, log w' = log w ++ new ∧ Forall L new.

(** The three scripts of the cascade, as launched. *)
Definition download_argv : list string := ["prepare_kaggle_data.py"].
Definition samples_argv : list string := ["prepare_test_samples.py"].
Definition training_argv : list string := ["retrain_model.py"].

Definition cascade_argv (argv : list string) : Prop :=
  argv = download_argv ∨ argv = samples_argv ∨ argv = training_argv.

(** The package installer, as launched. *)
Definition pip_argv (argv : list string) : Prop :=
  ∃ packages, argv = ["-m"; "pip"; "install"] ++ packages.

(** A launch that exited with code zero. *)
Definition exited_zero (e : list string * Z) : Prop := e.2 = 0%Z.

(** A computation that, from every world, either launches only processes
    that exit with zero, or returns false right after an error record. *)
Definition fails_softly (m : M bool) : Prop :=
  ∀ w, launches_only exited_zero w (world_of (m w))
       ∨ ∃ w' msg, m w = Ok false w' ∧ last (log w') = Some (ERROR, msg).

Definition incomplete_warning : level * string :=
  (WARNING, "Data preparation incomplete. The application may not work properly.").

(** The record [main] writes in its branch for a failed directory stage. *)
Definition directories_failed : level * string :=
  (ERROR, "Setup failed: Could not create required directories.").

(** The modules the dependency check probes, and the packages it reports
    missing, as functions of what imports. *)
Definition probed_name (package : string) : string :=
  PyStr.replace "-" "_" package.

Definition missing_packages (imports : string → bool) : list string :=
  filter (λ package, imports (probed_name package) = false) required_packages.

(** The record the dependency check writes for one package. *)
Definition probe_record (imports : string → bool) (package : string) : level * string :=
  if imports (probed_name package)
  then (INFO, ("Package " ++ package ++ " found.")%string)
  else (WARNING, ("Package " ++ package ++ " not found.")%string).

Definition add_logs (records : list (level * string)) (w : World) : World :=
  foldl (λ w r, add_log r w) w records.

(** The same platform with another set of importable modules. *)
Definition with_imports (P : Platform) (imports : string → bool) : Platform :=
  {| version_info := version_info P; importable := imports;
     spawn := spawn P; readonly := readonly P; umask := umask P |}.

(** The responses that take the affirmative branch of a prompt. *)
Definition affirmative (response : string) : Prop :=
  response = "y" ∨ response = "Y".

Definition install_prompt : string :=
  "Do you want to install missing packages? (y/n): ".
Definition setup_prompt : string :=
  "Do you want to set up Kaggle credentials now? (y/n): ".
Definition persist_prompt : string :=
  "Do you want to persist these credentials for future sessions? (y/n): ".

(** Neither credential variable holds a non-empty value. *)
Definition no_credentials (w : World) : Prop :=
  unset (environ w !! "KAGGLE_USERNAME") || unset (environ w !! "KAGGLE_KEY") = true.

(** The block of [check_kaggle_credentials] under an affirmative answer to
    the persistence prompt. *)
Definition persist_credentials (P : Platform) (username key : string) : M unit :=
  (let kaggle_dir := components "~/.kaggle" in
   os_makedirs P kaggle_dir true ;;;
   open_write P (kaggle_dir ++ ["kaggle.json"])
     (Json.dumps [("username", username); ("key", key)]) ;;;
   os_chmod (kaggle_dir ++ ["kaggle.json"]) 384 ;;;
   logger INFO "Kaggle credentials saved to ~/.kaggle/kaggle.json")%py.

(** The block of [check_kaggle_credentials] under an affirmative answer to
    the set-up prompt. *)
Definition enter_credentials (P : Platform) : M bool :=
  (let* username := input "Enter your Kaggle username: " in
   let* key := input "Enter your Kaggle API key: " in
   environ_set "KAGGLE_USERNAME" username ;;;
   environ_set "KAGGLE_KEY" key ;;;
   let* persist := input "Do you want to persist these credentials for future sessions? (y/n): " in
   (if String.eqb (PyStr.lower persist) "y"
    then persist_credentials P username key
    else ret tt) ;;;
   ret true)%py.

(** The part of [run_data_preparation] after the download stage: the
    test-sample stage and the training stage. *)
Definition after_download (P : Platform) : M bool :=
  (let test_pos_dir := components "test_samples/positive" in
   let test_neg_dir := components "test_samples/negative" in
   let* samples_incomplete :=
     or_else (missing_or_short test_pos_dir 5) (missing_or_short test_neg_dir 5) in
   let* sampled :=
     if samples_incomplete then
       logger INFO "Test samples not found or incomplete. Preparing..." ;;;
       try_except
         (subprocess_check_call P ["prepare_test_samples.py"] ;;;
          logger INFO "Test samples prepared successfully." ;;;
          ret true)
         is_CalledProcessError
         (λ _, logger ERROR "Failed to prepare test samples." ;;;
               ret false)
     else
       logger INFO "Test samples already prepared." ;;;
       ret true in
   if negb sampled then ret false
   else
     logger INFO "Training the model..." ;;;
     try_except
       (subprocess_check_call P ["retrain_model.py"] ;;;
        logger INFO "Model training completed successfully." ;;;
        ret true)
       is_CalledProcessError
       (λ _, logger ERROR "Failed to train the model." ;;;
             ret false))%py.

(** Any record but the one of [main]'s branch for a failed directory stage. *)
Definition not_directories_failed (r : level * string) : Prop :=
  r ≠ directories_failed.

(** A regular file where the first directory of the layout should go. *)
Definition model_is_a_file : gmap path node :=
  {[ ["model"] := File "" 420 ]}.

(** A launch of anything but the download script. *)
Definition not_the_download (e : list string * Z) : Prop := e.1 ≠ download_argv.

(** The record written when the download stage is entered. *)
Definition download_announced : level * string :=
  (INFO, "Datasets not found or incomplete. Preparing to download...").

(** The body of the loop of [setup_directories]. *)
Definition ensure_directory (P : Platform) (directory : string) : M unit :=
  (os_makedirs P (components directory) true ;;;
   logger INFO ("Directory " ++ directory ++ " ensured."))%py.

(** The text of the credential file. *)
Definition credentials_json (username key : string) : string :=
  Json.dumps [("username", username); ("key", key)].

(** The interpreter is 3.8 or newer: major first, then minor. *)
Definition at_least_3_8 (P : Platform) : Prop :=
  (3 < (version_info P).1 ∨ ((version_info P).1 = 3 ∧ 8 ≤ (version_info P).2))%N.

(** The five records [check_kaggle_credentials] can write. *)
Definition found_in_environment : level * string :=
  (INFO, "Kaggle credentials found in environment variables.").
Definition found_in_file : level * string :=
  (INFO, "Kaggle credentials found in ~/.kaggle/kaggle.json").
Definition credentials_missing : level * string :=
  (WARNING, "Kaggle credentials not found in environment variables or kaggle.json.").
Definition credentials_saved : level * string :=
  (INFO, "Kaggle credentials saved to ~/.kaggle/kaggle.json").
Definition credentials_declined : level * string :=
  (WARNING, "Continuing without Kaggle credentials.").

Definition credential_records : list (level * string) :=
  [ found_in_environment; found_in_file; credentials_missing;
    credentials_saved; credentials_declined ].

Definition credential_record (r : level * string) : Prop :=
  r ∈ credential_records.

(** The record [main] writes when the dependency check returned false. *)
Definition packages_warning : level * string :=
  (WARNING, "Setup may not work correctly without required packages.").

(** The installer command for a list of packages. *)
Definition pip_install (packages : list string) : list string :=
  ["-m"; "pip"; "install"] ++ packages.

(** [p] is the name [name] or one of the directories leading to it. *)
Definition leads_to (name p : path) : Prop :=
  p ≠ [] ∧ p `prefix_of` name.

(** [p] is one of the listed directories or leads to one. *)
Definition in_layout (p : path) : Prop :=
  ∃ directory, directory ∈ directories ∧ leads_to (components directory) p.

(** Worlds related by a run whose only effect on the files is to create
    directories at paths that satisfy [allowed] and were free. *)
Definition adds_directories (allowed : path → Prop) : relation World :=
  λ w w', ∀ p, fs w' !! p ≠ fs w !! p →
               fs w !! p = None ∧ fs w' !! p = Some Dir ∧ allowed p.

(** Worlds related by a run that touched only the files and the log. *)
Definition files_and_log_only : relation World :=
  λ w w', environ w' = environ w ∧ stdin w' = stdin w
          ∧ stdout w' = stdout w ∧ launched w' = launched w.

(** No regular file stands at [name] or on the way to it. *)
Definition clear_for (files : gmap path node) (name : path) : Prop :=
  ∀ q, leads_to name q → folder_or_absent files q.

(** Entries can be created in every directory on the way to [name],
    the working directory included. *)
Definition writable_for (P : Platform) (name : path) : Prop :=
  ∀ q, q `prefix_of` name → q ≠ name → q ∉ readonly P.

(** A computation whose launches, from every world, are drawn from
    [allowed] in that order, each at most once, and all exit with zero,
    except that the last one may have failed when the computation returns
    false. *)
Definition in_order (allowed : list (list string)) (m : M bool) : Prop :=
  ∀ w, ∃ new,
    launched (world_of (m w)) = launched w ++ new
    ∧ new.*1 `sublist_of` allowed
    ∧ Forall exited_zero
        (match m w with Ok false _ => removelast new | _ => new end).

(** A computation that returns true only after a last launch [final]. *)
Definition true_after (final : list string * Z) (m : M bool) : Prop :=
  ∀ w w', m w = Ok true w' → ∃ new, launched w' = launched w ++ new ++ [final].

(** A class folder is a directory with at least [n] entries. *)
Definition populated (files : gmap path node) (d : path) (n : nat) : Prop :=
  files !! d = Some Dir ∧ (n ≤ List.length (entries files d))%nat.

(** ** Concrete platforms and worlds *)

Module Sample.

Definition no_process : list string → gmap string string → gmap path node
                        → gmap path node * Z :=
  λ _ _ files, (files, 0%Z).

Definition py (major minor : N) (imports : string → bool) : Platform :=
  {| version_info := (major, minor); importable := imports;
     spawn := no_process; readonly := ∅; umask := 18 |}.

Definition everything : string → bool := λ _, true.

(** Every module imports except the one called [name]. *)
Definition all_but (name : string) : string → bool :=
  λ s, negb (String.eqb s name).

Definition world (files : gmap path node) (lines : list string) : World :=
  {| environ := ∅; fs := files; stdin := lines; stdout := [];
     log := []; launched := [] |}.

(** A platform on which the one script [failing] exits with code 1 and
    every other process with code 0. *)
Definition py_failing (failing : list string) : Platform :=
  {| version_info := (3, 11)%N; importable := everything;
     spawn := λ argv _ files,
       (files, if bool_decide (argv = failing) then 1%Z else 0%Z);
     readonly := ∅; umask := 18 |}.

Definition with_credentials (w : World) : World :=
  set_environ (λ _, {[ "KAGGLE_USERNAME" := "someone"; "KAGGLE_KEY" := "0123abcd" ]}) w.

(** [n] regular files in the directory [d]. *)
Definition numbered (d : path) (n : nat) : list (path * node) :=
  (λ i : nat, (d ++ [pretty i], File "" 420)) <$> seq 0 n.

(** Both training folders and both test folders populated, no model. *)
Definition data_in_place : gmap path node :=
  list_to_map
    ([ (["dataset"], Dir); (["dataset"; "leprosy_dataset"], Dir);
       (["dataset"; "leprosy_dataset"; "positive"], Dir);
       (["dataset"; "leprosy_dataset"; "negative"], Dir);
       (["test_samples"], Dir); (["test_samples"; "positive"], Dir);
       (["test_samples"; "negative"], Dir) ]
     ++ numbered ["dataset"; "leprosy_dataset"; "positive"] 10
     ++ numbered ["dataset"; "leprosy_dataset"; "negative"] 12
     ++ numbered ["test_samples"; "positive"] 5
     ++ numbered ["test_samples"; "negative"] 6).

Definition trained : gmap path node :=
  {[ ["model"] := Dir; ["model"; "leprosy_classifier.pkl"] := File "" 420 ]}.

(** The layout as a first run leaves it around a trained model. *)
Definition ready : gmap path node :=
  fs (world_of (setup_directories (py 3 11 everything) (world trained []))).

End Sample.

(** * Properties *)

(** ** The monad *)

Section Frame.

Context {A : Type}.
Variable R : relation World.
Hypothesis R_pre : PreOrder R.

Lemma steps_ret (a : A) : steps R (ret a).
Proof. intros w. simpl. reflexivity. Qed.

Lemma steps_raise (e : exn) : steps R (@raise A e).
Proof. intros w. simpl. reflexivity. Qed.

Lemma steps_bind {B} (m : M B) (k : B → M A) :
  steps R m → (∀ b, steps R (k b)) → steps R (bind m k).
Proof.
  intros Hm Hk w. unfold bind. specialize (Hm w).
  destruct (m w) as [b w1|e w1]; simpl in *; [|done].
  etrans; [exact Hm|apply Hk].
Qed.

Lemma steps_try_except (m : M A) handled h :
  steps R m → (∀ e, steps R (h e)) → steps R (try_except m handled h).
Proof.
  intros Hm Hh w. unfold try_except. specialize (Hm w).
  destruct (m w) as [a w1|e w1]; simpl in *; [done|].
  destruct (handled e); simpl; [|done].
  etrans; [exact Hm|apply Hh].
Qed.

Lemma steps_if (b : bool) (m1 m2 : M A) :
  steps R m1 → steps R m2 → steps R (if b then m1 else m2).
Proof. by destruct b. Qed.

End Frame.

Section Containment.

Context {A : Type}.

Lemma contains_ret (a : A) : contains_process_failure (ret a).
Proof. by intros w w'. Qed.

Lemma contains_raise (e : exn) :
  e ≠ CalledProcessError → contains_process_failure (@raise A e).
Proof. intros He w w' [=]. done. Qed.

Lemma contains_bind {B} (m : M B) (k : B → M A) :
  contains_process_failure m → (∀ b, contains_process_failure (k b)) →
  contains_process_failure (bind m k).
Proof.
  intros Hm Hk w w'. unfold bind.
  destruct (m w) as [b w1|e w1] eqn:Heq; [apply Hk|].
  intros [= -> ->]. by apply (Hm w w').
Qed.

Lemma contains_try_except (m : M A) h :
  (∀ e, contains_process_failure (h e)) →
  contains_process_failure (try_except m is_CalledProcessError h).
Proof.
  intros Hh w w'. unfold try_except.
  destruct (m w) as [a w1|e w1]; [done|].
  destruct e; simpl; try done. apply Hh.
Qed.

Lemma contains_try_except_other (m : M A) handled h :
  contains_process_failure m → (∀ e, contains_process_failure (h e)) →
  contains_process_failure (try_except m handled h).
Proof.
  intros Hm Hh w w'. unfold try_except.
  destruct (m w) as [a w1|e w1] eqn:Heq; [done|].
  destruct (handled e); [apply Hh|].
  intros [= -> ->]. by apply (Hm w w').
Qed.

Lemma contains_if (b : bool) (m1 m2 : M A) :
  contains_process_failure m1 → contains_process_failure m2 →
  contains_process_failure (if b then m1 else m2).
Proof. by destruct b. Qed.

End Containment.

(** ** The operating-system interface *)

Section Primitives.

Context (P : Platform).
Variable R : relation World.
Variable L : level * string → Prop.
Hypothesis R_pre : PreOrder R.
Hypothesis R_environ : ∀ f w, R w (set_environ f w).
Hypothesis R_fs : ∀ f w, R w (set_fs f w).
Hypothesis R_read : ∀ prompt rest w, R w (read_line prompt rest w).
Hypothesis R_log : ∀ r w, L r → R w (add_log r w).

Lemma steps_logger lvl msg : L (lvl, msg) → steps R (logger lvl msg).
Proof. intros HL w. simpl. by apply R_log. Qed.

Lemma steps_input prompt : steps R (input prompt).
Proof. intros w. unfold input. destruct (stdin w); simpl; apply R_read. Qed.

Lemma steps_environ_get key : steps R (environ_get key).
Proof. intros w. simpl. reflexivity. Qed.

Lemma steps_environ_set key value : steps R (environ_set key value).
Proof.
  intros w. unfold environ_set.
  destruct (PyStr.has_nul value); simpl; [reflexivity|apply R_environ].
Qed.

Lemma steps_os_path_exists p : steps R (os_path_exists p).
Proof. intros w. simpl. reflexivity. Qed.

Lemma steps_os_path_isdir p : steps R (os_path_isdir p).
Proof. intros w. simpl. reflexivity. Qed.

Lemma steps_os_listdir p : steps R (os_listdir p).
Proof.
  intros w. unfold os_listdir.
  destruct (lookup_node (fs w) p) as [[|]|]; simpl; reflexivity.
Qed.

Lemma steps_os_mkdir p : steps R (os_mkdir P p).
Proof.
  intros w. unfold os_mkdir.
  destruct (lookup_node (fs w) p); simpl; [reflexivity|].
  destruct (lookup_node (fs w) (removelast p)) as [[|]|]; simpl; try reflexivity.
  case_bool_decide; simpl; [reflexivity|apply R_fs].
Qed.

Lemma steps_os_makedirs_rev exist_ok rname :
  steps R (os_makedirs_rev P exist_ok rname).
Proof.
  induction rname as [|tail rhead IH]; simpl.
  - by apply steps_raise.
  - apply steps_bind; [done| |intros _].
    + apply steps_bind; [done|apply steps_os_path_exists|intros b].
      apply steps_if; [|by apply steps_ret].
      apply steps_try_except; [done|exact IH|intros _; by apply steps_ret].
    + apply steps_try_except; [done|apply steps_os_mkdir|intros e].
      apply steps_bind; [done|apply steps_os_path_isdir|intros b].
      apply steps_if; [by apply steps_raise|by apply steps_ret].
Qed.

Lemma steps_os_makedirs name exist_ok : steps R (os_makedirs P name exist_ok).
Proof. apply steps_os_makedirs_rev. Qed.

Lemma steps_open_write p content : steps R (open_write P p content).
Proof.
  intros w. unfold open_write.
  destruct (lookup_node (fs w) p) as [[|c mode]|]; simpl; [reflexivity| |].
  - destruct (N.testbit mode 7); simpl; [apply R_fs|reflexivity].
  - destruct (lookup_node (fs w) (removelast p)) as [[|]|]; simpl; try reflexivity.
    case_bool_decide; simpl; [reflexivity|apply R_fs].
Qed.

Lemma steps_os_chmod p mode : steps R (os_chmod p mode).
Proof.
  intros w. unfold os_chmod.
  destruct (lookup_node (fs w) p) as [[|]|]; simpl; try reflexivity. apply R_fs.
Qed.

Lemma steps_import_module name : steps R (import_module P name).
Proof.
  intros w. unfold import_module. destruct (importable P name); simpl; reflexivity.
Qed.

Lemma steps_subprocess_check_call argv :
  (∀ files code w, R w (ran argv files code w)) →
  steps R (subprocess_check_call P argv).
Proof.
  intros Hran w. unfold subprocess_check_call.
  destruct (_ =? _)%Z; simpl; apply Hran.
Qed.

Lemma steps_for_each {A} (l : list A) body :
  (∀ x, steps R (body x)) → steps R (for_each l body).
Proof.
  intros Hbody. induction l as [|x l IH]; simpl.
  - by apply steps_ret.
  - apply steps_bind; [done|apply Hbody|intros _; exact IH].
Qed.

Lemma steps_for_each_in {A} (l : list A) body :
  (∀ x, x ∈ l → steps R (body x)) → steps R (for_each l body).
Proof.
  intros Hbody. induction l as [|x l IH]; simpl.
  - by apply steps_ret.
  - apply steps_bind; [done|apply Hbody; by left|intros _].
    apply IH. intros y Hy. apply Hbody. by right.
Qed.

Lemma steps_for_fold {A S} (l : list A) (body : A → S → M S) s :
  (∀ x s, steps R (body x s)) → steps R (for_fold l body s).
Proof.
  intros Hbody. revert s. induction l as [|x l IH]; intros s; simpl.
  - by apply steps_ret.
  - apply steps_bind; [done|apply Hbody|intros s'; apply IH].
Qed.

End Primitives.

Section PrimitivesContain.

Context (P : Platform).

Lemma contains_logger lvl msg : contains_process_failure (logger lvl msg).
Proof. by intros w w'. Qed.

Lemma contains_input prompt : contains_process_failure (input prompt).
Proof. intros w w'. unfold input. by destruct (stdin w). Qed.

Lemma contains_environ_get key : contains_process_failure (environ_get key).
Proof. by intros w w'. Qed.

Lemma contains_environ_set key value :
  contains_process_failure (environ_set key value).
Proof. intros w w'. unfold environ_set. by destruct (PyStr.has_nul value). Qed.

Lemma contains_os_path_exists p : contains_process_failure (os_path_exists p).
Proof. by intros w w'. Qed.

Lemma contains_os_path_isdir p : contains_process_failure (os_path_isdir p).
Proof. by intros w w'. Qed.

Lemma contains_os_listdir p : contains_process_failure (os_listdir p).
Proof.
  intros w w'. unfold os_listdir. by destruct (lookup_node (fs w) p) as [[|]|].
Qed.

Lemma contains_os_mkdir p : contains_process_failure (os_mkdir P p).
Proof.
  intros w w'. unfold os_mkdir.
  destruct (lookup_node (fs w) p); [done|].
  destruct (lookup_node (fs w) (removelast p)) as [[|]|]; try done.
  by case_bool_decide.
Qed.

Lemma contains_os_makedirs_rev exist_ok rname :
  contains_process_failure (os_makedirs_rev P exist_ok rname).
Proof.
  induction rname as [|tail rhead IH]; simpl.
  - by apply contains_raise.
  - apply contains_bind; [|intros _].
    + apply contains_bind; [apply contains_os_path_exists|intros b].
      apply contains_if; [|apply contains_ret].
      apply contains_try_except_other; [exact IH|intros _; apply contains_ret].
    + intros w w'. unfold try_except.
      pose proof (contains_os_mkdir (reverse (tail :: rhead)) w) as Hmk.
      destruct (os_mkdir P (reverse (tail :: rhead)) w) as [?|e w1]; [done|].
      destruct (is_OSError e) eqn:He; [|intros [= -> ->]; by eapply Hmk].
      unfold bind, os_path_isdir.
      destruct (negb exist_ok || _); [|done].
      intros [= -> ->]. done.
Qed.

Lemma contains_os_makedirs name exist_ok :
  contains_process_failure (os_makedirs P name exist_ok).
Proof. apply contains_os_makedirs_rev. Qed.

Lemma contains_open_write p content :
  contains_process_failure (open_write P p content).
Proof.
  intros w w'. unfold open_write.
  destruct (lookup_node (fs w) p) as [[|c mode]|]; [done| |].
  - by destruct (N.testbit mode 7).
  - destruct (lookup_node (fs w) (removelast p)) as [[|]|]; try done.
    by case_bool_decide.
Qed.

Lemma contains_os_chmod p mode : contains_process_failure (os_chmod p mode).
Proof.
  intros w w'. unfold os_chmod. by destruct (lookup_node (fs w) p) as [[|]|].
Qed.

Lemma contains_import_module name :
  contains_process_failure (import_module P name).
Proof. intros w w'. unfold import_module. by destruct (importable P name). Qed.

Lemma contains_for_each {A} (l : list A) body :
  (∀ x, contains_process_failure (body x)) →
  contains_process_failure (for_each l body).
Proof.
  intros Hbody. induction l as [|x l IH]; simpl.
  - apply contains_ret.
  - apply contains_bind; [apply Hbody|intros _; exact IH].
Qed.

Lemma contains_for_fold {A S} (l : list A) (body : A → S → M S) s :
  (∀ x s, contains_process_failure (body x s)) →
  contains_process_failure (for_fold l body s).
Proof.
  intros Hbody. revert s. induction l as [|x l IH]; intros s; simpl.
  - apply contains_ret.
  - apply contains_bind; [apply Hbody|intros s'; apply IH].
Qed.

End PrimitivesContain.

Ltac contains_go :=
  repeat first
    [ apply contains_ret
    | apply contains_raise; done
    | apply contains_os_makedirs
    | apply contains_try_except; intros ?
    | apply contains_try_except_other; [|intros ?]
    | apply contains_for_each; intros ?
    | apply contains_for_fold; intros ? ?
    | apply contains_bind; [|intros ?]
    | apply contains_if
    | apply contains_logger
    | apply contains_input
    | apply contains_environ_get
    | apply contains_environ_set
    | apply contains_os_path_exists
    | apply contains_os_path_isdir
    | apply contains_os_listdir
    | apply contains_os_mkdir
    | apply contains_open_write
    | apply contains_os_chmod
    | apply contains_import_module ].

(** ** Paths and the flat file system *)

Lemma components_marker :
  components "model/leprosy_classifier.pkl" = ["model"; "leprosy_classifier.pkl"].
Proof. reflexivity. Qed.

Lemma components_positive :
  components "dataset/leprosy_dataset/positive"
  = ["dataset"; "leprosy_dataset"; "positive"].
Proof. reflexivity. Qed.

Lemma components_negative :
  components "dataset/leprosy_dataset/negative"
  = ["dataset"; "leprosy_dataset"; "negative"].
Proof. reflexivity. Qed.

Lemma components_test_positive :
  components "test_samples/positive" = ["test_samples"; "positive"].
Proof. reflexivity. Qed.

Lemma components_test_negative :
  components "test_samples/negative" = ["test_samples"; "negative"].
Proof. reflexivity. Qed.

Lemma components_kaggle_json :
  components "~/.kaggle/kaggle.json" = ["~"; ".kaggle"; "kaggle.json"].
Proof. reflexivity. Qed.

Lemma components_kaggle_dir : components "~/.kaggle" = ["~"; ".kaggle"].
Proof. reflexivity. Qed.


Lemma lookup_node_cons files c p :
  lookup_node files (c :: p) = files !! (c :: p).
Proof. reflexivity. Qed.

Lemma lookup_node_nonempty files p :
  p ≠ [] → lookup_node files p = files !! p.
Proof. by destruct p. Qed.

Lemma new_launches_app w w' l :
  launched w' = launched w ++ l → new_launches w w' = l.
Proof. intros Heq. unfold new_launches. by rewrite Heq, drop_app_length. Qed.

Lemma new_log_app w w' l : log w' = log w ++ l → new_log w w' = l.
Proof. intros Heq. unfold new_log. by rewrite Heq, drop_app_length. Qed.

(** ** The model-artifact marker gates the cascade *)

(** C1: when something exists at [model/leprosy_classifier.pkl],
    [run_data_preparation] returns true in a world that differs from the
    initial one by a single log record; in particular it launches no external
    process (no download, no sample preparation, no training). *)
Theorem run_data_preparation_marker_present (P : Platform) (w : World) (n : node) :
  fs w !! marker = Some n →
  run_data_preparation P w
  = Ok true (add_log (INFO, "Model already exists. Skipping data preparation and training.") w)
  ∧ new_launches w (world_of (run_data_preparation P w)) = [].
Proof.
  intros Hmarker. unfold marker in Hmarker.
  assert (run_data_preparation P w
          = Ok true (add_log (INFO, "Model already exists. Skipping data preparation and training.") w)) as Hrun.
  { unfold run_data_preparation, bind at 1, os_path_exists.
    rewrite lookup_node_nonempty by (by rewrite components_marker).
    by rewrite Hmarker. }
  split; [exact Hrun|].
  rewrite Hrun. apply new_launches_app. simpl. by rewrite app_nil_r.
Qed.

Lemma run_data_preparation_marker_present_witness :
  let P := Sample.py 3 11 Sample.everything in
  let w := Sample.world Sample.trained [] in
  run_data_preparation P w
  = Ok true (add_log (INFO, "Model already exists. Skipping data preparation and training.") w)
  ∧ new_launches w (world_of (run_data_preparation P w)) = [].
Proof.
  intros P w.
  apply (run_data_preparation_marker_present P w (File "" 420)).
  vm_compute. reflexivity.
Defined.

(** ** The version gate *)

Lemma check_python_version_below (P : Platform) (w : World) :
  below_3_8 P →
  check_python_version P w
  = Ok false (add_log (ERROR, "Python 3.8 or higher is required.") w).
Proof.
  intros Hv. unfold check_python_version.
  replace (_ || _) with true; [done|].
  symmetry. apply orb_true_iff.
  destruct Hv as [H|[H1 H2]]; [left|right].
  - by apply N.ltb_lt.
  - apply andb_true_iff. split; [by apply N.eqb_eq|by apply N.ltb_lt].
Qed.

Lemma check_python_version_ok (P : Platform) (w : World) :
  ¬ below_3_8 P →
  ∃ msg, check_python_version P w = Ok true (add_log (INFO, msg) w).
Proof.
  intros Hv. unfold check_python_version.
  destruct (_ || _) eqn:Hc; [|by eexists].
  exfalso. apply Hv. apply orb_true_iff in Hc as [H|H]; [left|right].
  - by apply N.ltb_lt.
  - apply andb_true_iff in H as [H1 H2].
    split; [by apply N.eqb_eq|by apply N.ltb_lt].
Qed.

(** The file compiles on 3.6 and later only, and of these 3.6 and 3.7 are
    the versions the gate turns away. *)
Lemma compiles_below_3_8 (P : Platform) :
  compiles P ∧ below_3_8 P
  ↔ (version_info P).1 = 3%N
    ∧ ((version_info P).2 = 6%N ∨ (version_info P).2 = 7%N).
Proof.
  unfold compiles, f_strings_supported, below_3_8. cbv zeta.
  rewrite orb_true_iff, andb_true_iff, N.ltb_lt, N.eqb_eq, N.leb_le. lia.
Qed.

Lemma script_not_compiled (P : Platform) (w : World) :
  ¬ compiles P →
  below_3_8 P
  ∧ script P w = SyntaxError_at_compile_time ∧ exit_status P w = 1%Z.
Proof.
  unfold compiles, exit_status, script. intros Hold.
  destruct (f_strings_supported P) eqn:Hc; [done|]. split; [|done].
  unfold f_strings_supported in Hc. cbv zeta in Hc.
  apply orb_false_iff in Hc as [Hmajor Hminor].
  apply N.ltb_ge in Hmajor. apply andb_false_iff in Hminor.
  unfold below_3_8. destruct Hminor as [H|H].
  - apply N.eqb_neq in H. lia.
  - apply N.leb_gt in H. lia.
Qed.

(** On the versions below 3.8 that compile the file, which are 3.6 and 3.7,
    [check_python_version] returns false; [main] returns false in a world
    that differs from the initial one by three log records only (the start
    banner and the two error records), so no dependency probe, prompt,
    directory, file or process was touched; and the interpreter ends with
    status 1. *)
Lemma main_rejects_3_6_and_3_7 (P : Platform) (w : World) :
  compiles P → below_3_8 P →
  let w0 := add_log (INFO, "Starting setup for Leprosy Detection AI Application...") w in
  let w1 := add_log (ERROR, "Python 3.8 or higher is required.") w0 in
  let w2 := add_log (ERROR, "Setup failed: Incompatible Python version.") w1 in
  check_python_version P w0 = Ok false w1
  ∧ script P w = Ran (Ok false w2)
  ∧ (environ w2 = environ w ∧ fs w2 = fs w ∧ stdin w2 = stdin w
     ∧ stdout w2 = stdout w ∧ launched w2 = launched w)
  ∧ exit_status P w = 1%Z.
Proof.
  intros Hc Hv w0 w1 w2.
  assert (main P w = Ok false w2) as Hmain.
  { unfold main, bind at 1, logger at 1. fold w0.
    unfold bind at 1. by rewrite check_python_version_below. }
  split; [by apply check_python_version_below|].
  unfold exit_status, exit_code, script. rewrite Hc, Hmain. done.
Qed.

Lemma main_rejects_3_6_and_3_7_witness :
  let P := Sample.py 3 7 Sample.everything in
  let w := Sample.world ∅ [] in
  (compiles P ∧ below_3_8 P)
  ∧ script P w
    = Ran (Ok false
        (add_log (ERROR, "Setup failed: Incompatible Python version.")
           (add_log (ERROR, "Python 3.8 or higher is required.")
              (add_log (INFO, "Starting setup for Leprosy Detection AI Application...") w))))
  ∧ exit_status P w = 1%Z.
Proof.
  intros P w.
  assert (compiles P) as Hc by reflexivity.
  assert (below_3_8 P) as Hv by (right; vm_compute; done).
  split; [done|].
  destruct (main_rejects_3_6_and_3_7 P w Hc Hv) as (_ & H2 & _ & H3).
  auto.
Defined.

(** C4 at its failing input: interpreters 3.5 and 2.7 are below 3.8, and
    so is every interpreter that cannot compile the file. There
    [check_python_version] does not return false and [main] does not return
    at all: the file is rejected with a [SyntaxError] at compile time, before
    any function runs, so neither "Python 3.8 or higher is required." nor
    "Setup failed: Incompatible Python version." is logged. Only the last
    part of the claim survives: no later stage runs and the interpreter ends
    with status 1. *)
Lemma old_interpreter_stops_at_compile_time :
  let P35 := Sample.py 3 5 Sample.everything in
  let P27 := Sample.py 2 7 Sample.everything in
  let w := Sample.world ∅ [] in
  (below_3_8 P35 ∧ below_3_8 P27)
  ∧ (script P35 w = SyntaxError_at_compile_time
     ∧ script P27 w = SyntaxError_at_compile_time)
  ∧ (∀ r, script P35 w ≠ Ran r ∧ script P27 w ≠ Ran r)
  ∧ (exit_status P35 w = 1%Z ∧ exit_status P27 w = 1%Z).
Proof.
  intros P35 P27 w.
  assert (¬ compiles P35) as H35 by (unfold compiles; vm_compute; discriminate).
  assert (¬ compiles P27) as H27 by (unfold compiles; vm_compute; discriminate).
  destruct (script_not_compiled P35 w H35) as (Hv35 & Hs35 & He35).
  destruct (script_not_compiled P27 w H27) as (Hv27 & Hs27 & He27).
  split; [done|]. split; [done|].
  split; [intros r; by rewrite Hs35, Hs27|]. done.
Qed.

(** ** Directory provisioning *)

#[global] Instance keeps_files_pre : PreOrder keeps_files.
Proof.
  split; [intros w; unfold keeps_files; done|].
  intros w1 w2 w3. unfold keeps_files. apply transitivity.
Qed.

Section Makedirs.

Context (P : Platform).

Lemma removelast_reverse_cons (tail : string) rhead :
  removelast (reverse (tail :: rhead)) = reverse rhead.
Proof. rewrite reverse_cons. apply removelast_last. Qed.

Lemma reverse_cons_nonempty (tail : string) rhead : reverse (tail :: rhead) ≠ [].
Proof. rewrite reverse_cons. by destruct (reverse rhead). Qed.

Lemma reverse_cons_not_head (tail : string) rhead :
  reverse (tail :: rhead) ≠ reverse rhead.
Proof.
  intros Heq. apply (f_equal List.length) in Heq.
  rewrite !length_reverse in Heq. simpl in Heq. lia.
Qed.

Lemma keeps_files_os_mkdir p : steps keeps_files (os_mkdir P p).
Proof.
  intros w. unfold os_mkdir, keeps_files.
  destruct (lookup_node (fs w) p) eqn:Hp; simpl; [done|].
  destruct (lookup_node (fs w) (removelast p)) as [[|]|]; simpl; try done.
  case_bool_decide; simpl; [done|].
  apply insert_subseteq. by destruct p.
Qed.

Lemma keeps_files_os_makedirs_rev exist_ok rname :
  steps keeps_files (os_makedirs_rev P exist_ok rname).
Proof.
  induction rname as [|tail rhead IH]; simpl.
  - apply steps_raise, _.
  - apply steps_bind; [apply _| |intros _].
    + apply steps_bind; [apply _|by intros w|intros b].
      apply steps_if; [|apply steps_ret, _].
      apply steps_try_except; [apply _|exact IH|intros _; apply steps_ret, _].
    + apply steps_try_except; [apply _|apply keeps_files_os_mkdir|intros e].
      apply steps_bind; [apply _|by intros w|intros b].
      apply steps_if; [apply steps_raise, _|apply steps_ret, _].
Qed.

(** The leaf step of [os.makedirs(name, exist_ok=True)]. *)
Lemma mkdir_leaf name w :
  name ≠ [] →
  match try_except (os_mkdir P name) is_OSError
          (λ e, let* isdir := os_path_isdir name in
                if negb true || negb isdir then raise e else ret tt) w with
  | Ok _ w' =>
      fs w' !! name = Some Dir
      ∧ (w' = w ∨ (w' = set_fs (insert name Dir) w
                   ∧ lookup_node (fs w) (removelast name) = Some Dir))
  | Raise e w' =>
      w' = w ∧ (e = FileExistsError → ∃ c m, fs w !! name = Some (File c m))
  end.
Proof.
  intros Hne. unfold try_except, os_mkdir, bind, os_path_isdir.
  rewrite lookup_node_nonempty by done.
  destruct (fs w !! name) as [[|c m]|] eqn:Hname; simpl.
  - rewrite lookup_node_nonempty, Hname by done. simpl. auto.
  - rewrite lookup_node_nonempty, Hname by done. simpl. eauto.
  - destruct (lookup_node (fs w) (removelast name)) as [[|]|] eqn:Hhead; simpl;
      rewrite ?lookup_node_nonempty, ?Hname by done; simpl;
      try (split; [done|intros [=]]).
    case_bool_decide; simpl; rewrite ?lookup_node_nonempty, ?Hname by done; simpl.
    + split; [done|intros [=]].
    + split; [apply lookup_insert_eq|auto].
Qed.

(** What [os.makedirs(name, exist_ok=True)] establishes when it returns,
    and what a [FileExistsError] from it means. *)
Lemma os_makedirs_rev_post rname w :
  match os_makedirs_rev P true rname w with
  | Ok _ w' => rname ≠ [] ∧ ensured (fs w') (reverse rname)
  | Raise e w' =>
      e = FileExistsError →
      rname ≠ [] ∧ ∃ c m, fs w' !! reverse rname = Some (File c m)
  end.
Proof.
  revert w. induction rname as [|tail rhead IH]; intros w; [by intros [=]|].
  cbn [os_makedirs_rev].
  set (name := reverse (tail :: rhead)).
  set (leaf := try_except _ is_OSError _).
  assert (name ≠ []) as Hname by apply reverse_cons_nonempty.
  assert (removelast name = reverse rhead) as Hhead
    by apply removelast_reverse_cons.
  assert (∀ w1, (rhead = [] ∨ is_Some (fs w1 !! reverse rhead)) →
            match leaf w1 with
            | Ok _ w' => tail :: rhead ≠ [] ∧ ensured (fs w') name
            | Raise e w' =>
                e = FileExistsError →
                tail :: rhead ≠ [] ∧ ∃ c m, fs w' !! name = Some (File c m)
            end) as Hleaf.
  { intros w1 Hw1. pose proof (mkdir_leaf name w1 Hname) as Hl. fold leaf in Hl.
    destruct (leaf w1) as [[] w2|e w2].
    - destruct Hl as [Hdir Hw2]. split; [done|]. split; [done|].
      rewrite Hhead.
      destruct Hw2 as [->|[-> Hparent]].
      + destruct Hw1 as [->|?]; [by left|by right].
      + rewrite Hhead in Hparent. destruct Hw1 as [->|Hw1]; [by left|right].
        simpl. rewrite lookup_insert_ne; [done|].
        apply reverse_cons_not_head.
    - destruct Hl as [-> Hl]. intros He. split; [done|]. by apply Hl. }
  unfold bind at 1. unfold bind at 1. unfold os_path_exists at 1.
  destruct rhead as [|t2 rh].
  { simpl. apply Hleaf. by left. }
  rewrite lookup_node_nonempty by apply reverse_cons_nonempty.
  destruct (fs w !! reverse (t2 :: rh)) as [n|] eqn:Hexists;
    cbv beta match delta [andb negb].
  { unfold ret at 1. apply Hleaf. right. by exists n. }
  unfold try_except at 1. specialize (IH w).
  destruct (os_makedirs_rev P true (t2 :: rh) w) as [[] w1|e w1].
  - apply Hleaf. right. destruct IH as [_ [Hd _]]. by exists Dir.
  - destruct e; simpl; try (intros [=]).
    unfold ret. apply Hleaf. right.
    destruct IH as [_ (c & m & Hf)]; [done|]. by eexists.
Qed.

Lemma os_makedirs_post name w w' :
  os_makedirs P name true w = Ok tt w' → ensured (fs w') name.
Proof.
  intros Hrun. unfold os_makedirs in Hrun.
  pose proof (os_makedirs_rev_post (reverse name) w) as Hpost.
  rewrite Hrun in Hpost. rewrite reverse_involutive in Hpost. apply Hpost.
Qed.

(** Rerun: on a directory already in place nothing happens. *)
Lemma os_makedirs_again name w :
  name ≠ [] → ensured (fs w) name → os_makedirs P name true w = Ok tt w.
Proof.
  intros Hne [Hdir Hhead]. unfold os_makedirs.
  destruct (reverse name) as [|tail rhead] eqn:Hrev.
  { apply (f_equal reverse) in Hrev. by rewrite reverse_involutive in Hrev. }
  assert (name = reverse (tail :: rhead)) as Hname
    by (by rewrite <-Hrev, reverse_involutive).
  cbn [os_makedirs_rev]. rewrite <-Hname.
  assert (reverse rhead = removelast name) as Hrh
    by (by rewrite Hname, removelast_reverse_cons).
  rewrite Hrh.
  unfold bind at 1. unfold bind at 1. unfold os_path_exists at 1.
  assert ((match rhead with [] => false | _ :: _ => true end
           && negb (match lookup_node (fs w) (removelast name) with
                    | Some _ => true | None => false end)) = false) as ->.
  { destruct rhead as [|t2 rh]; [done|].
    destruct Hhead as [Hnil|[n Hn]].
    - exfalso. rewrite <-Hrh in Hnil. by eapply reverse_cons_nonempty.
    - rewrite lookup_node_nonempty
        by (rewrite <-Hrh; apply reverse_cons_nonempty).
      by rewrite Hn. }
  unfold ret at 1. unfold try_except, os_mkdir.
  rewrite lookup_node_nonempty by done. rewrite Hdir. simpl.
  unfold bind, os_path_isdir.
  rewrite lookup_node_nonempty by done. by rewrite Hdir.
Qed.

Lemma ensured_weaken files files' p :
  files ⊆ files' → ensured files p → ensured files' p.
Proof.
  intros Hsub [Hdir Hhead]. split.
  - by eapply lookup_weaken.
  - destruct Hhead as [?|[n Hn]]; [by left|right].
    exists n. by eapply lookup_weaken.
Qed.

End Makedirs.

Section Provisioning.

Context (P : Platform).

Lemma keeps_files_ensure directory :
  steps keeps_files (ensure_directory P directory).
Proof.
  apply steps_bind; [apply _|apply keeps_files_os_makedirs_rev|].
  intros _ w. unfold keeps_files. reflexivity.
Qed.

Lemma ensure_post directory w w' :
  ensure_directory P directory w = Ok tt w' → ensured (fs w') (components directory).
Proof.
  unfold ensure_directory, bind.
  destruct (os_makedirs P (components directory) true w) as [[] w1|e w1] eqn:Hmk;
    [|done].
  intros [= <-]. simpl. by eapply os_makedirs_post.
Qed.

Lemma provision_post l w w' :
  for_each l (ensure_directory P) w = Ok tt w' →
  Forall (λ d, ensured (fs w') (components d)) l.
Proof.
  revert w. induction l as [|d l IH]; intros w; simpl; [by constructor|].
  unfold bind at 1.
  destruct (ensure_directory P d w) as [[] w1|e w1] eqn:Hd; [|done].
  intros Hrest. constructor; [|by eapply IH].
  pose proof (steps_for_each keeps_files keeps_files_pre l (ensure_directory P)
                keeps_files_ensure w1) as Hkeep.
  rewrite Hrest in Hkeep. simpl in Hkeep.
  eapply ensured_weaken; [exact Hkeep|]. by eapply ensure_post.
Qed.

Lemma provision_again l w :
  Forall (λ d, components d ≠ []) l →
  Forall (λ d, ensured (fs w) (components d)) l →
  ∃ w', for_each l (ensure_directory P) w = Ok tt w' ∧ fs w' = fs w.
Proof.
  revert w. induction l as [|d l IH]; intros w Hne Hens; simpl; [by eexists|].
  apply Forall_cons in Hne as [Hd Hne]. apply Forall_cons in Hens as [Hed Hens].
  unfold bind at 1, ensure_directory at 1, bind at 1.
  rewrite os_makedirs_again by done.
  unfold logger at 1.
  destruct (IH (add_log (INFO, ("Directory " ++ d ++ " ensured.")%string) w)
              Hne Hens) as (w' & Hrun & Hfs).
  exists w'. by split.
Qed.

Lemma setup_directories_loop w :
  setup_directories P w
  = match for_each directories (ensure_directory P) w with
    | Ok _ w' => Ok true w'
    | Raise e w' => Raise e w'
    end.
Proof. reflexivity. Qed.

(** Whenever [setup_directories] returns, it returns true. *)
Lemma setup_directories_returns_true w b w' :
  setup_directories P w = Ok b w' → b = true.
Proof.
  rewrite setup_directories_loop.
  destruct (for_each directories (ensure_directory P) w); [|done].
  by intros [= <- _].
Qed.

Lemma directories_nonempty : Forall (λ d, components d ≠ []) directories.
Proof. repeat constructor; by vm_compute. Qed.

(** C3: when [setup_directories] returns, it returns true and each of the
    twelve listed paths is a directory; run again in the world it left, it
    returns true again without raising, and the file system is the same as
    before the second run. *)
Theorem setup_directories_idempotent (w w' : World) (b : bool) :
  setup_directories P w = Ok b w' →
  b = true
  ∧ List.length directories = 12%nat
  ∧ (∀ d, d ∈ directories → fs w' !! components d = Some Dir)
  ∧ ∃ w'', setup_directories P w' = Ok true w'' ∧ fs w'' = fs w'.
Proof.
  intros Hrun.
  split; [by eapply setup_directories_returns_true|]. split; [done|].
  rewrite setup_directories_loop in Hrun.
  destruct (for_each directories (ensure_directory P) w) as [[] w1|e w1] eqn:Hloop;
    [|done].
  injection Hrun as _ <-.
  pose proof (provision_post _ _ _ Hloop) as Hens.
  split.
  - intros d Hd. rewrite Forall_forall in Hens. by destruct (Hens d Hd).
  - destruct (provision_again directories w1 directories_nonempty Hens)
      as (w2 & Hagain & Hfs).
    exists w2. rewrite setup_directories_loop, Hagain. by split.
Qed.

End Provisioning.

Lemma setup_directories_idempotent_witness :
  let P := Sample.py 3 11 Sample.everything in
  let w := Sample.world ∅ [] in
  let w' := world_of (setup_directories P w) in
  (∀ d, d ∈ directories → fs w' !! components d = Some Dir)
  ∧ ∃ w'', setup_directories P w' = Ok true w'' ∧ fs w'' = fs w'.
Proof.
  intros P w w'.
  assert (setup_directories P w = Ok true w') as Hrun
    by (vm_compute; reflexivity).
  destruct (setup_directories_idempotent P w w' true Hrun) as (_ & _ & H1 & H2).
  split; [exact H1|exact H2].
Defined.

(** ** Relations a run moves the world along *)

#[global] Instance launches_only_pre K : PreOrder (launches_only K).
Proof.
  split.
  - intros w. exists []. by rewrite app_nil_r.
  - intros w1 w2 w3 (n1 & H1 & F1) (n2 & H2 & F2). exists (n1 ++ n2).
    split; [by rewrite H2, H1, app_assoc|by apply Forall_app].
Qed.

#[global] Instance logs_only_pre L : PreOrder (logs_only L).
Proof.
  split.
  - intros w. exists []. by rewrite app_nil_r.
  - intros w1 w2 w3 (n1 & H1 & F1) (n2 & H2 & F2). exists (n1 ++ n2).
    split; [by rewrite H2, H1, app_assoc|by apply Forall_app].
Qed.

Lemma launches_only_same K w w' : launched w' = launched w → launches_only K w w'.
Proof. intros Heq. exists []. by rewrite app_nil_r. Qed.

Lemma launches_only_ran K argv files code w :
  K (argv, code) → launches_only K w (ran argv files code w).
Proof. intros HK. exists [(argv, code)]. split; [done|by repeat constructor]. Qed.

Lemma launches_only_new K w w' :
  launches_only K w w' →
  launched w' = launched w ++ new_launches w w' ∧ Forall K (new_launches w w').
Proof.
  intros (new & Heq & HK). by rewrite (new_launches_app w w' new Heq).
Qed.

Lemma quiet_launched w w' : quiet w w' → launched w' = launched w.
Proof.
  intros (new & Heq & HK). destruct new as [|e new]; [by rewrite app_nil_r in Heq|].
  by apply Forall_cons in HK as [[] _].
Qed.

Lemma logs_only_same L w w' : log w' = log w → logs_only L w w'.
Proof. intros Heq. exists []. by rewrite app_nil_r. Qed.

Lemma logs_only_add L r w : L r → logs_only L w (add_log r w).
Proof. intros HL. exists [r]. split; [done|by repeat constructor]. Qed.

Lemma logs_only_new L w w' :
  logs_only L w w' → log w' = log w ++ new_log w w' ∧ Forall L (new_log w w').
Proof.
  intros (new & Heq & HL). by rewrite (new_log_app w w' new Heq).
Qed.

(** ** The stages, along any relation that admits their records and launches *)

Section Stages.

Context (P : Platform).
Variable R : relation World.
Variable L : level * string → Prop.
Variable K : list string → Prop.
Hypothesis R_pre : PreOrder R.
Hypothesis R_environ : ∀ f w, R w (set_environ f w).
Hypothesis R_fs : ∀ f w, R w (set_fs f w).
Hypothesis R_read : ∀ prompt rest w, R w (read_line prompt rest w).
Hypothesis R_log : ∀ r w, L r → R w (add_log r w).
Hypothesis R_ran : ∀ argv files code w, K argv → R w (ran argv files code w).
Hypothesis L_other : ∀ r, r ≠ directories_failed → L r.

Ltac admits_record := apply L_other; simpl; discriminate.

Ltac along :=
  repeat first
    [ apply steps_ret; [exact R_pre]
    | apply steps_raise; [exact R_pre]
    | apply steps_os_makedirs; [exact R_pre|exact R_fs]
    | apply steps_bind; [exact R_pre| |intros ?]
    | apply steps_try_except; [exact R_pre| |intros ?]
    | apply steps_if
    | apply steps_input; [exact R_read]
    | apply steps_environ_get; [exact R_pre]
    | apply steps_environ_set; [exact R_pre|exact R_environ]
    | apply steps_os_path_exists; [exact R_pre]
    | apply steps_os_path_isdir; [exact R_pre]
    | apply steps_os_listdir; [exact R_pre]
    | apply steps_open_write; [exact R_pre|exact R_fs]
    | apply steps_os_chmod; [exact R_pre|exact R_fs]
    | apply steps_import_module; [exact R_pre]
    | apply (steps_logger R L R_log); admits_record
    | apply steps_for_each; [exact R_pre|intros ?]
    | apply steps_for_fold; [exact R_pre|intros ? ?]
    | apply steps_subprocess_check_call; intros ? ? ?; apply R_ran ].

Lemma steps_check_python_version : steps R (check_python_version P).
Proof. unfold check_python_version. along. Qed.

Lemma steps_check_dependencies :
  (∀ argv, pip_argv argv → K argv) → steps R (check_dependencies P).
Proof.
  intros HK. unfold check_dependencies. along.
  destruct b as [|package missing]; along.
  apply HK. by eexists.
Qed.

Lemma steps_check_kaggle_credentials : steps R (check_kaggle_credentials P).
Proof. unfold check_kaggle_credentials. along. Qed.

Lemma steps_setup_directories : steps R (setup_directories P).
Proof. unfold setup_directories. along. Qed.

Lemma steps_missing_or_short d n : steps R (missing_or_short d n).
Proof. unfold missing_or_short. along. Qed.

Lemma steps_or_else (a b : M bool) : steps R a → steps R b → steps R (or_else a b).
Proof. intros Ha Hb. unfold or_else. along; done. Qed.

Lemma steps_after_download :
  K samples_argv → K training_argv → steps R (after_download P).
Proof.
  intros Hs Ht. unfold after_download. along;
    try (apply steps_or_else; apply steps_missing_or_short); assumption.
Qed.

Lemma steps_run_data_preparation :
  (∀ argv, cascade_argv argv → K argv) → steps R (run_data_preparation P).
Proof.
  intros HK. unfold run_data_preparation. along;
    try (apply steps_or_else; apply steps_missing_or_short);
    try apply steps_check_kaggle_credentials.
  all: apply HK; unfold cascade_argv, download_argv, samples_argv, training_argv;
    auto.
Qed.

End Stages.

(** ** What the stages launch *)

Section Launches.

Context (P : Platform).
Variable K : list string * Z → Prop.

Lemma launches_steps_environ f w : launches_only K w (set_environ f w).
Proof. by apply launches_only_same. Qed.

Lemma launches_steps_fs f w : launches_only K w (set_fs f w).
Proof. by apply launches_only_same. Qed.

Lemma launches_steps_read prompt rest w : launches_only K w (read_line prompt rest w).
Proof. by apply launches_only_same. Qed.

Lemma launches_steps_log (r : level * string) w :
  True → launches_only K w (add_log r w).
Proof. intros _. by apply launches_only_same. Qed.

Lemma launches_steps_ran argv files code w :
  (∀ code, K (argv, code)) → launches_only K w (ran argv files code w).
Proof. intros HK. by apply launches_only_ran. Qed.

Ltac launch_sides :=
  first
    [ apply _
    | apply launches_steps_environ
    | apply launches_steps_fs
    | apply launches_steps_read
    | apply launches_steps_log
    | intros ? ? ? ? ?; apply launches_steps_ran; assumption
    | intros; exact I ].

Lemma check_python_version_launches :
  steps (launches_only K) (check_python_version P).
Proof. apply (steps_check_python_version P _ (λ _, True)); launch_sides. Qed.

Lemma check_kaggle_credentials_launches :
  steps (launches_only K) (check_kaggle_credentials P).
Proof. apply (steps_check_kaggle_credentials P _ (λ _, True)); launch_sides. Qed.

Lemma setup_directories_launches :
  steps (launches_only K) (setup_directories P).
Proof. apply (steps_setup_directories P _ (λ _, True)); launch_sides. Qed.

Lemma missing_or_short_launches d n :
  steps (launches_only K) (missing_or_short d n).
Proof. apply steps_missing_or_short, _. Qed.

Lemma folders_incomplete_launches d1 d2 n :
  steps (launches_only K) (or_else (missing_or_short d1 n) (missing_or_short d2 n)).
Proof. apply steps_or_else; [apply _|apply missing_or_short_launches..]. Qed.

Lemma check_dependencies_launches :
  (∀ argv code, pip_argv argv → K (argv, code)) →
  steps (launches_only K) (check_dependencies P).
Proof.
  intros HK.
  apply (steps_check_dependencies P _ (λ _, True) (λ argv, ∀ code, K (argv, code)));
    try launch_sides.
  intros argv Hpip code. by apply HK.
Qed.

Lemma after_download_launches :
  (∀ code, K (samples_argv, code)) → (∀ code, K (training_argv, code)) →
  steps (launches_only K) (after_download P).
Proof.
  intros Hs Ht.
  apply (steps_after_download P _ (λ _, True) (λ argv, ∀ code, K (argv, code)));
    try launch_sides; assumption.
Qed.

Lemma run_data_preparation_launches :
  (∀ argv code, cascade_argv argv → K (argv, code)) →
  steps (launches_only K) (run_data_preparation P).
Proof.
  intros HK.
  apply (steps_run_data_preparation P _ (λ _, True) (λ argv, ∀ code, K (argv, code)));
    try launch_sides.
  intros argv Hc code. by apply HK.
Qed.

End Launches.

(** ** A failed process is a returned false *)

Section SoftFailure.

Context (P : Platform).

Lemma logger_launches K lvl msg : steps (launches_only K) (logger lvl msg).
Proof. intros w. by apply launches_only_same. Qed.

Lemma fails_softly_of_steps (m : M bool) :
  steps (launches_only exited_zero) m → fails_softly m.
Proof. intros Hm w. left. apply Hm. Qed.

Lemma fails_softly_after {A} (m : M A) (k : A → M bool) :
  steps (launches_only exited_zero) m → (∀ a, fails_softly (k a)) →
  fails_softly (bind m k).
Proof.
  intros Hm Hk w. unfold bind. specialize (Hm w).
  destruct (m w) as [a w1|e w1]; simpl in Hm; [|by left].
  destruct (Hk a w1) as [Hclean|Hfalse]; [left|by right].
  by etrans.
Qed.

Lemma fails_softly_stage (m : M bool) (k : bool → M bool) :
  fails_softly m → (∀ w', k false w' = Ok false w') →
  (∀ b, fails_softly (k b)) → fails_softly (bind m k).
Proof.
  intros Hm Hfalse Hk w. unfold bind.
  destruct (Hm w) as [Hclean|(w' & msg & -> & Hlog)].
  - destruct (m w) as [b w1|e w1]; simpl in Hclean; [|by left].
    destruct (Hk b w1) as [Hclean'|Hsoft]; [left|by right].
    by etrans.
  - right. exists w', msg. by rewrite Hfalse.
Qed.

(** The guarded launch that appears three times in the cascade and once
    in the dependency check. *)
Lemma guarded_call argv okmsg errmsg w :
  try_except
    (subprocess_check_call P argv ;;; logger INFO okmsg ;;; ret true)
    is_CalledProcessError
    (λ _, logger ERROR errmsg ;;; ret false) w
  = let r := spawn P argv (environ w) (fs w) in
    if (r.2 =? 0)%Z
    then Ok true (add_log (INFO, okmsg) (ran argv r.1 r.2 w))
    else Ok false (add_log (ERROR, errmsg) (ran argv r.1 r.2 w)).
Proof.
  unfold try_except, bind, subprocess_check_call. simpl.
  by destruct (_ =? _)%Z.
Qed.

Lemma fails_softly_call argv okmsg errmsg :
  fails_softly
    (try_except
       (subprocess_check_call P argv ;;; logger INFO okmsg ;;; ret true)
       is_CalledProcessError
       (λ _, logger ERROR errmsg ;;; ret false)).
Proof.
  intros w. rewrite guarded_call. simpl.
  destruct (_ =? _)%Z eqn:Hcode.
  - left. simpl. exists [(argv, (spawn P argv (environ w) (fs w)).2)].
    split; [done|]. repeat constructor. by apply Z.eqb_eq.
  - right. eexists _, errmsg. split; [done|]. simpl. apply last_snoc.
Qed.

Ltac softly :=
  repeat first
    [ apply fails_softly_call
    | apply fails_softly_after;
        [first [ apply logger_launches
               | apply check_kaggle_credentials_launches
               | apply folders_incomplete_launches
               | apply steps_os_path_exists, _
               | apply steps_input; by apply launches_only_same ]
        |intros ?]
    | apply fails_softly_of_steps;
        apply steps_bind; [apply _|apply logger_launches|intros ?; apply steps_ret, _]
    | apply fails_softly_of_steps; apply steps_ret, _ ].

Lemma run_data_preparation_fails_softly : fails_softly (run_data_preparation P).
Proof.
  unfold run_data_preparation.
  apply fails_softly_after; [apply steps_os_path_exists, _|intros model_exists].
  destruct model_exists; cbv beta match delta [negb]; [softly|].
  apply fails_softly_after; [apply folders_incomplete_launches|intros incomplete].
  apply fails_softly_stage; [| done |intros downloaded].
  { destruct incomplete; [|softly].
    apply fails_softly_after; [apply logger_launches|intros _].
    apply fails_softly_after; [apply check_kaggle_credentials_launches|intros ready].
    destruct ready; softly. }
  destruct downloaded; cbv beta match delta [negb]; [|softly].
  apply fails_softly_after; [apply folders_incomplete_launches|intros incomplete'].
  apply fails_softly_stage; [| done |intros sampled].
  { destruct incomplete'; softly. }
  destruct sampled; cbv beta match delta [negb]; softly.
Qed.

Lemma check_dependencies_fails_softly : fails_softly (check_dependencies P).
Proof.
  unfold check_dependencies.
  apply fails_softly_after.
  { apply steps_for_fold; [apply _|intros package missing].
    apply (steps_try_except _ _); [|intros _].
    - apply steps_bind; [apply _|apply steps_import_module, _|intros _].
      apply steps_bind; [apply _|apply logger_launches|intros _; apply steps_ret, _].
    - apply steps_bind; [apply _|apply logger_launches|intros _; apply steps_ret, _]. }
  intros missing. destruct missing as [|package missing]; [softly|].
  apply fails_softly_after; [apply logger_launches|intros _].
  apply fails_softly_after;
    [apply steps_input; intros; by apply launches_only_same|intros install].
  destruct (_ =? _)%string; softly.
Qed.

Lemma fails_softly_nonzero (m : M bool) w argv code :
  fails_softly m →
  (argv, code) ∈ new_launches w (world_of (m w)) → code ≠ 0%Z →
  ∃ w' msg, m w = Ok false w' ∧ last (log w') = Some (ERROR, msg).
Proof.
  intros Hm Hin Hcode. destruct (Hm w) as [Hclean|Hsoft]; [|done].
  apply launches_only_new in Hclean as [_ Hall].
  rewrite Forall_forall in Hall. by specialize (Hall _ Hin).
Qed.

Lemma contains_check_kaggle_credentials :
  contains_process_failure (check_kaggle_credentials P).
Proof. unfold check_kaggle_credentials. contains_go. Qed.

Lemma contains_check_python_version :
  contains_process_failure (check_python_version P).
Proof. unfold check_python_version. contains_go. Qed.

Lemma contains_setup_directories :
  contains_process_failure (setup_directories P).
Proof. unfold setup_directories. contains_go. Qed.

Lemma contains_check_dependencies :
  contains_process_failure (check_dependencies P).
Proof.
  unfold check_dependencies. contains_go.
  destruct b as [|package missing]; contains_go.
Qed.

Lemma contains_run_data_preparation :
  contains_process_failure (run_data_preparation P).
Proof.
  unfold run_data_preparation, or_else, missing_or_short. contains_go.
Qed.

Lemma contains_main : contains_process_failure (main P).
Proof.
  unfold main.
  apply contains_bind; [apply contains_logger|intros _].
  apply contains_bind; [apply contains_check_python_version|intros version_ok].
  destruct version_ok; cbv beta match delta [negb]; [|contains_go].
  apply contains_bind; [apply contains_check_dependencies|intros deps_ok].
  apply contains_bind; [destruct deps_ok; contains_go|intros ?].
  apply contains_bind; [apply contains_setup_directories|intros dirs_ok].
  destruct dirs_ok; cbv beta match delta [negb]; [|contains_go].
  apply contains_bind; [apply contains_run_data_preparation|intros prepared].
  destruct prepared; contains_go.
Qed.

End SoftFailure.

(** ** The top-level routine, stage by stage *)

Lemma main_stages (P : Platform) (w : World) :
  main P w
  = match check_python_version P
            (add_log (INFO, "Starting setup for Leprosy Detection AI Application...") w) with
    | Raise e w1 => Raise e w1
    | Ok false w1 =>
        Ok false (add_log (ERROR, "Setup failed: Incompatible Python version.") w1)
    | Ok true w1 =>
        match check_dependencies P w1 with
        | Raise e w2 => Raise e w2
        | Ok deps_ok w2 =>
            match setup_directories P
                    (if deps_ok then w2
                     else add_log (WARNING, "Setup may not work correctly without required packages.") w2) with
            | Raise e w3 => Raise e w3
            | Ok false w3 => Ok false (add_log directories_failed w3)
            | Ok true w3 =>
                match run_data_preparation P w3 with
                | Raise e w4 => Raise e w4
                | Ok prepared w4 =>
                    Ok true
                      (add_log (INFO, "To run the application, use: python main.py")
                         (add_log (INFO, "Setup completed successfully!")
                            (if prepared then w4 else add_log incomplete_warning w4)))
                end
            end
        end
    end.
Proof.
  unfold main, bind at 1, logger at 1. unfold bind at 1.
  destruct (check_python_version P _) as [[|] w1|e w1]; [|done..].
  cbv beta match delta [negb]. unfold bind at 1.
  destruct (check_dependencies P w1) as [deps_ok w2|e w2]; [|done].
  unfold bind at 1.
  destruct deps_ok; cbv beta match; [unfold ret at 1|unfold logger at 1].
  all: unfold bind at 1;
    destruct (setup_directories P _) as [[|] w3|e w3]; [|done..];
    cbv beta match; unfold bind at 1;
    destruct (run_data_preparation P w3) as [prepared w4|e w4]; [|done];
    by destruct prepared.
Qed.

Lemma pip_is_not_a_cascade_script argv : pip_argv argv → cascade_argv argv → False.
Proof.
  intros [packages ->] [H|[H|H]]; discriminate H.
Qed.



Lemma new_launches_trans w1 w2 w3 n1 n2 :
  launched w2 = launched w1 ++ n1 → launched w3 = launched w2 ++ n2 →
  new_launches w1 w3 = n1 ++ n2.
Proof.
  intros H1 H2. apply new_launches_app. by rewrite H2, H1, app_assoc.
Qed.

(** C6: no [CalledProcessError] leaves [check_dependencies],
    [run_data_preparation] or [main]; when a process launched by
    [check_dependencies] or by [run_data_preparation] exits non-zero, that
    function returns false and the last log record is the error; and when the
    failed process is one of the three cascade scripts, [main] still returns
    true, having logged the warning "Data preparation incomplete. ..." before
    its two closing records, and the exit code is 0. *)
Theorem process_failure_is_soft (P : Platform) :
  (contains_process_failure (check_dependencies P)
   ∧ contains_process_failure (run_data_preparation P)
   ∧ contains_process_failure (main P))
  ∧ (∀ w argv code,
       (argv, code) ∈ new_launches w (world_of (check_dependencies P w)) →
       code ≠ 0%Z →
       ∃ w', check_dependencies P w = Ok false w'
             ∧ last (log w') = Some (ERROR, "Failed to install packages."))
  ∧ (∀ w argv code,
       (argv, code) ∈ new_launches w (world_of (run_data_preparation P w)) →
       code ≠ 0%Z →
       ∃ w' msg, run_data_preparation P w = Ok false w'
                 ∧ last (log w') = Some (ERROR, msg))
  ∧ (∀ w argv code,
       cascade_argv argv →
       (argv, code) ∈ new_launches w (world_of (main P w)) →
       code ≠ 0%Z →
       ∃ w' records,
         main P w = Ok true w'
         ∧ log w' = records ++ [incomplete_warning;
                                (INFO, "Setup completed successfully!");
                                (INFO, "To run the application, use: python main.py")]
         ∧ exit_code P w = 0%Z).
Proof.
  split; [|split; [|split]].
  - split; [apply contains_check_dependencies|].
    split; [apply contains_run_data_preparation|apply contains_main].
  - intros w argv code Hin Hcode.
    destruct (fails_softly_nonzero _ w argv code
                (check_dependencies_fails_softly P) Hin Hcode)
      as (w' & msg & Hrun & Hlast).
    exists w'. split; [done|].
    (* the only error record after which the function returns false with a
       failed launch is the installer's *)
    revert Hrun Hlast Hin. unfold check_dependencies, bind at 1.
    destruct (for_fold _ _ _ w) as [missing w1|e w1] eqn:Hprobe; [|done].
    destruct missing as [|package missing]; [done|].
    unfold bind at 1, logger at 1. unfold bind at 1, input at 1. simpl stdin.
    destruct (stdin w1) as [|install rest]; [done|].
    destruct (_ =? _)%string.
    + rewrite guarded_call. simpl. destruct (_ =? _)%Z; [done|].
      intros [= <-]. simpl. rewrite last_snoc. by intros [= <-].
    + intros [= <-]. simpl. rewrite last_snoc. done.
  - intros w argv code Hin Hcode.
    by apply (fails_softly_nonzero _ w argv code
                (run_data_preparation_fails_softly P)).
  - intros w argv code Hargv Hin Hcode.
    set (pip := λ e : list string * Z, pip_argv e.1).
    assert (∀ w', launches_only pip w w' →
              (argv, code) ∈ new_launches w w' → False) as Hpip.
    { intros w' Hl Hin'. apply launches_only_new in Hl as [_ Hall].
      rewrite Forall_forall in Hall. specialize (Hall _ Hin').
      by eapply pip_is_not_a_cascade_script. }
    revert Hin. unfold exit_code. rewrite main_stages.
    set (w0 := add_log _ w).
    assert (launches_only pip w w0) as H0 by (by apply launches_only_same).
    pose proof (check_python_version_launches P pip w0) as H1.
    destruct (check_python_version P w0) as [[|] w1|e w1]; simpl in H1;
      [|intros Hin; exfalso; apply (Hpip _ (transitivity H0 H1)); exact Hin..].
    assert (launches_only pip w w1) as H01 by (by etrans).
    pose proof (check_dependencies_launches P pip (λ _ _ H, H) w1) as H2.
    destruct (check_dependencies P w1) as [deps_ok w2|e w2]; simpl in H2;
      [|intros Hin; exfalso; apply (Hpip _ (transitivity H01 H2)); exact Hin].
    set (w2' := if deps_ok then w2 else add_log _ w2).
    assert (launches_only pip w w2') as H02.
    { etrans; [exact H01|]. etrans; [exact H2|].
      unfold w2'. destruct deps_ok; [done|by apply launches_only_same]. }
    pose proof (setup_directories_launches P pip w2') as H3.
    destruct (setup_directories P w2') as [[|] w3|e w3]; simpl in H3;
      [|intros Hin; exfalso; apply (Hpip _ (transitivity H02 H3)); exact Hin..].
    assert (launches_only pip w w3) as H03 by (by etrans).
    destruct H03 as (n1 & Hn1 & Hall1).
    pose proof (run_data_preparation_launches P (λ _, True) (λ _ _ _, I) w3)
      as (n2 & Hn2 & _).
    pose proof (new_launches_app w3 _ n2 Hn2) as Hnew.
    destruct (run_data_preparation_fails_softly P w3) as [Hclean|Hsoft].
    + (* every cascade process exited with zero: the entry is none of them *)
      intros Hin. exfalso.
      apply launches_only_new in Hclean as [_ Hzero]. rewrite Hnew in Hzero.
      assert ((argv, code) ∈ n1 ++ n2) as Hmem.
      { revert Hin.
        destruct (run_data_preparation P w3) as [[|] w4|e w4]; simpl in *;
          intros Hin; rewrite <-(new_launches_trans w w3 w4 n1 n2 Hn1 Hn2);
          exact Hin. }
      apply elem_of_app in Hmem as [Hmem|Hmem].
      * rewrite Forall_forall in Hall1. specialize (Hall1 _ Hmem).
        by eapply pip_is_not_a_cascade_script.
      * rewrite Forall_forall in Hzero. by specialize (Hzero _ Hmem).
    + destruct Hsoft as (w4 & msg & -> & _). intros _.
      eexists _, (log w4). split; [done|]. split; [|done].
      simpl. by rewrite <-!app_assoc.
Qed.

Lemma process_failure_is_soft_witness :
  let P := Sample.py_failing download_argv in
  let w := Sample.with_credentials (Sample.world ∅ []) in
  (cascade_argv download_argv
   ∧ (download_argv, 1%Z) ∈ new_launches w (world_of (main P w))
   ∧ 1%Z ≠ 0%Z)
  ∧ ∃ w' records,
      main P w = Ok true w'
      ∧ log w' = records ++ [incomplete_warning;
                             (INFO, "Setup completed successfully!");
                             (INFO, "To run the application, use: python main.py")]
      ∧ exit_code P w = 0%Z.
Proof.
  intros P w.
  assert (cascade_argv download_argv) as Hargv by (by left).
  assert ((download_argv, 1%Z) ∈ new_launches w (world_of (main P w))) as Hin
    by (vm_compute; constructor).
  assert (1%Z ≠ 0%Z) as Hcode by lia.
  split; [done|].
  destruct (process_failure_is_soft P) as (_ & _ & _ & Hmain).
  exact (Hmain w download_argv 1%Z Hargv Hin Hcode).
Defined.

(** ** The dependency check *)

Section Dependencies.

Context (P : Platform).

Lemma log_add_logs records w : log (add_logs records w) = log w ++ records.
Proof.
  revert w. induction records as [|r records IH]; intros w; simpl.
  - by rewrite app_nil_r.
  - rewrite IH. simpl. by rewrite <-app_assoc.
Qed.

Lemma add_logs_frame records w :
  environ (add_logs records w) = environ w ∧ fs (add_logs records w) = fs w
  ∧ stdin (add_logs records w) = stdin w ∧ stdout (add_logs records w) = stdout w
  ∧ launched (add_logs records w) = launched w.
Proof.
  revert w. induction records as [|r records IH]; intros w; simpl; [done|].
  by destruct (IH (add_log r w)) as (-> & -> & -> & -> & ->).
Qed.

Lemma probe_package_eq package missing w :
  probe_package P package missing w
  = Ok (if importable P (probed_name package) then missing else missing ++ [package])
       (add_log (probe_record (importable P) package) w).
Proof.
  unfold probe_package, try_except, bind, import_module, probe_record, probed_name.
  by destruct (importable P _).
Qed.

(** The loop over the packages: what it collects and what it logs depend on
    nothing but whether each probed name imports. *)
Lemma probe_loop l missing w :
  for_fold l (probe_package P) missing w
  = Ok (missing ++ filter (λ package, importable P (probed_name package) = false) l)
       (add_logs (probe_record (importable P) <$> l) w).
Proof.
  revert missing w. induction l as [|package l IH]; intros missing w; simpl.
  - by rewrite app_nil_r.
  - unfold bind. rewrite probe_package_eq, IH. f_equal.
    rewrite filter_cons. destruct (importable P (probed_name package)) eqn:Hp.
    + by rewrite decide_False by done.
    + rewrite decide_True by done. by rewrite <-app_assoc.
Qed.

(** [check_dependencies], run symbolically. *)
Lemma check_dependencies_eq w :
  check_dependencies P w
  = let missing := missing_packages (importable P) in
    let w1 := add_logs (probe_record (importable P) <$> required_packages) w in
    match missing with
    | [] => Ok true w1
    | _ :: _ =>
        let w2 := add_log (ERROR, ("Missing packages: " ++ PyStr.join ", " missing)%string) w1 in
        match stdin w2 with
        | [] => Raise EOFError (read_line install_prompt [] w2)
        | install :: rest =>
            let w3 := read_line install_prompt rest w2 in
            if String.eqb (PyStr.lower install) "y" then
              let argv := ["-m"; "pip"; "install"] ++ missing in
              let r := spawn P argv (environ w3) (fs w3) in
              if (r.2 =? 0)%Z
              then Ok true (add_log (INFO, "Packages installed successfully.")
                              (ran argv r.1 r.2 w3))
              else Ok false (add_log (ERROR, "Failed to install packages.")
                               (ran argv r.1 r.2 w3))
            else
              Ok false (add_log (WARNING, "Continuing without installing missing packages.") w3)
        end
    end.
Proof.
  unfold check_dependencies, bind at 1. rewrite probe_loop, app_nil_l.
  change (filter _ required_packages) with (missing_packages (importable P)).
  cbv zeta.
  generalize (add_logs (probe_record (importable P) <$> required_packages) w).
  intros w1.
  destruct (missing_packages (importable P)) as [|package missing]; [done|].
  unfold bind at 1, logger at 1. unfold bind at 1, input at 1, install_prompt.
  destruct (stdin _) as [|install rest]; [done|].
  destruct (_ =? _)%string; [|done].
  by rewrite guarded_call.
Qed.

End Dependencies.

Lemma check_dependencies_log (P : Platform) (w : World) :
  ∃ more,
    log (world_of (check_dependencies P w))
    = log w ++ (probe_record (importable P) <$> required_packages)
      ++ match missing_packages (importable P) with
         | [] => []
         | missing =>
             [(ERROR, ("Missing packages: " ++ PyStr.join ", " missing)%string)]
         end ++ more.
Proof.
  rewrite check_dependencies_eq. cbv zeta.
  pose proof (log_add_logs (probe_record (importable P) <$> required_packages) w)
    as Hlog.
  pose proof (add_logs_frame (probe_record (importable P) <$> required_packages) w)
    as (_ & _ & Hstdin & _).
  revert Hlog Hstdin.
  generalize (add_logs (probe_record (importable P) <$> required_packages) w).
  intros w1 Hlog Hstdin.
  destruct (missing_packages (importable P)) as [|package missing].
  { exists []. simpl. by rewrite Hlog, ?app_nil_r. }
  simpl stdin.
  destruct (stdin w1) as [|install rest].
  { exists []. simpl. by rewrite Hlog, <-?app_assoc. }
  destruct (_ =? _)%string; [destruct (_ =? _)%Z|];
    eexists [_]; simpl; by rewrite Hlog, <-?app_assoc.
Qed.

Lemma missing_packages_agree (imports1 imports2 : string → bool) :
  (∀ package, package ∈ required_packages →
     imports1 (probed_name package) = imports2 (probed_name package)) →
  missing_packages imports1 = missing_packages imports2
  ∧ probe_record imports1 <$> required_packages
    = probe_record imports2 <$> required_packages.
Proof.
  unfold missing_packages. generalize required_packages.
  induction l as [|package l IH]; intros Hagree; [done|].
  destruct IH as [IH1 IH2].
  { intros p Hp. apply Hagree. by right. }
  rewrite !filter_cons, !fmap_cons, IH1, IH2. unfold probe_record at 1 3.
  rewrite (Hagree package) by left. done.
Qed.

(** C10: the dependency check probes, for each required package, the
    module whose name is the package name with hyphens turned into
    underscores (so [opencv_python] for [opencv-python] and [scikit_learn]
    for [scikit-learn]); what it does is a function of whether those twelve
    names import and of nothing else that imports; it returns true without
    asking when all of them import, and otherwise reports exactly the
    packages whose probed name fails to import, whatever other module names
    the platform offers. *)
Theorem check_dependencies_probes_transformed_names :
  (probed_name "opencv-python" = "opencv_python"
   ∧ probed_name "scikit-learn" = "scikit_learn")
  ∧ (∀ P imports w,
       (∀ package, package ∈ required_packages →
          imports (probed_name package) = importable P (probed_name package)) →
       check_dependencies (with_imports P imports) w = check_dependencies P w)
  ∧ (∀ P w,
       missing_packages (importable P) = [] →
       ∃ w', check_dependencies P w = Ok true w'
             ∧ stdout w' = stdout w ∧ launched w' = launched w)
  ∧ (∀ P w,
       missing_packages (importable P) ≠ [] →
       (ERROR, ("Missing packages: "
                ++ PyStr.join ", " (missing_packages (importable P)))%string)
       ∈ new_log w (world_of (check_dependencies P w)))
  ∧ (∀ P w package,
       package ∈ required_packages →
       importable P (probed_name package) = false →
       package ∈ missing_packages (importable P)
       ∧ (WARNING, ("Package " ++ package ++ " not found.")%string)
         ∈ new_log w (world_of (check_dependencies P w))).
Proof.
  split; [by split|]. split; [|split; [|split]].
  - intros P imports w Hagree. rewrite !check_dependencies_eq. simpl importable.
    by destruct (missing_packages_agree imports (importable P) Hagree) as [-> ->].
  - intros P w Hnone. rewrite check_dependencies_eq, Hnone. cbv zeta.
    eexists. split; [done|].
    by destruct (add_logs_frame (probe_record (importable P) <$> required_packages) w)
      as (_ & _ & _ & -> & ->).
  - intros P w Hsome. destruct (check_dependencies_log P w) as [more Hlog].
    rewrite (new_log_app _ _ _ Hlog).
    destruct (missing_packages (importable P)); [done|].
    apply elem_of_app. right. apply elem_of_app. left. by left.
  - intros P w package Hin Hfail. split.
    + unfold missing_packages. by apply list_elem_of_filter.
    + destruct (check_dependencies_log P w) as [more Hlog].
      rewrite (new_log_app _ _ _ Hlog). apply elem_of_app. left.
      apply list_elem_of_fmap. exists package. split; [|done].
      unfold probe_record. by rewrite Hfail.
Qed.

Lemma check_dependencies_probes_transformed_names_witness :
  let P := Sample.py 3 11 (Sample.all_but "opencv_python") in
  let w := Sample.world ∅ ["n"] in
  ("opencv-python" ∈ required_packages
   ∧ importable P "cv2" = true
   ∧ importable P (probed_name "opencv-python") = false)
  ∧ "opencv-python" ∈ missing_packages (importable P)
  ∧ (WARNING, "Package opencv-python not found.")
    ∈ new_log w (world_of (check_dependencies P w)).
Proof.
  intros P w.
  assert ("opencv-python" ∈ required_packages) as Hin
    by (vm_compute; repeat constructor).
  assert (importable P (probed_name "opencv-python") = false) as Hfail
    by reflexivity.
  split; [done|].
  destruct check_dependencies_probes_transformed_names as (_ & _ & _ & _ & Hd).
  exact (Hd P w "opencv-python" Hin Hfail).
Defined.

(** ** The credential file is the JSON text of the entered pair *)

Section JsonRoundTrip.

Import Json.

Lemma string_app_cons (x : ascii) (a b : string) :
  (String x a ++ b = String x (a ++ b))%string.
Proof. reflexivity. Qed.

Lemma string_app_nil (b : string) : ("" ++ b = b)%string.
Proof. reflexivity. Qed.

Lemma string_app_assoc (a b c : string) : ((a ++ b) ++ c = a ++ (b ++ c))%string.
Proof.
  induction a as [|x a IH]; [done|]. by rewrite !string_app_cons, IH.
Qed.

(** Reading back the escape of one character yields the character. *)
Lemma read_chars_escape_char (c : ascii) (rest : string) :
  read_chars (escape_char c ++ rest) = cons_char c (read_chars rest).
Proof.
  destruct c as [[] [] [] [] [] [] [] []]; reflexivity.
Qed.

Lemma read_chars_escape (s rest : string) :
  read_chars (escape s ++ String quote rest) = Some (s, rest).
Proof.
  induction s as [|c s IH]; [reflexivity|].
  cbn [escape]. rewrite string_app_assoc, read_chars_escape_char, IH.
  reflexivity.
Qed.

Lemma read_string_encoded (s rest : string) :
  read_string (encode_basestring_ascii s ++ rest) = Some (s, rest).
Proof.
  unfold encode_basestring_ascii.
  rewrite string_app_cons, string_app_assoc, string_app_cons, string_app_nil.
  apply read_chars_escape.
Qed.

Lemma read_string_after_space (s : string) :
  read_string (String " " s) = read_string s.
Proof. reflexivity. Qed.

Lemma expect_here (c : ascii) (rest : string) :
  is_space c = false → expect c (String c rest) = Some rest.
Proof.
  intros Hc. unfold expect. cbn [skip_space]. rewrite Hc.
  by rewrite Ascii.eqb_refl.
Qed.

Lemma skip_space_here (c : ascii) (rest : string) :
  is_space c = false → skip_space (String c rest) = String c rest.
Proof. intros Hc. cbn [skip_space]. by rewrite Hc. Qed.

Lemma read_members_two (fuel : nat) (k1 v1 k2 v2 : string) :
  read_members (S (S fuel))
    (encode_item (k1, v1) ++ ", " ++ encode_item (k2, v2) ++ "}")
  = Some [(k1, v1); (k2, v2)].
Proof.
  unfold encode_item. cbn [fst snd].
  rewrite !string_app_assoc, !string_app_cons, !string_app_nil.
  cbn [read_members].
  rewrite read_string_encoded, expect_here by done.
  rewrite read_string_after_space, read_string_encoded.
  cbv beta iota. rewrite skip_space_here by done.
  cbn [Ascii.eqb Bool.eqb]. cbv beta iota.
  rewrite read_string_after_space, read_string_encoded, expect_here by done.
  rewrite read_string_after_space, read_string_encoded.
  cbv beta iota. rewrite skip_space_here by done.
  cbn [Ascii.eqb Bool.eqb]. cbv beta iota.
  reflexivity.
Qed.

(** The text [json.dump] writes for the two credentials reads back as
    the object with exactly those two members. *)
Lemma loads_dumps_credentials (username key : string) :
  loads (dumps [("username", username); ("key", key)])
  = Some [("username", username); ("key", key)].
Proof.
  unfold dumps. cbn [fmap list_fmap PyStr.join].
  unfold loads. rewrite string_app_cons, string_app_nil, expect_here by done.
  rewrite string_app_assoc.
  unfold encode_item at 1. cbn [fst snd]. unfold encode_basestring_ascii at 1.
  rewrite !string_app_cons. rewrite skip_space_here by done.
  cbn [Ascii.eqb Bool.eqb]. cbv beta iota.
  cbn [String.length].
  apply (read_members_two _ "username" username "key" key).
Qed.

End JsonRoundTrip.

(** ** The prompts and the credential gate *)

Lemma lower_char_y (c : ascii) :
  PyStr.lower_char c = "y"%char → c = "y"%char ∨ c = "Y"%char.
Proof.
  destruct c as [[] [] [] [] [] [] [] []]; vm_compute; intros H;
    first [discriminate H | by left | by right].
Qed.

Lemma lower_y (response : string) :
  PyStr.lower response = "y" ↔ affirmative response.
Proof.
  split.
  - destruct response as [|c [|c' rest]]; simpl; [done| |done].
    intros [= Hc]. by destruct (lower_char_y c Hc) as [->| ->]; [left|right].
  - by intros [->| ->].
Qed.

Lemma affirmative_eqb (response : string) :
  String.eqb (PyStr.lower response) "y" = true ↔ affirmative response.
Proof. by rewrite String.eqb_eq, lower_y. Qed.

Lemma not_affirmative_eqb (response : string) :
  String.eqb (PyStr.lower response) "y" = false ↔ ¬ affirmative response.
Proof. by rewrite <-affirmative_eqb, not_true_iff_false. Qed.

Section Credentials.

Context (P : Platform).

Lemma check_kaggle_credentials_prompted w response rest :
  no_credentials w → fs w !! kaggle_json = None → stdin w = response :: rest →
  check_kaggle_credentials P w
  = let w1 := read_line setup_prompt rest
                (add_log (WARNING, "Kaggle credentials not found in environment variables or kaggle.json.") w) in
    if String.eqb (PyStr.lower response) "y"
    then enter_credentials P w1
    else Ok false (add_log (WARNING, "Continuing without Kaggle credentials.") w1).
Proof.
  intros Hnone Hfile Hstdin. unfold kaggle_json in Hfile.
  unfold check_kaggle_credentials, bind at 1, environ_get at 1.
  unfold bind at 1, environ_get at 1. rewrite Hnone.
  unfold bind at 1, os_path_exists at 1.
  rewrite lookup_node_nonempty by (by rewrite components_kaggle_json).
  rewrite Hfile.
  unfold bind at 1, logger at 1. unfold bind at 1, input at 1.
  simpl stdin. rewrite Hstdin. cbv zeta.
  by destruct (_ =? _)%string.
Qed.

Lemma persist_credentials_post username key w w' :
  persist_credentials P username key w = Ok tt w' →
  fs w' !! kaggle_json = Some (File (credentials_json username key) 384).
Proof.
  unfold persist_credentials, kaggle_json, credentials_json. cbv zeta.
  rewrite components_kaggle_dir, components_kaggle_json. simpl app.
  unfold bind at 1.
  destruct (os_makedirs P _ true w) as [[] w1|e w1]; [|done].
  unfold bind at 1, open_write at 1. rewrite lookup_node_cons.
  destruct (fs w1 !! ["~"; ".kaggle"; "kaggle.json"]) as [[|c mode]|]; [done| |].
  - destruct (N.testbit mode 7); [|done].
    unfold bind, os_chmod, logger. rewrite lookup_node_cons. simpl fs.
    rewrite lookup_insert_eq. intros [= <-]. simpl. apply lookup_insert_eq.
  - destruct (lookup_node (fs w1) _) as [[|]|]; [|done..].
    case_bool_decide; [done|].
    unfold bind, os_chmod, logger. rewrite lookup_node_cons. simpl fs.
    rewrite lookup_insert_eq. intros [= <-]. simpl. apply lookup_insert_eq.
Qed.

Lemma enter_credentials_true w b w' : enter_credentials P w = Ok b w' → b = true.
Proof.
  unfold enter_credentials, bind, ret.
  repeat case_match; try done; by intros [= <- _].
Qed.

(** The answers are consumed in the order username, key, persistence. *)
Lemma enter_credentials_eq w username key persist rest :
  stdin w = username :: key :: persist :: rest →
  PyStr.has_nul username = false → PyStr.has_nul key = false →
  enter_credentials P w
  = let w5 :=
      read_line persist_prompt rest
        (set_environ (insert "KAGGLE_KEY" key)
           (set_environ (insert "KAGGLE_USERNAME" username)
              (read_line "Enter your Kaggle API key: " (persist :: rest)
                 (read_line "Enter your Kaggle username: " (key :: persist :: rest) w)))) in
    if String.eqb (PyStr.lower persist) "y"
    then match persist_credentials P username key w5 with
         | Ok _ w6 => Ok true w6
         | Raise e w6 => Raise e w6
         end
    else Ok true w5.
Proof.
  intros Hstdin Hu Hk.
  unfold enter_credentials, bind at 1, input at 1. rewrite Hstdin.
  unfold bind at 1, input at 1. simpl stdin.
  unfold bind at 1, environ_set at 1. rewrite Hu.
  unfold bind at 1, environ_set at 1. rewrite Hk.
  unfold bind at 1, input at 1. simpl stdin. cbv zeta.
  unfold bind at 1. by destruct (_ =? _)%string.
Qed.

Lemma enter_credentials_persisted w username key persist rest b w' :
  stdin w = username :: key :: persist :: rest →
  affirmative persist →
  enter_credentials P w = Ok b w' →
  b = true
  ∧ fs w' !! kaggle_json = Some (File (credentials_json username key) 384).
Proof.
  intros Hstdin Hyes Hrun.
  split; [by eapply enter_credentials_true|].
  apply affirmative_eqb in Hyes. revert Hrun.
  unfold enter_credentials, bind at 1, input at 1. rewrite Hstdin.
  unfold bind at 1, input at 1. simpl stdin.
  unfold bind at 1, environ_set at 1.
  destruct (PyStr.has_nul username); [done|].
  unfold bind at 1, environ_set at 1.
  destruct (PyStr.has_nul key); [done|].
  unfold bind at 1, input at 1. simpl stdin. cbv beta iota.
  unfold bind at 1. rewrite Hyes.
  destruct (persist_credentials P username key _) as [[] w6|e w6] eqn:Hp; [|done].
  intros [= _ <-]. by eapply persist_credentials_post.
Qed.

End Credentials.

(** The mode [0o600] has the owner's read and write bits and no other. *)
Lemma owner_read_write_bits (i : N) :
  N.testbit 384 i = true ↔ (i = 7 ∨ i = 8)%N.
Proof.
  split; [|by intros [->| ->]].
  intros Hbit. destruct (decide (i < 9)%N) as [Hlt|Hge].
  - assert (i = 0 ∨ i = 1 ∨ i = 2 ∨ i = 3 ∨ i = 4 ∨ i = 5 ∨ i = 6
            ∨ i = 7 ∨ i = 8)%N as Hi by lia.
    destruct Hi as [->|[->|[->|[->|[->|[->|[->|[->| ->]]]]]]]];
      first [discriminate Hbit | by left | by right].
  - rewrite N.bits_above_log2 in Hbit; [done|].
    change (N.log2 384) with 8%N. lia.
Qed.

(** C7: in a run of [check_kaggle_credentials] that finds no credentials
    in the environment and no credential file, is answered affirmatively at
    the set-up prompt, is given a username and a key, is answered
    affirmatively at the persistence prompt, and returns: it returns true,
    [~/.kaggle/kaggle.json] is a regular file whose mode is 0o600 (owner read
    and write, nothing else) and whose content is the JSON text [json.dump]
    writes for the pair, which reads back as the object with member
    ["username"] the entered username and member ["key"] the entered key. *)
Theorem credentials_persisted (P : Platform) (w w' : World) (b : bool)
    (setup username key persist : string) (rest : list string) :
  no_credentials w → fs w !! kaggle_json = None →
  stdin w = setup :: username :: key :: persist :: rest →
  affirmative setup → affirmative persist →
  check_kaggle_credentials P w = Ok b w' →
  b = true
  ∧ fs w' !! kaggle_json = Some (File (credentials_json username key) 384)
  ∧ (384 = 6 * 8 * 8 + 0 * 8 + 0
     ∧ ∀ i, N.testbit 384 i = true ↔ (i = 7 ∨ i = 8))%N
  ∧ Json.loads (credentials_json username key)
    = Some [("username", username); ("key", key)].
Proof.
  intros Hnone Hfile Hstdin Hsetup Hpersist Hrun.
  rewrite (check_kaggle_credentials_prompted P w setup _ Hnone Hfile Hstdin) in Hrun.
  cbv zeta in Hrun. apply affirmative_eqb in Hsetup. rewrite Hsetup in Hrun.
  eapply enter_credentials_persisted in Hrun as [-> Hjson]; [|done..].
  split; [done|]. split; [exact Hjson|]. split; [|apply loads_dumps_credentials].
  split; [done|]. apply owner_read_write_bits.
Qed.

Lemma credentials_persisted_witness :
  let P := Sample.py 3 11 Sample.everything in
  let w := Sample.world ∅ ["y"; "someone"; "0123abcd"; "y"] in
  let w' := world_of (check_kaggle_credentials P w) in
  (no_credentials w ∧ fs w !! kaggle_json = None
   ∧ affirmative "y" ∧ check_kaggle_credentials P w = Ok true w')
  ∧ fs w' !! kaggle_json = Some (File (credentials_json "someone" "0123abcd") 384)
  ∧ Json.loads (credentials_json "someone" "0123abcd")
    = Some [("username", "someone"); ("key", "0123abcd")].
Proof.
  intros P w w'.
  assert (no_credentials w) as Hnone by reflexivity.
  assert (fs w !! kaggle_json = None) as Hfile by reflexivity.
  assert (affirmative "y") as Hyes by (by left).
  assert (check_kaggle_credentials P w = Ok true w') as Hrun
    by (vm_compute; reflexivity).
  split; [done|].
  destruct (credentials_persisted P w w' true "y" "someone" "0123abcd" "y" []
              Hnone Hfile eq_refl Hyes Hyes Hrun) as (_ & Hjson & _ & Hloads).
  split; [exact Hjson|exact Hloads].
Defined.

(** C8, as stated, fails: the response ["Y"] is not ["y"], and yet at each
    of the three prompts it takes the affirmative branch: the installer is
    launched, the credentials are asked for, and the credential file is
    written. *)
Lemma uppercase_y_takes_the_affirmative_branch :
  let P := Sample.py 3 11 (Sample.all_but "flask") in
  let w := Sample.world ∅ ["Y"] in
  let v := Sample.world ∅ ["Y"; "someone"; "0123abcd"; "Y"] in
  "Y" ≠ "y"
  ∧ new_launches w (world_of (check_dependencies P w))
    = [(["-m"; "pip"; "install"; "flask"], 0%Z)]
  ∧ environ (world_of (check_kaggle_credentials P v)) !! "KAGGLE_USERNAME"
    = Some "someone"
  ∧ fs (world_of (check_kaggle_credentials P v)) !! kaggle_json
    = Some (File (credentials_json "someone" "0123abcd") 384).
Proof.
  intros P w v. split; [done|]. split; [|split]; vm_compute; reflexivity.
Qed.

(** C8, amended: at each of the three yes/no prompts the affirmative
    branch is taken exactly for the responses ["y"] and ["Y"] (the responses
    whose lower-case form is ["y"]); every other response is treated as no.
    For the installer prompt the affirmative branch is the launch of the
    installer; for the set-up prompt the negative branch is the return of
    false; for the persistence prompt the negative branch is the return of
    true with no credential file. *)
Theorem prompts_accept_y_in_either_case :
  (∀ response,
     String.eqb (PyStr.lower response) "y" = true ↔ affirmative response)
  ∧ (∀ P w response rest,
       missing_packages (importable P) ≠ [] →
       stdin w = response :: rest →
       new_launches w (world_of (check_dependencies P w)) ≠ []
       ↔ affirmative response)
  ∧ (∀ P w response rest,
       no_credentials w → fs w !! kaggle_json = None →
       stdin w = response :: rest →
       (∃ w', check_kaggle_credentials P w = Ok false w')
       ↔ ¬ affirmative response)
  ∧ (∀ P w setup username key response rest,
       no_credentials w → fs w !! kaggle_json = None →
       stdin w = setup :: username :: key :: response :: rest →
       affirmative setup →
       PyStr.has_nul username = false → PyStr.has_nul key = false →
       (∃ w', check_kaggle_credentials P w = Ok true w'
              ∧ fs w' !! kaggle_json = None)
       ↔ ¬ affirmative response).
Proof.
  split; [exact affirmative_eqb|]. split; [|split].
  - intros P w response rest Hmissing Hstdin.
    rewrite check_dependencies_eq. cbv zeta.
    pose proof (add_logs_frame (probe_record (importable P) <$> required_packages) w)
      as (_ & _ & Hin & _ & Hlaunched).
    revert Hin Hlaunched.
    generalize (add_logs (probe_record (importable P) <$> required_packages) w).
    intros w1 Hin Hlaunched.
    destruct (missing_packages (importable P)) as [|package missing]; [done|].
    simpl stdin. rewrite Hin, Hstdin.
    destruct (_ =? _)%string eqn:Hyes.
    + apply affirmative_eqb in Hyes. split; [done|]. intros _.
      assert (∀ w' e, launched w' = launched w ++ [e] → new_launches w w' ≠ [])
        as Hone by (intros w' e He; by rewrite (new_launches_app _ _ _ He)).
      match goal with
      | |- new_launches w (world_of (if ?c then _ else _)) ≠ [] => destruct c
      end; simpl world_of; eapply Hone; simpl; by rewrite Hlaunched.
    + apply not_affirmative_eqb in Hyes. split; [|done]. intros Hnew.
      exfalso. apply Hnew. apply new_launches_app. simpl.
      by rewrite Hlaunched, app_nil_r.
  - intros P w response rest Hnone Hfile Hstdin.
    rewrite (check_kaggle_credentials_prompted P w response rest) by done.
    cbv zeta. destruct (_ =? _)%string eqn:Hyes.
    + apply affirmative_eqb in Hyes. split; [|done].
      intros [w' Hrun]. by apply enter_credentials_true in Hrun.
    + apply not_affirmative_eqb in Hyes. split; [done|]. intros _. by eexists.
  - intros P w setup username key response rest Hnone Hfile Hstdin Hsetup Hu Hk.
    rewrite (check_kaggle_credentials_prompted P w setup _ Hnone Hfile Hstdin).
    cbv zeta. apply affirmative_eqb in Hsetup. rewrite Hsetup.
    rewrite (enter_credentials_eq P _ username key response rest) by done.
    cbv zeta. destruct (PyStr.lower response =? "y")%string eqn:Hyes.
    + apply affirmative_eqb in Hyes. split; [|done].
      intros (w' & Hrun & Hgone). exfalso.
      destruct (persist_credentials P username key _) as [[] w6|e w6] eqn:Hp;
        [|done].
      injection Hrun as <-.
      apply persist_credentials_post in Hp. by rewrite Hp in Hgone.
    + apply not_affirmative_eqb in Hyes. split; [done|]. intros _.
      eexists. split; [done|]. exact Hfile.
Qed.

Lemma prompts_accept_y_in_either_case_witness :
  let P := Sample.py 3 11 (Sample.all_but "flask") in
  let w := Sample.world ∅ ["Y"] in
  (missing_packages (importable P) ≠ [] ∧ stdin w = ["Y"] ∧ affirmative "Y")
  ∧ new_launches w (world_of (check_dependencies P w)) ≠ [].
Proof.
  intros P w.
  assert (missing_packages (importable P) ≠ []) as Hmissing
    by (vm_compute; discriminate).
  assert (affirmative "Y") as Hyes by (by right).
  split; [done|].
  destruct prompts_accept_y_in_either_case as (_ & Hinstall & _).
  exact (proj2 (Hinstall P w "Y" [] Hmissing eq_refl) Hyes).
Defined.

(** ** When the download is launched *)

Section Download.

Context (P : Platform).

Lemma missing_or_short_eq d n w :
  d ≠ [] → folder_or_absent (fs w) d →
  missing_or_short d n w = Ok (short_of (fs w) d n) w.
Proof.
  intros Hd Hfolder. unfold missing_or_short, bind, os_path_exists, short_of.
  rewrite lookup_node_nonempty by done.
  destruct Hfolder as [Hf|Hf]; rewrite Hf; [done|]. simpl.
  unfold os_listdir. rewrite lookup_node_nonempty, Hf by done.
  unfold ret. by rewrite length_fmap.
Qed.

Lemma training_folders_eq w :
  folder_or_absent (fs w) (components "dataset/leprosy_dataset/positive") →
  folder_or_absent (fs w) (components "dataset/leprosy_dataset/negative") →
  or_else (missing_or_short (components "dataset/leprosy_dataset/positive") 10)
          (missing_or_short (components "dataset/leprosy_dataset/negative") 10) w
  = Ok (training_incomplete (fs w)) w.
Proof.
  intros Hpos Hneg. unfold or_else, bind at 1, training_incomplete.
  rewrite missing_or_short_eq by (done || by rewrite components_positive).
  destruct (short_of (fs w) _ 10); [done|].
  by rewrite missing_or_short_eq by (done || by rewrite components_negative).
Qed.

(** [run_data_preparation] without the marker, and with the training
    folders settled: the download stage, then the rest. *)
Lemma run_data_preparation_unmarked w :
  fs w !! marker = None →
  folder_or_absent (fs w) (components "dataset/leprosy_dataset/positive") →
  folder_or_absent (fs w) (components "dataset/leprosy_dataset/negative") →
  run_data_preparation P w
  = if training_incomplete (fs w) then
      match check_kaggle_credentials P (add_log download_announced w) with
      | Raise e w1 => Raise e w1
      | Ok false w1 =>
          Ok false (add_log (ERROR, "Cannot prepare datasets without Kaggle credentials.") w1)
      | Ok true w1 =>
          let w2 := add_log (INFO, "Running prepare_kaggle_data.py...") w1 in
          let r := spawn P download_argv (environ w2) (fs w2) in
          if (r.2 =? 0)%Z
          then after_download P
                 (add_log (INFO, "Dataset preparation completed successfully.")
                    (ran download_argv r.1 r.2 w2))
          else Ok false (add_log (ERROR, "Failed to prepare datasets.")
                           (ran download_argv r.1 r.2 w2))
      end
    else after_download P (add_log (INFO, "Datasets already downloaded.") w).
Proof.
  intros Hmarker Hpos Hneg. unfold marker in Hmarker.
  unfold run_data_preparation, bind at 1, os_path_exists at 1.
  rewrite lookup_node_nonempty by (by rewrite components_marker).
  rewrite Hmarker. cbv beta match delta [negb].
  unfold bind at 1. rewrite training_folders_eq by done.
  destruct (training_incomplete (fs w)).
  - unfold bind at 1. unfold bind at 1, logger at 1. unfold bind at 1.
    fold download_announced.
    destruct (check_kaggle_credentials P _) as [[|] w1|e w1]; [|done..].
    unfold bind at 1, logger at 1. rewrite guarded_call. cbv zeta.
    unfold download_argv. by destruct (_ =? _)%Z.
  - unfold bind at 1. unfold bind at 1, logger at 1. done.
Qed.

End Download.

Lemma launches_only_member K w w' e :
  launches_only K w w' → e ∈ new_launches w w' → K e.
Proof.
  intros Hl Hin. apply launches_only_new in Hl as [_ Hall].
  rewrite Forall_forall in Hall. by apply Hall.
Qed.

(** C2, as stated, fails: with no marker and no training folder at all,
    hence an unmet threshold, an operator who declines to set up credentials
    gets no download: nothing is launched and the function returns false. *)
Lemma no_download_without_credentials :
  let P := Sample.py 3 11 Sample.everything in
  let w := Sample.world ∅ ["n"] in
  fs w !! marker = None
  ∧ training_incomplete (fs w) = true
  ∧ new_launches w (world_of (run_data_preparation P w)) = []
  ∧ ∃ w', run_data_preparation P w = Ok false w'.
Proof.
  intros P w. split; [done|]. split; [done|]. split; [by vm_compute|].
  eexists. vm_compute. reflexivity.
Qed.

(** C2, amended: with the marker absent, and nothing but a directory (if
    anything) at either training-class path, the download script is launched
    if and only if one of the two training-class folders is missing or holds
    fewer than 10 entries and the credential check, run right after the stage
    is announced, returns true; in particular it is not launched when both
    folders exist with at least 10 entries each. *)
Theorem download_iff_incomplete_and_credentials (P : Platform) (w : World) :
  fs w !! marker = None →
  folder_or_absent (fs w) (components "dataset/leprosy_dataset/positive") →
  folder_or_absent (fs w) (components "dataset/leprosy_dataset/negative") →
  ((∃ code, (download_argv, code)
            ∈ new_launches w (world_of (run_data_preparation P w)))
   ↔ training_incomplete (fs w) = true
     ∧ ∃ w1, check_kaggle_credentials P (add_log download_announced w) = Ok true w1)
  ∧ (training_incomplete (fs w) = false →
     ∀ code, (download_argv, code)
             ∉ new_launches w (world_of (run_data_preparation P w))).
Proof.
  intros Hmarker Hpos Hneg.
  rewrite run_data_preparation_unmarked by done.
  assert (∀ w0 w', launched w0 = launched w →
            launches_only not_the_download w0 w' →
            ∀ code, (download_argv, code) ∉ new_launches w w') as Hnone.
  { intros w0 w' H0 Hl code Hin.
    assert (launches_only not_the_download w w') as Hl'.
    { destruct Hl as (new & Heq & Hall). exists new. by rewrite <-H0. }
    by apply (launches_only_member _ _ _ _ Hl' Hin). }
  assert (∀ w0 w' code, launched w0 = launched w ++ [(download_argv, code)] →
            launches_only not_the_download w0 w' →
            (download_argv, code) ∈ new_launches w w') as Hsome.
  { intros w0 w' code H0 (new & Heq & _).
    rewrite (new_launches_trans w w0 w' _ _ H0 Heq). set_solver. }
  destruct (training_incomplete (fs w)).
  - pose proof (check_kaggle_credentials_launches P (λ _, False)
                  (add_log download_announced w)) as Hquiet.
    apply quiet_launched in Hquiet. simpl in Hquiet.
    destruct (check_kaggle_credentials P _) as [[|] w1|e w1]; simpl in Hquiet.
    + split; [|done]. split; [by eauto|]. intros _. cbv zeta.
      match goal with |- context [spawn P ?a ?e ?f] => set (r := spawn P a e f) end.
      exists r.2. destruct (r.2 =? 0)%Z.
      * eapply Hsome; [|apply after_download_launches; by intros ?].
        simpl. by rewrite Hquiet.
      * eapply Hsome; [|reflexivity]. simpl. by rewrite Hquiet.
    + split; [|done]. split; [|by intros [_ [? ?]]].
      intros [code Hin]. exfalso. revert Hin. simpl world_of.
      eapply Hnone; [|reflexivity]. done.
    + split; [|done]. split; [|by intros [_ [? ?]]].
      intros [code Hin]. exfalso. revert Hin. simpl world_of.
      eapply Hnone; [|reflexivity]. done.
  - assert (∀ code, (download_argv, code)
              ∉ new_launches w
                  (world_of (after_download P
                               (add_log (INFO, "Datasets already downloaded.") w))))
      as Hskip.
    { intros code. eapply Hnone; [|apply after_download_launches; by intros ?].
      done. }
    split; [|by intros _]. split; [|by intros [? _]].
    intros [code Hin]. by apply Hskip in Hin.
Qed.

Lemma download_iff_incomplete_and_credentials_witness :
  let P := Sample.py 3 11 Sample.everything in
  let w := Sample.with_credentials (Sample.world ∅ []) in
  (fs w !! marker = None
   ∧ training_incomplete (fs w) = true
   ∧ ∃ w1, check_kaggle_credentials P (add_log download_announced w) = Ok true w1)
  ∧ ∃ code, (download_argv, code)
            ∈ new_launches w (world_of (run_data_preparation P w)).
Proof.
  intros P w.
  assert (fs w !! marker = None) as Hmarker by reflexivity.
  assert (training_incomplete (fs w) = true) as Hincomplete by reflexivity.
  assert (∃ w1, check_kaggle_credentials P (add_log download_announced w) = Ok true w1)
    as Hready by (eexists; vm_compute; reflexivity).
  split; [done|].
  destruct (download_iff_incomplete_and_credentials P w Hmarker
              (or_introl eq_refl) (or_introl eq_refl)) as [Hiff _].
  exact (proj2 Hiff (conj Hincomplete Hready)).
Defined.

(** ** The directory stage cannot return false *)

Section DirectoryFailure.

Context (P : Platform).

Ltac log_sides :=
  first
    [ apply _
    | intros; by apply logs_only_same
    | intros; by apply logs_only_add
    | by intros
    | intros; exact I ].

Lemma check_python_version_logs :
  steps (logs_only not_directories_failed) (check_python_version P).
Proof.
  apply (steps_check_python_version P _ not_directories_failed); log_sides.
Qed.

Lemma check_dependencies_logs :
  steps (logs_only not_directories_failed) (check_dependencies P).
Proof.
  apply (steps_check_dependencies P _ not_directories_failed (λ _, True));
    log_sides.
Qed.

Lemma setup_directories_logs :
  steps (logs_only not_directories_failed) (setup_directories P).
Proof.
  apply (steps_setup_directories P _ not_directories_failed); log_sides.
Qed.

Lemma run_data_preparation_logs :
  steps (logs_only not_directories_failed) (run_data_preparation P).
Proof.
  apply (steps_run_data_preparation P _ not_directories_failed (λ _, True));
    log_sides.
Qed.

(** [main] never writes the record of its branch for a failed directory
    stage. *)
Lemma main_logs w : logs_only not_directories_failed w (world_of (main P w)).
Proof.
  rewrite main_stages.
  set (w0 := add_log _ w).
  assert (logs_only not_directories_failed w w0) as H0
    by (by apply logs_only_add).
  pose proof (check_python_version_logs w0) as H1.
  destruct (check_python_version P w0) as [[|] w1|e w1]; simpl in H1;
    [|simpl; etrans; [exact H0|]; etrans; [exact H1|];
       by apply logs_only_add
     |simpl; by etrans].
  pose proof (check_dependencies_logs w1) as H2.
  destruct (check_dependencies P w1) as [deps_ok w2|e w2]; simpl in H2;
    [|simpl; etrans; [exact H0|]; by etrans].
  set (w2' := if deps_ok then w2 else add_log _ w2).
  assert (logs_only not_directories_failed w w2') as H02.
  { etrans; [exact H0|]. etrans; [exact H1|]. etrans; [exact H2|].
    unfold w2'. destruct deps_ok; [done|by apply logs_only_add]. }
  pose proof (setup_directories_logs w2') as H3.
  destruct (setup_directories P w2') as [[|] w3|e w3] eqn:Hdirs; simpl in H3;
    [|by apply setup_directories_returns_true in Hdirs
     |simpl; by etrans].
  pose proof (run_data_preparation_logs w3) as H4.
  destruct (run_data_preparation P w3) as [prepared w4|e w4]; simpl in H4;
    [|simpl; etrans; [exact H02|]; by etrans].
  simpl. etrans; [exact H02|]. etrans; [exact H3|]. etrans; [exact H4|].
  etrans; [|by apply logs_only_add]. etrans; [|by apply logs_only_add].
  destruct prepared; [done|by apply logs_only_add].
Qed.

End DirectoryFailure.

(** C9: [setup_directories] never returns false (whenever it returns, it
    returns true); so [main] never writes the record "Setup failed: Could not
    create required directories." and returns false only when the interpreter
    is older than 3.8; and an exception raised by the directory stage leaves
    [main] as that exception, ending the process with status 1. *)
Theorem setup_directories_never_returns_false (P : Platform) :
  (∀ w b w', setup_directories P w = Ok b w' → b = true)
  ∧ (∀ w, directories_failed ∉ new_log w (world_of (main P w)))
  ∧ (∀ w w', main P w = Ok false w' → below_3_8 P)
  ∧ (∀ w w1 deps_ok w2 e w3,
       check_python_version P
         (add_log (INFO, "Starting setup for Leprosy Detection AI Application...") w)
       = Ok true w1 →
       check_dependencies P w1 = Ok deps_ok w2 →
       setup_directories P
         (if deps_ok then w2
          else add_log (WARNING, "Setup may not work correctly without required packages.") w2)
       = Raise e w3 →
       main P w = Raise e w3 ∧ exit_code P w = 1%Z).
Proof.
  split; [apply setup_directories_returns_true|]. split; [|split].
  - intros w Hin.
    pose proof (main_logs P w) as Hlogs.
    apply logs_only_new in Hlogs as [_ Hall].
    rewrite Forall_forall in Hall. by apply (Hall _ Hin).
  - intros w w'. rewrite main_stages.
    destruct (decide (below_3_8 P)) as [Hold|Hnew]; [done|].
    destruct (check_python_version_ok P
                (add_log (INFO, "Starting setup for Leprosy Detection AI Application...") w)
                Hnew) as [msg ->].
    destruct (check_dependencies P _) as [deps_ok w2|e w2]; [|done].
    destruct (setup_directories P _) as [[|] w3|e w3] eqn:Hdirs; [|
      by apply setup_directories_returns_true in Hdirs|done].
    by destruct (run_data_preparation P w3).
  - intros w w1 deps_ok w2 e w3 Hversion Hdeps Hdirs.
    assert (main P w = Raise e w3) as Hmain
      by (by rewrite main_stages, Hversion, Hdeps, Hdirs).
    split; [exact Hmain|]. unfold exit_code. by rewrite Hmain.
Qed.

Lemma setup_directories_never_returns_false_witness :
  let P := Sample.py 3 11 Sample.everything in
  let w := Sample.world model_is_a_file [] in
  let w0 := add_log (INFO, "Starting setup for Leprosy Detection AI Application...") w in
  let w1 := world_of (check_python_version P w0) in
  let w2 := world_of (check_dependencies P w1) in
  let w3 := world_of (setup_directories P w2) in
  (check_python_version P w0 = Ok true w1
   ∧ check_dependencies P w1 = Ok true w2
   ∧ setup_directories P w2 = Raise FileExistsError w3)
  ∧ main P w = Raise FileExistsError w3 ∧ exit_code P w = 1%Z.
Proof.
  intros P w w0 w1 w2 w3.
  assert (check_python_version P w0 = Ok true w1) as Hversion
    by (vm_compute; reflexivity).
  assert (check_dependencies P w1 = Ok true w2) as Hdeps
    by (vm_compute; reflexivity).
  assert (setup_directories P w2 = Raise FileExistsError w3) as Hdirs
    by (vm_compute; reflexivity).
  split; [done|].
  destruct (setup_directories_never_returns_false P) as (_ & _ & _ & Hraise).
  exact (Hraise w w1 true w2 FileExistsError w3 Hversion Hdeps Hdirs).
Defined.

(** C5 at its failing input: with a regular file named [model] in the
    working directory (a supported interpreter, every package importable),
    the directory stage fails, and [main] does not return false: the
    [FileExistsError] leaves it uncaught, the record "Setup failed: Could not
    create required directories." is not written, and the interpreter ends
    with status 1 through the uncaught exception. *)
Lemma main_raises_on_directory_failure :
  let P := Sample.py 3 11 Sample.everything in
  let w := Sample.world model_is_a_file [] in
  ¬ below_3_8 P
  ∧ (∀ w', main P w ≠ Ok false w')
  ∧ (∃ w', main P w = Raise FileExistsError w' ∧ directories_failed ∉ log w')
  ∧ exit_code P w = 1%Z.
Proof.
  intros P w.
  assert (main P w = Raise FileExistsError (world_of (main P w))) as Hmain
    by (vm_compute; reflexivity).
  split.
  { unfold below_3_8, P. simpl. lia. }
  split; [intros w'; by rewrite Hmain|]. split.
  - eexists. split; [exact Hmain|].
    set (records := log _). vm_compute in records. subst records.
    intros Hin.
    repeat (apply elem_of_cons in Hin as [Heq|Hin]; [discriminate Heq|]).
    by apply elem_of_nil in Hin.
  - unfold exit_code. by rewrite Hmain.
Qed.

(** * Further properties of the stages *)

(** ** The version threshold *)

(** X1: on every interpreter that compiles the file,
    [check_python_version] never raises and changes nothing but the log, to
    which it adds one record; it returns true exactly when the interpreter
    version, compared major first and then minor, is at least 3.8, so every
    major version above 3 is accepted whatever its minor version; and it
    returns false exactly on 3.6 and 3.7, the only versions below 3.8 on
    which it can be called. *)
Theorem check_python_version_threshold (P : Platform) (w : World) :
  compiles P →
  ∃ b record,
    check_python_version P w = Ok b (add_log record w)
    ∧ (b = true ↔ at_least_3_8 P)
    ∧ (b = false
       ↔ (version_info P).1 = 3%N
         ∧ ((version_info P).2 = 6%N ∨ (version_info P).2 = 7%N)).
Proof.
  intros Hc.
  assert (at_least_3_8 P ↔ ¬ below_3_8 P) as Hiff.
  { unfold at_least_3_8, below_3_8. lia. }
  pose proof (compiles_below_3_8 P) as Hrange.
  destruct (decide (below_3_8 P)) as [Hold|Hnew].
  - exists false. eexists. split; [by apply check_python_version_below|].
    rewrite Hiff, <-Hrange. split; [|done]. split; [done|]. by intros Hnew.
  - destruct (check_python_version_ok P w Hnew) as [msg Hrun].
    exists true. eexists. split; [exact Hrun|].
    rewrite Hiff, <-Hrange. split; [done|]. split; [done|]. by intros [_ Hold].
Qed.

Lemma check_python_version_threshold_witness :
  let P := Sample.py 3 7 Sample.everything in
  let w := Sample.world ∅ [] in
  compiles P
  ∧ check_python_version P w
    = Ok false (add_log (ERROR, "Python 3.8 or higher is required.") w).
Proof.
  intros P w.
  assert (compiles P) as Hc by reflexivity.
  split; [exact Hc|].
  destruct (check_python_version_threshold P w Hc) as (b & record & Hrun & _ & _).
  revert Hrun. vm_compute. intros [= <- <-]. reflexivity.
Defined.

(** ** Where the credentials come from *)

Section CredentialSources.

Context (P : Platform).

Lemma no_credentials_spec w :
  no_credentials w
  ↔ ¬ ∃ username key,
        environ w !! "KAGGLE_USERNAME" = Some username
        ∧ environ w !! "KAGGLE_KEY" = Some key
        ∧ username ≠ "" ∧ key ≠ "".
Proof.
  unfold no_credentials, unset.
  destruct (environ w !! "KAGGLE_USERNAME") as [[|c u]|];
    destruct (environ w !! "KAGGLE_KEY") as [[|d k]|]; simpl;
    split; try done; try (by intros _ (? & ? & ? & ? & ? & ?); simplify_eq).
  intros H. exfalso. apply H. by eexists _, _.
Qed.

Lemma check_kaggle_credentials_unprompted w :
  check_kaggle_credentials P w
  = if unset (environ w !! "KAGGLE_USERNAME") || unset (environ w !! "KAGGLE_KEY")
    then match fs w !! kaggle_json with
         | Some _ => Ok true (add_log found_in_file w)
         | None =>
             match stdin w with
             | [] => Raise EOFError (read_line setup_prompt [] (add_log credentials_missing w))
             | setup :: rest =>
                 let w1 := read_line setup_prompt rest (add_log credentials_missing w) in
                 if String.eqb (PyStr.lower setup) "y"
                 then enter_credentials P w1
                 else Ok false (add_log credentials_declined w1)
             end
         end
    else Ok true (add_log found_in_environment w).
Proof.
  unfold check_kaggle_credentials, bind at 1, environ_get at 1.
  unfold bind at 1, environ_get at 1.
  destruct (unset _ || unset _); [|done].
  unfold bind at 1, os_path_exists at 1, kaggle_json.
  rewrite lookup_node_nonempty by (by rewrite components_kaggle_json).
  destruct (fs w !! components "~/.kaggle/kaggle.json"); [done|].
  unfold bind at 1, logger at 1. unfold bind at 1, input at 1.
  simpl stdin. destruct (stdin w) as [|setup rest]; [done|].
  cbv zeta. by destruct (_ =? _)%string.
Qed.

End CredentialSources.

(** X2: the two sources that need no operator, in their order of
    precedence. When both environment variables hold non-empty values,
    [check_kaggle_credentials] returns true after one record, whatever is on
    disk or on standard input. Otherwise (a variable missing, or set to the
    empty string), when anything at all exists at [~/.kaggle/kaggle.json] (a
    file of any content, or a directory) it returns true after one record,
    without reading the file, without prompting and without setting the
    variables. *)
Theorem credentials_without_operator (P : Platform) (w : World) :
  ((∃ username key,
      environ w !! "KAGGLE_USERNAME" = Some username
      ∧ environ w !! "KAGGLE_KEY" = Some key
      ∧ username ≠ "" ∧ key ≠ "") →
   check_kaggle_credentials P w = Ok true (add_log found_in_environment w))
  ∧ (∀ username, environ w !! "KAGGLE_USERNAME" = Some username →
       environ w !! "KAGGLE_KEY" = Some "" →
       ∀ n, fs w !! kaggle_json = Some n →
       check_kaggle_credentials P w = Ok true (add_log found_in_file w))
  ∧ (no_credentials w → ∀ n, fs w !! kaggle_json = Some n →
     check_kaggle_credentials P w = Ok true (add_log found_in_file w)
     ∧ no_credentials (add_log found_in_file w)).
Proof.
  split; [|split].
  - intros Hset. rewrite check_kaggle_credentials_unprompted.
    destruct (unset _ || unset _) eqn:Hno; [|done].
    by apply no_credentials_spec in Hno.
  - intros username Hu Hk n Hfile. rewrite check_kaggle_credentials_unprompted.
    rewrite Hk, Hfile. simpl. by rewrite orb_true_r.
  - intros Hno n Hfile. rewrite check_kaggle_credentials_unprompted.
    unfold no_credentials in Hno. by rewrite Hno, Hfile.
Qed.

Lemma credentials_without_operator_witness :
  let P := Sample.py 3 11 Sample.everything in
  let w := Sample.world {[ ["~"; ".kaggle"; "kaggle.json"] := Dir ]} ["y"] in
  (no_credentials w ∧ fs w !! kaggle_json = Some Dir)
  ∧ check_kaggle_credentials P w = Ok true (add_log found_in_file w)
  ∧ no_credentials (add_log found_in_file w).
Proof.
  intros P w.
  assert (no_credentials w) as Hno by reflexivity.
  assert (fs w !! kaggle_json = Some Dir) as Hfile by reflexivity.
  split; [done|].
  destruct (credentials_without_operator P w) as (_ & _ & Hfound).
  exact (Hfound Hno Dir Hfile).
Defined.

(** X3: credentials entered for the session only. When no credentials
    are found, the operator accepts the set-up prompt, enters a username and
    a key and declines persistence, [check_kaggle_credentials] returns true,
    the two environment variables hold what was entered, four lines of input
    were consumed, and the file system and the launch trace are untouched.
    Nothing validates the entries: it returns true for an empty username as
    well, in which case the credentials still count as absent afterwards.
    When the operator declines the set-up prompt instead, it returns false
    and the environment, the file system and the launch trace are
    untouched. *)
Theorem credentials_for_the_session (P : Platform) (w : World)
    (setup username key persist : string) (rest : list string) :
  no_credentials w → fs w !! kaggle_json = None →
  (stdin w = setup :: username :: key :: persist :: rest →
   affirmative setup → ¬ affirmative persist →
   PyStr.has_nul username = false → PyStr.has_nul key = false →
   ∃ w', check_kaggle_credentials P w = Ok true w'
         ∧ environ w' = <["KAGGLE_KEY" := key]> (<["KAGGLE_USERNAME" := username]> (environ w))
         ∧ stdin w' = rest ∧ fs w' = fs w ∧ launched w' = launched w
         ∧ (username = "" → no_credentials w'))
  ∧ (stdin w = setup :: rest → ¬ affirmative setup →
     ∃ w', check_kaggle_credentials P w = Ok false w'
           ∧ environ w' = environ w ∧ stdin w' = rest
           ∧ fs w' = fs w ∧ launched w' = launched w).
Proof.
  intros Hno Hfile. split.
  - intros Hstdin Hsetup Hpersist Hu Hk.
    rewrite (check_kaggle_credentials_prompted P w setup _ Hno Hfile Hstdin).
    cbv zeta. apply affirmative_eqb in Hsetup. rewrite Hsetup.
    rewrite (enter_credentials_eq P _ username key persist rest) by done.
    cbv zeta. apply not_affirmative_eqb in Hpersist. rewrite Hpersist.
    eexists. split; [done|]. repeat (split; [done|]).
    intros ->. unfold no_credentials. simpl.
    rewrite lookup_insert_ne by done. by rewrite lookup_insert_eq.
  - intros Hstdin Hsetup.
    rewrite (check_kaggle_credentials_prompted P w setup _ Hno Hfile Hstdin).
    cbv zeta. apply not_affirmative_eqb in Hsetup. rewrite Hsetup.
    by eexists.
Qed.

Lemma credentials_for_the_session_witness :
  let P := Sample.py 3 11 Sample.everything in
  let w := Sample.world ∅ ["y"; ""; "0123abcd"; "n"] in
  (no_credentials w ∧ fs w !! kaggle_json = None ∧ affirmative "y" ∧ ¬ affirmative "n")
  ∧ ∃ w', check_kaggle_credentials P w = Ok true w'
          ∧ environ w' !! "KAGGLE_KEY" = Some "0123abcd"
          ∧ no_credentials w'.
Proof.
  intros P w.
  assert (no_credentials w) as Hno by reflexivity.
  assert (fs w !! kaggle_json = None) as Hfile by reflexivity.
  assert (affirmative "y") as Hyes by (by left).
  assert (¬ affirmative "n") as Hn by (by intros [H|H]).
  split; [done|].
  destruct (credentials_for_the_session P w "y" "" "0123abcd" "n" [] Hno Hfile)
    as [Hsession _].
  destruct (Hsession eq_refl Hyes Hn eq_refl eq_refl)
    as (w' & Hrun & Henv & _ & _ & _ & Hstill).
  exists w'. split; [exact Hrun|]. split; [|by apply Hstill].
  rewrite Henv. apply lookup_insert_eq.
Defined.

(** ** What the dependency check returns and launches *)

(** X4: with a package missing and a response on standard input,
    [check_dependencies] consumes exactly that one line and writes the prompt
    once. On an affirmative response it launches the installer once, with the
    missing packages in the order of the required list, and returns whether
    the installer exited with zero, without probing the packages again: the
    log grows by the twelve probe records, the record of the missing
    packages and one record of how the installation went, and by nothing
    after it; the file system is the one the installer left. On any other
    response it launches nothing, leaves the file system alone, logs the
    twelve probe records, the missing packages and a warning, and returns
    false. *)
Theorem check_dependencies_outcome (P : Platform) (w : World)
    (response : string) (rest : list string) :
  missing_packages (importable P) ≠ [] →
  stdin w = response :: rest →
  let missing := missing_packages (importable P) in
  let probes := probe_record (importable P) <$> required_packages in
  let reported := (ERROR, "Missing packages: " ++ PyStr.join ", " missing)%string in
  let argv := pip_install missing in
  let ran := spawn P argv (environ w) (fs w) in
  (affirmative response →
   ∃ w', check_dependencies P w = Ok (bool_decide (ran.2 = 0%Z)) w'
         ∧ new_launches w w' = [(argv, ran.2)]
         ∧ new_log w w'
           = probes ++ [reported;
                        if bool_decide (ran.2 = 0%Z)
                        then (INFO, "Packages installed successfully.")
                        else (ERROR, "Failed to install packages.")]
         ∧ stdout w' = stdout w ++ [install_prompt]
         ∧ fs w' = ran.1 ∧ stdin w' = rest ∧ environ w' = environ w)
  ∧ (¬ affirmative response →
     ∃ w', check_dependencies P w = Ok false w'
           ∧ new_launches w w' = []
           ∧ new_log w w'
             = probes ++ [reported;
                          (WARNING, "Continuing without installing missing packages.")]
           ∧ stdout w' = stdout w ++ [install_prompt]
           ∧ fs w' = fs w ∧ stdin w' = rest ∧ environ w' = environ w).
Proof.
  intros Hmissing Hstdin missing probes reported argv ran.
  subst missing probes reported argv ran.
  rewrite check_dependencies_eq. cbv zeta.
  pose proof (add_logs_frame (probe_record (importable P) <$> required_packages) w)
    as (Henv & Hfs & Hin & Hout & Hlaunched).
  pose proof (log_add_logs (probe_record (importable P) <$> required_packages) w)
    as Hlog.
  revert Henv Hfs Hin Hout Hlaunched Hlog.
  generalize (add_logs (probe_record (importable P) <$> required_packages) w).
  intros w1 Henv Hfs Hin Hout Hlaunched Hlog.
  destruct (missing_packages (importable P)) as [|package missing] eqn:Hm;
    [done|].
  simpl stdin. rewrite Hin, Hstdin. simpl environ. simpl fs.
  rewrite Henv, Hfs. unfold pip_install. split.
  - intros Hyes. apply affirmative_eqb in Hyes. rewrite Hyes.
    set (r := spawn P _ (environ w) (fs w)).
    destruct (r.2 =? 0)%Z eqn:Hcode.
    + apply Z.eqb_eq in Hcode. rewrite !bool_decide_eq_true_2 by done.
      eexists. split; [done|].
      split; [apply new_launches_app; simpl; by rewrite Hlaunched|].
      split; [apply new_log_app; simpl; by rewrite Hlog, <-!app_assoc|].
      split; [simpl; by rewrite Hout|]. by simpl.
    + apply Z.eqb_neq in Hcode. rewrite !bool_decide_eq_false_2 by done.
      eexists. split; [done|].
      split; [apply new_launches_app; simpl; by rewrite Hlaunched|].
      split; [apply new_log_app; simpl; by rewrite Hlog, <-!app_assoc|].
      split; [simpl; by rewrite Hout|]. by simpl.
  - intros Hno. apply not_affirmative_eqb in Hno. rewrite Hno.
    eexists. split; [done|].
    split; [apply new_launches_app; simpl; by rewrite Hlaunched, app_nil_r|].
    split; [apply new_log_app; simpl; by rewrite Hlog, <-!app_assoc|].
    split; [simpl; by rewrite Hout|]. by simpl.
Qed.

Lemma check_dependencies_outcome_witness :
  let P := Sample.py_failing (pip_install ["flask"; "numpy"]) in
  let P' := with_imports P (λ s, negb (String.eqb s "flask" || String.eqb s "numpy")) in
  let w := Sample.world ∅ ["Y"; "unread"] in
  (missing_packages (importable P') ≠ [] ∧ affirmative "Y")
  ∧ ∃ w', check_dependencies P' w = Ok false w'
          ∧ new_launches w w' = [(pip_install ["flask"; "numpy"], 1%Z)]
          ∧ List.length (new_log w w') = 14%nat
          ∧ last (new_log w w') = Some (ERROR, "Failed to install packages.")
          ∧ stdin w' = ["unread"].
Proof.
  intros P P' w.
  assert (missing_packages (importable P') ≠ []) as Hmissing
    by (vm_compute; discriminate).
  assert (affirmative "Y") as Hyes by (by right).
  split; [done|].
  destruct (check_dependencies_outcome P' w "Y" ["unread"] Hmissing eq_refl)
    as [Haccept _].
  destruct (Haccept Hyes) as (w' & Hrun & Hnew & Hlog & _ & _ & Hin & _).
  exists w'. split; [exact Hrun|]. split; [exact Hnew|].
  rewrite Hlog. split; [reflexivity|]. split; [reflexivity|exact Hin].
Defined.

(** ** End of input *)

(** X5: a prompt that meets the end of standard input is fatal. With a
    supported interpreter, a package missing and nothing to read,
    [check_dependencies] raises [EOFError]; no handler catches it, so it
    leaves [main] as well and the process ends with status 1, before any
    directory is created and with nothing launched. *)
Theorem end_of_input_at_install_prompt (P : Platform) (w : World) :
  ¬ below_3_8 P →
  missing_packages (importable P) ≠ [] →
  stdin w = [] →
  ∃ w', main P w = Raise EOFError w'
        ∧ exit_code P w = 1%Z
        ∧ fs w' = fs w ∧ launched w' = launched w
        ∧ last (stdout w') = Some install_prompt.
Proof.
  intros Hversion Hmissing Hstdin.
  assert (∃ w', main P w = Raise EOFError w'
                ∧ fs w' = fs w ∧ launched w' = launched w
                ∧ last (stdout w') = Some install_prompt) as (w' & Hmain & Hrest).
  { rewrite main_stages.
    destruct (check_python_version_ok P
                (add_log (INFO, "Starting setup for Leprosy Detection AI Application...") w)
                Hversion) as [msg ->].
    rewrite check_dependencies_eq. cbv zeta.
    match goal with
    | |- context [add_logs ?rs ?w0] =>
        pose proof (add_logs_frame rs w0) as (_ & Hfs & Hin & Hout & Hlaunched);
        revert Hfs Hin Hout Hlaunched; generalize (add_logs rs w0)
    end.
    intros w1 Hfs Hin Hout Hlaunched.
    destruct (missing_packages (importable P)); [done|].
    simpl stdin. rewrite Hin. simpl stdin. rewrite Hstdin.
    eexists. split; [done|]. simpl. rewrite Hfs, Hlaunched.
    repeat (split; [done|]). apply last_snoc. }
  exists w'. split; [exact Hmain|]. split; [|exact Hrest].
  unfold exit_code. by rewrite Hmain.
Qed.

Lemma end_of_input_at_install_prompt_witness :
  let P := Sample.py 3 11 (Sample.all_but "flask") in
  let w := Sample.world ∅ [] in
  (¬ below_3_8 P ∧ missing_packages (importable P) ≠ [])
  ∧ ∃ w', main P w = Raise EOFError w' ∧ exit_code P w = 1%Z ∧ fs w' = ∅.
Proof.
  intros P w.
  assert (¬ below_3_8 P) as Hversion by (unfold below_3_8, P; simpl; lia).
  assert (missing_packages (importable P) ≠ []) as Hmissing
    by (vm_compute; discriminate).
  split; [done|].
  destruct (end_of_input_at_install_prompt P w Hversion Hmissing eq_refl)
    as (w' & Hmain & Hcode & Hfs & _).
  exists w'. split; [exact Hmain|]. split; [exact Hcode|exact Hfs].
Defined.

(** ** What directory provisioning does to the files *)

#[global] Instance adds_directories_pre allowed : PreOrder (adds_directories allowed).
Proof.
  split.
  - by intros w p Hp.
  - intros w1 w2 w3 H12 H23 p Hp.
    destruct (decide (fs w2 !! p = fs w1 !! p)) as [Heq|Hne].
    + rewrite <-Heq. apply H23. by rewrite Heq.
    + destruct (H12 p Hne) as (Hnone & Hdir & Hallowed).
      destruct (decide (fs w3 !! p = fs w2 !! p)) as [Heq'|Hne'].
      * by rewrite Heq'.
      * destruct (H23 p Hne') as (Hnone' & _). by rewrite Hdir in Hnone'.
Qed.

#[global] Instance files_and_log_only_pre : PreOrder files_and_log_only.
Proof.
  split; [done|].
  intros w1 w2 w3 (H1 & H2 & H3 & H4) (H1' & H2' & H3' & H4').
  unfold files_and_log_only. by rewrite H1', H2', H3', H4'.
Qed.

Lemma steps_weaken {A} (R R' : relation World) (m : M A) :
  (∀ w w', R w w' → R' w w') → steps R m → steps R' m.
Proof. intros HR Hm w. apply HR, Hm. Qed.

Lemma adds_directories_weaken (allowed allowed' : path → Prop) w w' :
  (∀ p, allowed p → allowed' p) →
  adds_directories allowed w w' → adds_directories allowed' w w'.
Proof.
  intros Himpl Hadds p Hp. destruct (Hadds p Hp) as (? & ? & ?). auto.
Qed.

Lemma adds_directories_same_files allowed w w' :
  fs w' = fs w → adds_directories allowed w w'.
Proof. intros Heq p Hp. by rewrite Heq in Hp. Qed.

Lemma adds_directories_keeps_files allowed w w' :
  adds_directories allowed w w' → fs w ⊆ fs w'.
Proof.
  intros Hadds. apply map_subseteq_spec. intros p n Hp.
  destruct (decide (fs w' !! p = fs w !! p)) as [Heq|Hne]; [by rewrite Heq|].
  destruct (Hadds p Hne) as (Hnone & _). by rewrite Hp in Hnone.
Qed.

Section DirectoryEffects.

Context (P : Platform).

Lemma adds_directories_os_mkdir (allowed : path → Prop) p :
  allowed p → steps (adds_directories allowed) (os_mkdir P p).
Proof.
  intros Hallowed w. unfold os_mkdir.
  destruct (lookup_node (fs w) p) eqn:Hp; simpl; [done|].
  destruct (lookup_node (fs w) (removelast p)) as [[|]|]; simpl; try done.
  case_bool_decide; simpl; [done|].
  intros q Hq. destruct (decide (p = q)) as [<-|Hne].
  - simpl. rewrite lookup_insert_eq. split; [by destruct p|done].
  - simpl in Hq. by rewrite lookup_insert_ne in Hq.
Qed.

Lemma leads_to_head (tail : string) rhead p :
  leads_to (reverse rhead) p → leads_to (reverse (tail :: rhead)) p.
Proof.
  intros [Hne Hprefix]. split; [done|].
  rewrite reverse_cons. by apply prefix_app_r.
Qed.

Lemma leads_to_self (tail : string) rhead :
  leads_to (reverse (tail :: rhead)) (reverse (tail :: rhead)).
Proof. split; [apply reverse_cons_nonempty|done]. Qed.

Lemma adds_directories_os_makedirs_rev exist_ok rname :
  steps (adds_directories (leads_to (reverse rname)))
        (os_makedirs_rev P exist_ok rname).
Proof.
  induction rname as [|tail rhead IH]; simpl.
  - apply steps_raise, _.
  - apply steps_bind; [apply _| |intros _].
    + apply steps_bind; [apply _|by intros w|intros b].
      apply steps_if; [|apply steps_ret, _].
      apply steps_try_except; [apply _| |intros _; apply steps_ret, _].
      eapply steps_weaken; [|exact IH].
      intros w w'. apply adds_directories_weaken. apply leads_to_head.
    + apply steps_try_except; [apply _| |intros e].
      * apply adds_directories_os_mkdir, leads_to_self.
      * apply steps_bind; [apply _|by intros w|intros b].
        apply steps_if; [apply steps_raise, _|apply steps_ret, _].
Qed.

Lemma adds_directories_os_makedirs exist_ok name :
  steps (adds_directories (leads_to name)) (os_makedirs P name exist_ok).
Proof.
  unfold os_makedirs.
  rewrite <-(reverse_involutive name) at 1.
  apply adds_directories_os_makedirs_rev.
Qed.

Lemma adds_directories_ensure_directory directory :
  steps (adds_directories (leads_to (components directory)))
        (ensure_directory P directory).
Proof.
  apply steps_bind; [apply _|apply adds_directories_os_makedirs|].
  intros _ w. by apply adds_directories_same_files.
Qed.

Lemma adds_directories_provision l :
  l ⊆ directories →
  steps (adds_directories in_layout) (for_each l (ensure_directory P)).
Proof.
  intros Hl. apply steps_for_each_in; [apply _|].
  intros directory Hin.
  eapply steps_weaken; [|apply adds_directories_ensure_directory].
  intros w w'. apply adds_directories_weaken.
  intros p Hp. exists directory. split; [by apply Hl|done].
Qed.

End DirectoryEffects.

Section DirectoryFrame.

Context (P : Platform).

Lemma files_and_log_only_setup_directories :
  steps files_and_log_only (setup_directories P).
Proof.
  apply (steps_setup_directories P _ (λ _, True)); first [apply _|done].
Qed.

Lemma adds_directories_setup_directories :
  steps (adds_directories in_layout) (setup_directories P).
Proof.
  intros w. rewrite setup_directories_loop.
  pose proof (adds_directories_provision P directories (reflexivity _) w) as Hloop.
  by destruct (for_each directories (ensure_directory P) w).
Qed.

(** X6: what [setup_directories] does to the world, whether it returns
    or raises half-way. Every path whose content differs afterwards was free
    before, is a directory now, and is one of the twelve listed directories or
    leads to one; so every file and directory that existed is still there
    unchanged. The environment, standard input, standard output and the
    launch trace are untouched. *)
Theorem setup_directories_effects (w : World) :
  let w' := world_of (setup_directories P w) in
  (∀ p, fs w' !! p ≠ fs w !! p →
        fs w !! p = None ∧ fs w' !! p = Some Dir ∧ in_layout p)
  ∧ fs w ⊆ fs w'
  ∧ (environ w' = environ w ∧ stdin w' = stdin w
     ∧ stdout w' = stdout w ∧ launched w' = launched w).
Proof.
  intros w'. pose proof (adds_directories_setup_directories w) as Hadds.
  split; [exact Hadds|]. split; [by eapply adds_directories_keeps_files|].
  apply files_and_log_only_setup_directories.
Qed.

End DirectoryFrame.

(** ** When directory provisioning succeeds *)

Section DirectorySuccess.

Context (P : Platform).

Lemma clear_for_preserved allowed name w w' :
  adds_directories allowed w w' → clear_for (fs w) name → clear_for (fs w') name.
Proof.
  intros Hadds Hclear q Hq.
  destruct (decide (fs w' !! q = fs w !! q)) as [Heq|Hne].
  - destruct (Hclear q Hq) as [H|H]; [left|right]; by rewrite Heq.
  - right. by destruct (Hadds q Hne) as (_ & ? & _).
Qed.

Lemma leaf_returns name w :
  name ≠ [] → folder_or_absent (fs w) name →
  lookup_node (fs w) (removelast name) = Some Dir →
  removelast name ∉ readonly P →
  ∃ w', try_except (os_mkdir P name) is_OSError
          (λ e, let* isdir := os_path_isdir name in
                if negb true || negb isdir then raise e else ret tt) w
        = Ok tt w'.
Proof.
  intros Hne Hname Hparent Hwritable.
  unfold try_except, os_mkdir, bind, os_path_isdir.
  rewrite lookup_node_nonempty by done.
  destruct Hname as [Hfree|Hdir].
  - rewrite Hfree, Hparent. rewrite bool_decide_eq_false_2 by done. by eexists.
  - rewrite Hdir. simpl. rewrite lookup_node_nonempty, Hdir by done.
    by eexists.
Qed.

Lemma not_leads_to_shorter (tail : string) rhead :
  ¬ leads_to (reverse rhead) (reverse (tail :: rhead)).
Proof.
  intros [_ Hprefix]. apply prefix_length in Hprefix.
  rewrite !length_reverse in Hprefix. simpl in Hprefix. lia.
Qed.

Lemma os_makedirs_rev_returns rname w :
  rname ≠ [] →
  clear_for (fs w) (reverse rname) → writable_for P (reverse rname) →
  ∃ w', os_makedirs_rev P true rname w = Ok tt w'.
Proof.
  revert w. induction rname as [|tail rhead IH]; intros w Hne Hclear Hwritable;
    [done|].
  set (name := reverse (tail :: rhead)) in *.
  assert (removelast name = reverse rhead) as Hhead
    by apply removelast_reverse_cons.
  assert (reverse rhead ∉ readonly P) as Hparent_writable.
  { apply Hwritable.
    - unfold name. rewrite reverse_cons. by apply prefix_app_r.
    - intros Heq. by apply (reverse_cons_not_head tail rhead). }
  (* the world after the head has been seen to: the name is as it was, and
     the head is a directory *)
  assert (∃ w1, (let* head_exists := os_path_exists (reverse rhead) in
                 if (match rhead with [] => false | _ => true end) && negb head_exists
                 then try_except (os_makedirs_rev P true rhead)
                        is_FileExistsError (λ _, ret tt)
                 else ret tt) w = Ok tt w1
                ∧ folder_or_absent (fs w1) name
                ∧ lookup_node (fs w1) (reverse rhead) = Some Dir)
    as (w1 & Hfirst & Hname1 & Hhead1).
  { unfold bind at 1, os_path_exists at 1.
    destruct rhead as [|t2 rh].
    { exists w. split; [done|]. split; [|done].
      apply Hclear, leads_to_self. }
    rewrite lookup_node_nonempty by apply reverse_cons_nonempty.
    assert (leads_to name (reverse (t2 :: rh))) as Hleads.
    { split; [apply reverse_cons_nonempty|].
      unfold name. rewrite (reverse_cons _ tail). by apply prefix_app_r. }
    destruct (fs w !! reverse (t2 :: rh)) as [n|] eqn:Hexists;
      cbv beta match delta [andb negb].
    - exists w. split; [done|]. split; [apply Hclear, leads_to_self|].
      rewrite lookup_node_nonempty by apply reverse_cons_nonempty.
      destruct (Hclear _ Hleads) as [H|H]; by rewrite Hexists in H |- *.
    - destruct (IH w) as [w1 Hrec]; [done| | |].
      { intros q Hq. apply Hclear. by apply leads_to_head. }
      { intros q Hq Hqne. apply Hwritable.
        - etrans; [exact Hq|]. by destruct Hleads.
        - intros ->. apply prefix_length in Hq. unfold name in Hq.
          rewrite !length_reverse in Hq. simpl in Hq. lia. }
      exists w1. unfold try_except. rewrite Hrec. split; [done|].
      pose proof (adds_directories_os_makedirs_rev P true (t2 :: rh) w) as Hadds.
      rewrite Hrec in Hadds. simpl in Hadds.
      pose proof (os_makedirs_rev_post P (t2 :: rh) w) as Hpost.
      rewrite Hrec in Hpost. destruct Hpost as [_ [Hdir _]].
      split.
      + destruct (decide (fs w1 !! name = fs w !! name)) as [Heq|Hdiff].
        * destruct (Hclear name (leads_to_self tail (t2 :: rh))) as [H|H];
            [left|right]; by rewrite Heq.
        * destruct (Hadds name Hdiff) as (_ & _ & Hshort).
          by apply not_leads_to_shorter in Hshort.
      + by rewrite lookup_node_nonempty by apply reverse_cons_nonempty. }
  cbn [os_makedirs_rev]. fold name. unfold bind at 1. rewrite Hfirst.
  apply leaf_returns; [apply reverse_cons_nonempty|done|by rewrite Hhead..].
Qed.

Lemma provision_returns l w :
  (∀ d, d ∈ l → components d ≠ []) →
  (∀ d, d ∈ l → clear_for (fs w) (components d)) →
  (∀ d, d ∈ l → writable_for P (components d)) →
  ∃ w', for_each l (ensure_directory P) w = Ok tt w'.
Proof.
  revert w. induction l as [|d l IH]; intros w Hne Hclear Hwritable; simpl;
    [by eexists|].
  destruct (os_makedirs_rev_returns (reverse (components d)) w) as [w1 Hmk].
  { intros Hnil. apply (Hne d); [by left|].
    apply (f_equal reverse) in Hnil. by rewrite reverse_involutive in Hnil. }
  { rewrite reverse_involutive. apply Hclear. by left. }
  { rewrite reverse_involutive. apply Hwritable. by left. }
  pose proof (adds_directories_os_makedirs P true (components d) w) as Hadds.
  unfold os_makedirs in Hadds. rewrite Hmk in Hadds. simpl in Hadds.
  unfold bind at 1, ensure_directory at 1, bind at 1, os_makedirs.
  rewrite Hmk. unfold logger at 1.
  apply IH.
  - intros d' Hd'. apply Hne. by right.
  - intros d' Hd'. simpl.
    eapply clear_for_preserved; [exact Hadds|]. apply Hclear. by right.
  - intros d' Hd'. apply Hwritable. by right.
Qed.

(** X7: directory provisioning succeeds on every file system on which
    no regular file stands at a listed directory or on the way to one, provided
    entries can be created in the directories on the way (the working
    directory included): [setup_directories] then returns true and each of the
    twelve listed paths is a directory. *)
Theorem setup_directories_returns (w : World) :
  (∀ d, d ∈ directories → clear_for (fs w) (components d)) →
  (∀ d, d ∈ directories → writable_for P (components d)) →
  ∃ w', setup_directories P w = Ok true w'
        ∧ ∀ d, d ∈ directories → fs w' !! components d = Some Dir.
Proof.
  intros Hclear Hwritable.
  destruct (provision_returns directories w) as [w' Hloop]; [|done|done|].
  { intros d Hd. pose proof directories_nonempty as Hne.
    rewrite Forall_forall in Hne. by apply Hne. }
  exists w'. rewrite setup_directories_loop, Hloop. split; [done|].
  intros d Hd. pose proof (provision_post P _ _ _ Hloop) as Hens.
  rewrite Forall_forall in Hens. by destruct (Hens d Hd).
Qed.

(** X8: a regular file at one of the twelve listed paths makes
    [setup_directories] raise: it cannot return, because it never replaces an
    existing entry. The file is still there afterwards. *)
Theorem setup_directories_blocked (w : World) (d content : string) (mode : N) :
  d ∈ directories →
  fs w !! components d = Some (File content mode) →
  ∃ e w', setup_directories P w = Raise e w'
          ∧ fs w' !! components d = Some (File content mode).
Proof.
  intros Hd Hfile.
  pose proof (adds_directories_setup_directories P w) as Hadds.
  apply adds_directories_keeps_files in Hadds.
  assert (fs (world_of (setup_directories P w)) !! components d
          = Some (File content mode)) as Hkept
    by (by eapply lookup_weaken).
  rewrite setup_directories_loop in *.
  destruct (for_each directories (ensure_directory P) w) as [[] w'|e w'] eqn:Hloop.
  - exfalso. pose proof (provision_post P _ _ _ Hloop) as Hens.
    rewrite Forall_forall in Hens. destruct (Hens d Hd) as [Hdir _].
    simpl in Hkept. by rewrite Hdir in Hkept.
  - by exists e, w'.
Qed.

End DirectorySuccess.

Lemma setup_directories_returns_witness :
  let P := Sample.py 3 11 Sample.everything in
  let w := Sample.world ∅ [] in
  ∃ w', setup_directories P w = Ok true w'
        ∧ ∀ d, d ∈ directories → fs w' !! components d = Some Dir.
Proof.
  intros P w. apply (setup_directories_returns P w).
  - intros d Hd q Hq. left. apply lookup_empty.
  - intros d Hd q _ _. apply not_elem_of_empty.
Defined.

Lemma setup_directories_blocked_witness :
  let P := Sample.py 3 11 Sample.everything in
  let w := Sample.world model_is_a_file [] in
  "model" ∈ directories
  ∧ ∃ e w', setup_directories P w = Raise e w'
            ∧ fs w' !! components "model" = Some (File "" 420).
Proof.
  intros P w.
  assert ("model" ∈ directories) as Hd by (vm_compute; repeat constructor).
  split; [done|].
  exact (setup_directories_blocked P w "model" "" 420 Hd eq_refl).
Defined.

(** ** The order of the cascade *)

Section CascadeOrder.

Context (P : Platform).

Lemma Forall_removelast {A} (Q : A → Prop) (l : list A) :
  Forall Q l → Forall Q (removelast l).
Proof.
  induction 1 as [|x l Hx Hl IH]; simpl; [done|].
  destruct l; [done|]. by constructor.
Qed.

Lemma in_order_quiet allowed (m : M bool) : steps quiet m → in_order allowed m.
Proof.
  intros Hm w. exists []. specialize (Hm w). apply quiet_launched in Hm.
  split; [by rewrite app_nil_r|]. split; [apply sublist_nil_l|].
  by destruct (m w) as [[|]|].
Qed.

Lemma in_order_after {A} allowed (m : M A) (k : A → M bool) :
  steps quiet m → (∀ a, in_order allowed (k a)) → in_order allowed (bind m k).
Proof.
  intros Hm Hk w. unfold bind. specialize (Hm w). apply quiet_launched in Hm.
  destruct (m w) as [a w1|e w1]; simpl in Hm.
  - destruct (Hk a w1) as (new & Hnew & Hsub & Hzero).
    exists new. by rewrite Hnew, Hm.
  - exists []. simpl. rewrite Hm, app_nil_r.
    split; [done|]. split; [apply sublist_nil_l|done].
Qed.

Lemma in_order_stage l1 l2 (m : M bool) (k : bool → M bool) :
  in_order l1 m → (∀ w', k false w' = Ok false w') →
  (∀ b, in_order l2 (k b)) → in_order (l1 ++ l2) (bind m k).
Proof.
  intros Hm Hfalse Hk w. unfold bind.
  destruct (Hm w) as (n1 & H1 & S1 & Z1).
  destruct (m w) as [[|] w1|e w1]; simpl in H1.
  - destruct (Hk true w1) as (n2 & H2 & S2 & Z2).
    exists (n1 ++ n2). split; [by rewrite H2, H1, app_assoc|].
    split; [rewrite fmap_app; by apply sublist_app|].
    destruct (k true w1) as [[|] w2|e w2]; try by apply Forall_app.
    destruct n2 as [|x n2].
    + rewrite app_nil_r. by apply Forall_removelast.
    + rewrite removelast_app by done. by apply Forall_app.
  - rewrite Hfalse. exists n1. split; [done|].
    split; [by apply sublist_inserts_r|done].
  - exists n1. split; [done|]. split; [by apply sublist_inserts_r|done].
Qed.

Lemma in_order_call argv okmsg errmsg :
  in_order [argv]
    (try_except
       (subprocess_check_call P argv ;;; logger INFO okmsg ;;; ret true)
       is_CalledProcessError
       (λ _, logger ERROR errmsg ;;; ret false)).
Proof.
  intros w. rewrite guarded_call. cbv zeta.
  exists [(argv, (spawn P argv (environ w) (fs w)).2)].
  destruct (_ =? _)%Z eqn:Hcode; simpl; (split; [done|]); (split; [done|]).
  - repeat constructor. by apply Z.eqb_eq.
  - constructor.
Qed.

Lemma in_order_log_ret allowed lvl msg b :
  in_order allowed (logger lvl msg ;;; ret b).
Proof.
  apply in_order_quiet. apply steps_bind; [apply _|apply logger_launches|].
  intros _. apply steps_ret, _.
Qed.

Lemma in_order_ret allowed b : in_order allowed (ret b).
Proof. apply in_order_quiet, steps_ret, _. Qed.

Lemma in_order_launches allowed (m : M bool) :
  in_order allowed m → steps (launches_only (λ _, True)) m.
Proof.
  intros Hm w. destruct (Hm w) as (new & Hnew & _).
  exists new. split; [done|]. by apply Forall_true.
Qed.

Lemma true_after_after {A} final (m : M A) (k : A → M bool) :
  steps (launches_only (λ _, True)) m → (∀ a, true_after final (k a)) →
  true_after final (bind m k).
Proof.
  intros Hm Hk w w'. unfold bind. specialize (Hm w).
  destruct (m w) as [a w1|e w1]; [|done].
  destruct Hm as (n1 & H1 & _). simpl in H1. intros Hrun.
  destruct (Hk a w1 w' Hrun) as (n2 & H2).
  exists (n1 ++ n2). by rewrite H2, H1, <-!app_assoc.
Qed.

Lemma true_after_call argv okmsg errmsg :
  true_after (argv, 0%Z)
    (try_except
       (subprocess_check_call P argv ;;; logger INFO okmsg ;;; ret true)
       is_CalledProcessError
       (λ _, logger ERROR errmsg ;;; ret false)).
Proof.
  intros w w'. rewrite guarded_call. cbv zeta.
  destruct (_ =? _)%Z eqn:Hcode; [|done].
  apply Z.eqb_eq in Hcode. intros [= <-]. exists []. simpl. by rewrite Hcode.
Qed.

Lemma true_after_ret_false final : true_after final (ret false).
Proof. by intros w w'. Qed.

(** The download stage, as it stands in [run_data_preparation]. *)
Lemma in_order_download_stage (incomplete : bool) :
  in_order [download_argv]
    (if incomplete then
       logger INFO "Datasets not found or incomplete. Preparing to download..." ;;;
       let* credentials_ready := check_kaggle_credentials P in
       if credentials_ready then
         logger INFO "Running prepare_kaggle_data.py..." ;;;
         try_except
           (subprocess_check_call P ["prepare_kaggle_data.py"] ;;;
            logger INFO "Dataset preparation completed successfully." ;;;
            ret true)
           is_CalledProcessError
           (λ _, logger ERROR "Failed to prepare datasets." ;;;
                 ret false)
       else
         logger ERROR "Cannot prepare datasets without Kaggle credentials." ;;;
         ret false
     else
       logger INFO "Datasets already downloaded." ;;;
       ret true).
Proof.
  destruct incomplete; [|apply in_order_log_ret].
  apply in_order_after; [apply logger_launches|intros _].
  apply in_order_after; [apply check_kaggle_credentials_launches|intros ready].
  destruct ready; [|apply in_order_log_ret].
  apply in_order_after; [apply logger_launches|intros _].
  apply in_order_call.
Qed.

Lemma in_order_samples_stage (incomplete : bool) :
  in_order [samples_argv]
    (if incomplete then
       logger INFO "Test samples not found or incomplete. Preparing..." ;;;
       try_except
         (subprocess_check_call P ["prepare_test_samples.py"] ;;;
          logger INFO "Test samples prepared successfully." ;;;
          ret true)
         is_CalledProcessError
         (λ _, logger ERROR "Failed to prepare test samples." ;;;
               ret false)
     else
       logger INFO "Test samples already prepared." ;;;
       ret true).
Proof.
  destruct incomplete; [|apply in_order_log_ret].
  apply in_order_after; [apply logger_launches|intros _].
  apply in_order_call.
Qed.

Lemma in_order_after_download :
  in_order [samples_argv; training_argv] (after_download P).
Proof.
  unfold after_download. cbv zeta.
  apply in_order_after; [apply folders_incomplete_launches|intros incomplete].
  apply (in_order_stage [samples_argv] [training_argv]);
    [apply in_order_samples_stage|done|intros sampled].
  destruct sampled; cbv beta match delta [negb]; [|apply in_order_ret].
  apply in_order_after; [apply logger_launches|intros _].
  apply in_order_call.
Qed.

Lemma true_after_after_download :
  true_after (training_argv, 0%Z) (after_download P).
Proof.
  unfold after_download. cbv zeta.
  apply true_after_after; [apply folders_incomplete_launches|intros incomplete].
  apply true_after_after;
    [apply (in_order_launches _ _ (in_order_samples_stage incomplete))
    |intros sampled].
  destruct sampled; cbv beta match delta [negb]; [|apply true_after_ret_false].
  apply true_after_after; [apply logger_launches|intros _].
  apply true_after_call.
Qed.

Lemma in_order_run_data_preparation :
  in_order [download_argv; samples_argv; training_argv] (run_data_preparation P).
Proof.
  unfold run_data_preparation.
  apply in_order_after; [apply steps_os_path_exists, _|intros model_exists].
  destruct model_exists; cbv beta match delta [negb]; [apply in_order_log_ret|].
  apply in_order_after; [apply folders_incomplete_launches|intros incomplete].
  apply (in_order_stage [download_argv] [samples_argv; training_argv]);
    [apply in_order_download_stage|done|intros downloaded].
  destruct downloaded; cbv beta match delta [negb]; [|apply in_order_ret].
  apply in_order_after_download.
Qed.

(** X9: the cascade runs forward only. Whatever the world,
    [run_data_preparation] launches at most three processes; their commands
    are drawn from download, sample preparation, training in that order, each
    at most once; and every launch but the last exited with zero: nothing is
    launched after a failure and nothing is retried. *)
Theorem cascade_runs_in_order (w : World) :
  let w' := world_of (run_data_preparation P w) in
  launched w' = launched w ++ new_launches w w'
  ∧ (new_launches w w').*1 `sublist_of` [download_argv; samples_argv; training_argv]
  ∧ (List.length (new_launches w w') ≤ 3)%nat
  ∧ Forall exited_zero (removelast (new_launches w w')).
Proof.
  intros w'. destruct (in_order_run_data_preparation w) as (new & Hnew & Hsub & Hzero).
  fold w' in Hnew. rewrite (new_launches_app _ _ _ Hnew).
  split; [done|]. split; [done|]. split.
  - apply sublist_length in Hsub. by rewrite length_fmap in Hsub.
  - destruct (run_data_preparation P w) as [[|]|]; try done;
      by apply Forall_removelast.
Qed.

(** X10: without the marker, [run_data_preparation] returns true only
    when the training script was the last process launched and exited with
    zero. *)
Theorem true_means_trained (w w' : World) :
  fs w !! marker = None →
  run_data_preparation P w = Ok true w' →
  last (new_launches w w') = Some (training_argv, 0%Z).
Proof.
  intros Hmarker. unfold marker in Hmarker.
  unfold run_data_preparation, bind at 1, os_path_exists at 1.
  rewrite lookup_node_nonempty by (by rewrite components_marker).
  rewrite Hmarker. cbv beta match delta [negb].
  match goal with
  | |- ?body w = Ok true w' → _ =>
      assert (true_after (training_argv, 0%Z) body) as Hbody
  end.
  { apply true_after_after; [apply folders_incomplete_launches|intros incomplete].
    apply true_after_after;
      [apply (in_order_launches _ _ (in_order_download_stage incomplete))
      |intros downloaded].
    destruct downloaded; cbv beta match delta [negb];
      [apply true_after_after_download|apply true_after_ret_false]. }
  intros Hrun. destruct (Hbody w w' Hrun) as (new & Hnew).
  rewrite (new_launches_app _ _ _ Hnew). apply last_snoc.
Qed.

End CascadeOrder.

Lemma true_means_trained_witness :
  let P := Sample.py 3 11 Sample.everything in
  let w := Sample.with_credentials (Sample.world ∅ []) in
  let w' := world_of (run_data_preparation P w) in
  (fs w !! marker = None ∧ run_data_preparation P w = Ok true w')
  ∧ last (new_launches w w') = Some (training_argv, 0%Z).
Proof.
  intros P w w'.
  assert (fs w !! marker = None) as Hmarker by reflexivity.
  assert (run_data_preparation P w = Ok true w') as Hrun
    by (vm_compute; reflexivity).
  split; [done|]. exact (true_means_trained P w w' Hmarker Hrun).
Defined.

(** ** What the credential gate logs *)

Section CredentialLog.

Context (P : Platform).

Ltac fixed_records :=
  repeat first
    [ apply steps_ret; [apply _]
    | apply steps_os_makedirs; [apply _|intros; by apply logs_only_same]
    | apply steps_bind; [apply _| |intros ?]
    | apply steps_if
    | apply steps_input; intros; by apply logs_only_same
    | apply steps_environ_get; apply _
    | apply steps_environ_set; [apply _|intros; by apply logs_only_same]
    | apply steps_os_path_exists; apply _
    | apply steps_open_write; [apply _|intros; by apply logs_only_same]
    | apply steps_os_chmod; [apply _|intros; by apply logs_only_same]
    | apply (steps_logger (logs_only credential_record) credential_record);
        [intros; by apply logs_only_add
        |unfold credential_record, credential_records; repeat constructor] ].

Lemma check_kaggle_credentials_records :
  steps (logs_only credential_record) (check_kaggle_credentials P).
Proof. unfold check_kaggle_credentials. fixed_records. Qed.

(** X11: whatever is in the environment, on disk or typed at the
    prompts, and whether it returns or raises, [check_kaggle_credentials]
    adds to the log only records out of five constant ones; so neither the
    username nor the API key entered by the operator ever reaches the log. *)
Theorem credentials_never_logged (w : World) :
  let w' := world_of (check_kaggle_credentials P w) in
  log w' = log w ++ new_log w w'
  ∧ Forall (λ r, r ∈ credential_records) (new_log w w').
Proof.
  intros w'. apply logs_only_new, check_kaggle_credentials_records.
Qed.

End CredentialLog.

(** ** Stages that are already satisfied *)

Section Satisfied.

Context (P : Platform).

Lemma populated_not_short files d n :
  populated files d n → folder_or_absent files d ∧ short_of files d n = false.
Proof.
  intros [Hdir Hlen]. split; [by right|].
  unfold short_of. rewrite Hdir. by apply Nat.ltb_ge.
Qed.

Lemma folders_eq d1 d2 n w :
  d1 ≠ [] → d2 ≠ [] →
  folder_or_absent (fs w) d1 → folder_or_absent (fs w) d2 →
  or_else (missing_or_short d1 n) (missing_or_short d2 n) w
  = Ok (short_of (fs w) d1 n || short_of (fs w) d2 n) w.
Proof.
  intros Hd1 Hd2 H1 H2. unfold or_else, bind at 1.
  rewrite missing_or_short_eq by done.
  destruct (short_of (fs w) d1 n); [done|].
  by rewrite missing_or_short_eq by done.
Qed.

Lemma after_download_samples_in_place w :
  populated (fs w) (components "test_samples/positive") 5 →
  populated (fs w) (components "test_samples/negative") 5 →
  after_download P w
  = let w1 := add_log (INFO, "Training the model...")
                (add_log (INFO, "Test samples already prepared.") w) in
    let r := spawn P training_argv (environ w) (fs w) in
    if (r.2 =? 0)%Z
    then Ok true (add_log (INFO, "Model training completed successfully.")
                    (ran training_argv r.1 r.2 w1))
    else Ok false (add_log (ERROR, "Failed to train the model.")
                     (ran training_argv r.1 r.2 w1)).
Proof.
  intros Hpos Hneg.
  apply populated_not_short in Hpos as [Hpos Hpos'].
  apply populated_not_short in Hneg as [Hneg Hneg'].
  unfold after_download. cbv zeta. unfold bind at 1.
  rewrite folders_eq;
    [|by rewrite components_test_positive|by rewrite components_test_negative
     |done|done].
  rewrite Hpos', Hneg'. simpl orb. cbv beta match.
  unfold bind at 1. unfold bind at 1, logger at 1. unfold ret at 1.
  cbv beta match delta [negb]. unfold bind at 1, logger at 1.
  rewrite guarded_call. cbv zeta. unfold training_argv.
  by destruct (_ =? _)%Z.
Qed.

Lemma run_data_preparation_skipped w n :
  fs w !! marker = Some n →
  run_data_preparation P w
  = Ok true (add_log (INFO, "Model already exists. Skipping data preparation and training.") w).
Proof.
  intros Hmarker. unfold marker in Hmarker.
  unfold run_data_preparation, bind at 1, os_path_exists.
  rewrite lookup_node_nonempty by (by rewrite components_marker).
  by rewrite Hmarker.
Qed.

(** X12: satisfied stages are skipped. Without the marker, when both
    training folders are directories with at least 10 entries and both test
    folders are directories with at least 5, [run_data_preparation] asks for
    no credentials and launches exactly one process, the training script; it
    returns whether that process exited with zero, and standard input,
    standard output and the environment are untouched. *)
Theorem only_training_when_data_is_in_place (w : World) :
  fs w !! marker = None →
  populated (fs w) (components "dataset/leprosy_dataset/positive") 10 →
  populated (fs w) (components "dataset/leprosy_dataset/negative") 10 →
  populated (fs w) (components "test_samples/positive") 5 →
  populated (fs w) (components "test_samples/negative") 5 →
  let ran := spawn P training_argv (environ w) (fs w) in
  ∃ w', run_data_preparation P w = Ok (bool_decide (ran.2 = 0%Z)) w'
        ∧ new_launches w w' = [(training_argv, ran.2)]
        ∧ fs w' = ran.1 ∧ environ w' = environ w
        ∧ stdin w' = stdin w ∧ stdout w' = stdout w.
Proof.
  intros Hmarker Hpos Hneg Htpos Htneg ran0.
  destruct (populated_not_short _ _ _ Hpos) as [Hp Hp'].
  destruct (populated_not_short _ _ _ Hneg) as [Hn Hn'].
  rewrite run_data_preparation_unmarked by done.
  unfold training_incomplete. rewrite Hp', Hn'. simpl orb. cbv beta match.
  rewrite after_download_samples_in_place by done.
  cbv zeta. simpl environ. simpl fs. fold ran0.
  destruct (ran0.2 =? 0)%Z eqn:Hcode.
  - apply Z.eqb_eq in Hcode. rewrite bool_decide_eq_true_2 by done.
    eexists. split; [done|]. split; [|done]. by apply new_launches_app.
  - apply Z.eqb_neq in Hcode. rewrite bool_decide_eq_false_2 by done.
    eexists. split; [done|]. split; [|done]. by apply new_launches_app.
Qed.

(** X13: on a system that is already set up, [main] is a silent rerun.
    With a supported interpreter, every probed module importable, every
    listed directory in place and the model marker present, [main] returns
    true, the exit code is 0, nothing is read from standard input, nothing is
    prompted, nothing is launched, and the environment and the file system
    are exactly as before. *)
Theorem main_on_a_ready_system (w : World) (n : node) :
  ¬ below_3_8 P →
  missing_packages (importable P) = [] →
  (∀ d, d ∈ directories → ensured (fs w) (components d)) →
  fs w !! marker = Some n →
  ∃ w', main P w = Ok true w'
        ∧ exit_code P w = 0%Z
        ∧ fs w' = fs w ∧ environ w' = environ w ∧ stdin w' = stdin w
        ∧ stdout w' = stdout w ∧ launched w' = launched w.
Proof.
  intros Hversion Hmissing Hdirs Hmarker.
  assert (∃ w', main P w = Ok true w'
                ∧ fs w' = fs w ∧ environ w' = environ w ∧ stdin w' = stdin w
                ∧ stdout w' = stdout w ∧ launched w' = launched w)
    as (w' & Hmain & Hframe).
  { rewrite main_stages.
    destruct (check_python_version_ok P
                (add_log (INFO, "Starting setup for Leprosy Detection AI Application...") w)
                Hversion) as [msg ->].
    rewrite check_dependencies_eq, Hmissing. cbv zeta.
    match goal with
    | |- context [add_logs ?rs ?w0] =>
        pose proof (add_logs_frame rs w0) as (Henv & Hfs & Hin & Hout & Hlaunched);
        revert Henv Hfs Hin Hout Hlaunched; generalize (add_logs rs w0)
    end.
    simpl. intros w1 Henv Hfs Hin Hout Hlaunched.
    destruct (provision_again P directories w1 directories_nonempty)
      as (w2 & Hloop & Hfs2).
    { apply Forall_forall. intros d Hd. rewrite Hfs. by apply Hdirs. }
    pose proof (files_and_log_only_setup_directories P w1) as Hkeep.
    rewrite setup_directories_loop in Hkeep |- *. rewrite Hloop in Hkeep |- *.
    simpl in Hkeep. destruct Hkeep as (Henv2 & Hin2 & Hout2 & Hlaunched2).
    rewrite (run_data_preparation_skipped w2 n)
      by (by rewrite Hfs2, Hfs).
    eexists. split; [done|]. simpl.
    by rewrite Hfs2, Hfs, Henv2, Henv, Hin2, Hin, Hout2, Hout, Hlaunched2, Hlaunched. }
  exists w'. split; [exact Hmain|]. split; [|exact Hframe].
  unfold exit_code. by rewrite Hmain.
Qed.

End Satisfied.

Lemma only_training_when_data_is_in_place_witness :
  let P := Sample.py 3 11 Sample.everything in
  let w := Sample.world Sample.data_in_place ["unread"] in
  ∃ w', run_data_preparation P w = Ok true w'
        ∧ new_launches w w' = [(training_argv, 0%Z)]
        ∧ stdin w' = ["unread"].
Proof.
  intros P w.
  assert (fs w !! marker = None) as Hmarker by (by vm_compute).
  assert (populated (fs w) (components "dataset/leprosy_dataset/positive") 10)
    as Hpos by (split; [by vm_compute|vm_compute; lia]).
  assert (populated (fs w) (components "dataset/leprosy_dataset/negative") 10)
    as Hneg by (split; [by vm_compute|vm_compute; lia]).
  assert (populated (fs w) (components "test_samples/positive") 5)
    as Htpos by (split; [by vm_compute|vm_compute; lia]).
  assert (populated (fs w) (components "test_samples/negative") 5)
    as Htneg by (split; [by vm_compute|vm_compute; lia]).
  destruct (only_training_when_data_is_in_place P w Hmarker Hpos Hneg Htpos Htneg)
    as (w' & Hrun & Hnew & _ & _ & Hin & _).
  exists w'. split; [exact Hrun|]. split; [exact Hnew|exact Hin].
Defined.

Lemma main_on_a_ready_system_witness :
  let P := Sample.py 3 11 Sample.everything in
  let w := Sample.world Sample.ready ["unread"] in
  ∃ w', main P w = Ok true w' ∧ exit_code P w = 0%Z
        ∧ fs w' = Sample.ready ∧ stdin w' = ["unread"] ∧ launched w' = [].
Proof.
  intros P w.
  assert (¬ below_3_8 P) as Hversion by (unfold below_3_8, P; simpl; lia).
  assert (missing_packages (importable P) = []) as Hmissing by reflexivity.
  assert (∀ d, d ∈ directories → ensured (fs w) (components d)) as Hdirs.
  { apply Forall_forall.
    unfold directories.
    repeat (apply Forall_cons_2;
            [split; [by vm_compute
                    |first [left; by vm_compute | right; vm_compute; by eexists]]|]).
    apply Forall_nil_2. }
  assert (fs w !! marker = Some (File "" 420)) as Hmarker by (by vm_compute).
  destruct (main_on_a_ready_system P w (File "" 420)
              Hversion Hmissing Hdirs Hmarker)
    as (w' & Hmain & Hcode & Hfs & _ & Hin & _ & Hlaunched).
  exists w'. by repeat split.
Defined.

(** ** The download stage with credentials at hand *)

Section DownloadFirst.

Context (P : Platform).

(** X14: with credentials in the environment and a training folder
    missing or short, the download script is the first process launched and
    no prompt is issued. If it exits non-zero, [run_data_preparation] returns
    false having launched nothing else. If it exits with zero, the function
    goes on with the test-sample and training stages, and these see the file
    system the download left behind; whether the training folders are now
    populated is not checked again. *)
Theorem download_comes_first (w : World) :
  fs w !! marker = None →
  folder_or_absent (fs w) (components "dataset/leprosy_dataset/positive") →
  folder_or_absent (fs w) (components "dataset/leprosy_dataset/negative") →
  training_incomplete (fs w) = true →
  ¬ no_credentials w →
  let ran := spawn P download_argv (environ w) (fs w) in
  (ran.2 ≠ 0%Z →
   ∃ w', run_data_preparation P w = Ok false w'
         ∧ new_launches w w' = [(download_argv, ran.2)]
         ∧ stdin w' = stdin w ∧ stdout w' = stdout w)
  ∧ (ran.2 = 0%Z →
     ∃ w1, run_data_preparation P w = after_download P w1
           ∧ fs w1 = ran.1 ∧ launched w1 = launched w ++ [(download_argv, 0%Z)]
           ∧ environ w1 = environ w ∧ stdin w1 = stdin w ∧ stdout w1 = stdout w).
Proof.
  intros Hmarker Hpos Hneg Hincomplete Hcreds ran0.
  rewrite run_data_preparation_unmarked by done. rewrite Hincomplete.
  rewrite check_kaggle_credentials_unprompted.
  assert (unset (environ (add_log download_announced w) !! "KAGGLE_USERNAME")
          || unset (environ (add_log download_announced w) !! "KAGGLE_KEY") = false)
    as ->.
  { apply not_true_iff_false. exact Hcreds. }
  cbv zeta. simpl environ. simpl fs. fold ran0. split.
  - intros Hcode. apply Z.eqb_neq in Hcode. rewrite Hcode.
    eexists. split; [done|]. split; [|done]. by apply new_launches_app.
  - intros Hcode. rewrite Hcode. simpl Z.eqb. cbv beta match.
    eexists. split; [done|]. done.
Qed.

End DownloadFirst.

Lemma download_comes_first_witness :
  let P := Sample.py_failing download_argv in
  let w := Sample.with_credentials (Sample.world ∅ ["unread"]) in
  (fs w !! marker = None ∧ training_incomplete (fs w) = true ∧ ¬ no_credentials w)
  ∧ ∃ w', run_data_preparation P w = Ok false w'
          ∧ new_launches w w' = [(download_argv, 1%Z)]
          ∧ stdin w' = ["unread"].
Proof.
  intros P w.
  assert (fs w !! marker = None) as Hmarker by reflexivity.
  assert (training_incomplete (fs w) = true) as Hincomplete by reflexivity.
  assert (¬ no_credentials w) as Hcreds by (by vm_compute).
  split; [done|].
  destruct (download_comes_first P w Hmarker (or_introl eq_refl)
              (or_introl eq_refl) Hincomplete Hcreds) as [Hfail _].
  destruct Hfail as (w' & Hrun & Hnew & Hin & _); [by vm_compute|].
  exists w'. split; [exact Hrun|]. split; [exact Hnew|exact Hin].
Defined.

(** ** A failure while persisting *)

Section PersistFailure.

Context (P : Platform).

(** [os.makedirs(name, exist_ok=True)] on a regular file. *)
Lemma os_makedirs_on_file name w content mode :
  name ≠ [] → fs w !! name = Some (File content mode) →
  (removelast name = [] ∨ is_Some (fs w !! removelast name)) →
  os_makedirs P name true w = Raise FileExistsError w.
Proof.
  intros Hne Hfile Hhead. unfold os_makedirs.
  destruct (reverse name) as [|tail rhead] eqn:Hrev.
  { apply (f_equal reverse) in Hrev. by rewrite reverse_involutive in Hrev. }
  assert (name = reverse (tail :: rhead)) as Hname
    by (by rewrite <-Hrev, reverse_involutive).
  cbn [os_makedirs_rev]. rewrite <-Hname.
  assert (reverse rhead = removelast name) as Hrh
    by (by rewrite Hname, removelast_reverse_cons).
  rewrite Hrh.
  unfold bind at 1. unfold bind at 1, os_path_exists at 1.
  assert ((match rhead with [] => false | _ :: _ => true end
           && negb (match lookup_node (fs w) (removelast name) with
                    | Some _ => true | None => false end)) = false) as ->.
  { destruct rhead as [|t2 rh]; [done|].
    destruct Hhead as [Hnil|[n Hn]].
    - exfalso. rewrite <-Hrh in Hnil. by eapply reverse_cons_nonempty.
    - rewrite lookup_node_nonempty
        by (rewrite <-Hrh; apply reverse_cons_nonempty).
      by rewrite Hn. }
  unfold ret at 1. unfold try_except, os_mkdir.
  rewrite lookup_node_nonempty by done. rewrite Hfile. simpl.
  unfold bind, os_path_isdir.
  rewrite lookup_node_nonempty by done. by rewrite Hfile.
Qed.

(** X15: effects are not rolled back. When the operator enters
    credentials and asks to persist them while a regular file stands at
    [~/.kaggle], [os.makedirs] raises [FileExistsError], which leaves
    [check_kaggle_credentials] uncaught; the two environment variables have
    been set by then and stay set, and no credential file is written. *)
Theorem persist_failure_keeps_environment (w : World)
    (setup username key persist content : string) (mode : N) (rest : list string)
    (home : node) :
  no_credentials w →
  stdin w = setup :: username :: key :: persist :: rest →
  affirmative setup → affirmative persist →
  PyStr.has_nul username = false → PyStr.has_nul key = false →
  fs w !! ["~"] = Some home →
  fs w !! components "~/.kaggle" = Some (File content mode) →
  fs w !! kaggle_json = None →
  ∃ w', check_kaggle_credentials P w = Raise FileExistsError w'
        ∧ environ w' !! "KAGGLE_USERNAME" = Some username
        ∧ environ w' !! "KAGGLE_KEY" = Some key
        ∧ fs w' = fs w.
Proof.
  intros Hno Hstdin Hsetup Hpersist Hu Hk Hhome Hdir Hfile.
  rewrite (check_kaggle_credentials_prompted P w setup _ Hno Hfile Hstdin).
  cbv zeta. apply affirmative_eqb in Hsetup. rewrite Hsetup.
  rewrite (enter_credentials_eq P _ username key persist rest) by done.
  cbv zeta. apply affirmative_eqb in Hpersist. rewrite Hpersist.
  rewrite components_kaggle_dir in Hdir.
  unfold persist_credentials. cbv zeta. rewrite components_kaggle_dir.
  unfold bind at 1.
  erewrite os_makedirs_on_file; [|done|exact Hdir|right; by eexists].
  eexists. split; [done|]. simpl.
  split; [|by split; [apply lookup_insert_eq|]].
  rewrite lookup_insert_ne by done. apply lookup_insert_eq.
Qed.

End PersistFailure.

Lemma persist_failure_keeps_environment_witness :
  let P := Sample.py 3 11 Sample.everything in
  let w := Sample.world {[ ["~"] := Dir; ["~"; ".kaggle"] := File "" 420 ]}
             ["y"; "someone"; "0123abcd"; "y"] in
  ∃ w', check_kaggle_credentials P w = Raise FileExistsError w'
        ∧ environ w' !! "KAGGLE_USERNAME" = Some "someone"
        ∧ environ w' !! "KAGGLE_KEY" = Some "0123abcd"
        ∧ fs w' = fs w.
Proof.
  intros P w.
  apply (persist_failure_keeps_environment P w "y" "someone" "0123abcd" "y" "" 420 [] Dir);
    first [reflexivity | by left | by vm_compute].
Defined.

(** ** Declining the installer *)

Section DeclinedInstall.

Context (P : Platform).

(** X16: missing packages do not stop the setup. With a supported
    interpreter, a package missing and the installer declined, [main] logs
    the warning "Setup may not work correctly without required packages." and
    goes on: when nothing stands in the way of the directory layout and the
    model marker is present, every listed directory exists afterwards, nothing
    was launched, one line of input was consumed, and [main] returns true
    with exit code 0. *)
Theorem declined_install_is_not_fatal (w : World) (response : string)
    (rest : list string) (n : node) :
  ¬ below_3_8 P →
  missing_packages (importable P) ≠ [] →
  stdin w = response :: rest → ¬ affirmative response →
  (∀ d, d ∈ directories → clear_for (fs w) (components d)) →
  (∀ d, d ∈ directories → writable_for P (components d)) →
  fs w !! marker = Some n →
  ∃ w', main P w = Ok true w'
        ∧ exit_code P w = 0%Z
        ∧ packages_warning ∈ new_log w w'
        ∧ (∀ d, d ∈ directories → fs w' !! components d = Some Dir)
        ∧ launched w' = launched w ∧ stdin w' = rest.
Proof.
  intros Hversion Hmissing Hstdin Hdecline Hclear Hwritable Hmarker.
  assert (∃ w', main P w = Ok true w'
                ∧ packages_warning ∈ new_log w w'
                ∧ (∀ d, d ∈ directories → fs w' !! components d = Some Dir)
                ∧ launched w' = launched w ∧ stdin w' = rest)
    as (w' & Hmain & Hrest).
  { rewrite main_stages.
    destruct (check_python_version_ok P
                (add_log (INFO, "Starting setup for Leprosy Detection AI Application...") w)
                Hversion) as [msg ->].
    rewrite check_dependencies_eq. cbv zeta.
    match goal with
    | |- context [add_logs ?rs ?w0] =>
        pose proof (add_logs_frame rs w0) as (_ & Hfs & Hin & _ & Hlaunched);
        pose proof (log_add_logs rs w0) as Hlog;
        revert Hfs Hin Hlaunched Hlog; generalize (add_logs rs w0); generalize rs
    end.
    simpl. intros probes w1 Hfs Hin Hlaunched Hlog.
    destruct (missing_packages (importable P)) as [|package missing]; [done|].
    rewrite Hin, Hstdin. apply not_affirmative_eqb in Hdecline.
    rewrite Hdecline. fold packages_warning.
    match goal with
    | |- context [setup_directories P ?w0] => set (w2 := w0)
    end.
    destruct (provision_returns P directories w2) as [w3 Hloop].
    { intros d Hd. pose proof directories_nonempty as Hne.
      rewrite Forall_forall in Hne. by apply Hne. }
    { intros d Hd. simpl. rewrite Hfs. by apply Hclear. }
    { done. }
    pose proof (provision_post P _ _ _ Hloop) as Hens.
    pose proof (files_and_log_only_setup_directories P w2) as Hkeep.
    pose proof (adds_directories_setup_directories P w2) as Hadds.
    pose proof (setup_directories_logs P w2) as Hlogs.
    rewrite setup_directories_loop in Hkeep, Hadds, Hlogs |- *.
    rewrite Hloop in Hkeep, Hadds, Hlogs |- *. simpl in Hkeep, Hadds, Hlogs.
    destruct Hkeep as (_ & Hin3 & _ & Hlaunched3).
    apply adds_directories_keeps_files in Hadds.
    destruct Hlogs as (more & Hlog3 & _).
    subst w2. simpl in Hin3, Hlaunched3, Hlog3, Hadds.
    rewrite (run_data_preparation_skipped P w3 n).
    2:{ eapply lookup_weaken; [|exact Hadds]. by rewrite Hfs. }
    eexists. split; [done|]. simpl.
    split; [|split; [|by rewrite Hin3, Hlaunched3, Hlaunched]].
    - erewrite new_log_app.
      2:{ simpl. rewrite Hlog3, Hlog. rewrite <-!app_assoc. reflexivity. }
      simpl. set_solver.
    - intros d Hd. rewrite Forall_forall in Hens. by destruct (Hens d Hd). }
  exists w'. split; [exact Hmain|]. split; [|exact Hrest].
  unfold exit_code. by rewrite Hmain.
Qed.

End DeclinedInstall.

Lemma declined_install_is_not_fatal_witness :
  let P := Sample.py 3 11 (Sample.all_but "flask") in
  let w := Sample.world Sample.trained ["n"] in
  ∃ w', main P w = Ok true w'
        ∧ exit_code P w = 0%Z
        ∧ packages_warning ∈ new_log w w'
        ∧ fs w' !! components "static/uploads" = Some Dir.
Proof.
  intros P w.
  assert (¬ below_3_8 P) as Hversion by (unfold below_3_8, P; simpl; lia).
  assert (missing_packages (importable P) ≠ []) as Hmissing
    by (vm_compute; discriminate).
  assert (¬ affirmative "n") as Hn by (by intros [H|H]).
  assert (∀ d, d ∈ directories → clear_for (fs w) (components d)) as Hclear.
  { intros d Hd q [Hq Hprefix].
    destruct (fs w !! q) as [[|content mode]|] eqn:Hlook;
      [by right; rewrite Hlook|exfalso|by left; rewrite Hlook].
    unfold w, Sample.world, Sample.trained in Hlook. simpl in Hlook.
    apply lookup_insert_Some in Hlook as [[<- [=]]|[_ Hlook]].
    apply lookup_singleton_Some in Hlook as [<- _].
    revert Hd Hprefix. unfold directories. intros Hd Hprefix.
    repeat (apply elem_of_cons in Hd as [->|Hd];
            [vm_compute in Hprefix; by destruct Hprefix as [? [=]]|]).
    by apply elem_of_nil in Hd. }
  assert (∀ d, d ∈ directories → writable_for P (components d)) as Hwritable
    by (intros d Hd q _ _; apply not_elem_of_empty).
  destruct (declined_install_is_not_fatal P w "n" [] (File "" 420)
              Hversion Hmissing eq_refl Hn Hclear Hwritable eq_refl)
    as (w' & Hmain & Hcode & Hwarn & Hdirs & _).
  exists w'. split; [exact Hmain|]. split; [exact Hcode|]. split; [exact Hwarn|].
  apply Hdirs. vm_compute. repeat constructor.
Defined.
